(** * AlphaPulse: signal processing, conviction scoring, outcome tracking
      and backtest statistics

    A shallow embedding of the core of the [alphapulse] package:

    - [db/models.py]                       (module [Models])
    - [config.py]                          (module [Config])
    - [processors/signal_processor.py]     (module [SignalProcessor])
    - [services/conviction_calculator.py]  (module [ConvictionCalculator])
    - [services/outcome_tracker.py]        (module [OutcomeTracker])
    - [services/backtester.py]             (module [Backtester])

    Conventions of the embedding.

    - A Python [float] is a rational ([Q]): rounding, NaN and the infinities
      are not represented, except where the source produces [float('inf')]
      on purpose ([xfloat]).
    - A [datetime] is a rational number of seconds since the epoch, a
      [timedelta] a rational number of seconds.
    - The SQLAlchemy session is a record of tables, each table the list of
      its rows in insertion order; ORM objects are rows, a mutation of an
      object followed by [commit()] is an update of the row with its
      primary key.
    - Code that can raise lives in the monad [M]: state passing plus a
      result that is either a value or an exception.
    - [datetime.utcnow()] is an argument [now] of every operation that
      reads the clock; the reads within one call return the same instant. *)

From Stdlib Require Import QArith ZArith List String Bool Lia Lqa.
From Stdlib Require Import Qabs.
Import ListNotations.

Local Open Scope Q_scope.

(** ** Python values *)

Module Py.

(** The exceptions the modelled code can raise. *)
Inductive exn : Type :=
| ZeroDivisionError
| ValueError
| AttributeError
| ServiceError.

Inductive result (A : Type) : Type :=
| Ok (a : A)
| Raise (e : exn).
Arguments Ok {A} a.
Arguments Raise {A} e.

Definition datetime := Q.

Definition Qleb (a b : Q) : bool := Qle_bool a b.
Definition Qltb (a b : Q) : bool := negb (Qle_bool b a).
Definition Qgeb (a b : Q) : bool := Qle_bool b a.
Definition Qgtb (a b : Q) : bool := negb (Qle_bool a b).

(** [a / b] on floats: raises on a zero divisor. *)
Definition div (a b : Q) : result Q :=
  if Qeq_bool b 0 then Raise ZeroDivisionError else Ok (a / b).

(** Truth value of an [Optional[float]]: [None] and [0.0] are false. *)
Definition truthy (o : option Q) : bool :=
  match o with
  | Some q => negb (Qeq_bool q 0)
  | None => false
  end.

(** [o or d] for an [Optional[float]] [o]. *)
Definition or_else (o : option Q) (d : Q) : Q :=
  match o with
  | Some q => if Qeq_bool q 0 then d else q
  | None => d
  end.

(** The builtins [min(a, b)] and [max(a, b)]: the first argument wins
    a tie. *)
Definition min (a b : Q) : Q := if Qltb b a then b else a.
Definition max (a b : Q) : Q := if Qgtb b a then b else a.

(** [sum(xs)] and [len(xs)] as a float. *)
Definition sum (xs : list Q) : Q := fold_left Qplus xs 0.
Definition len {A : Type} (xs : list A) : Q := inject_Z (Z.of_nat (List.length xs)).

(** [min(xs)] and [max(xs)] of a list: [ValueError] on the empty list. *)
Definition min_list (xs : list Q) : result Q :=
  match xs with
  | [] => Raise ValueError
  | x :: r => Ok (fold_left (fun m y => if Qltb y m then y else m) r x)
  end.
Definition max_list (xs : list Q) : result Q :=
  match xs with
  | [] => Raise ValueError
  | x :: r => Ok (fold_left (fun m y => if Qgtb y m then y else m) r x)
  end.

(** [int(x)]: truncation towards zero. *)
Definition int (x : Q) : Z := Z.quot (Qnum x) (Zpos (Qden x)).

(** [Query.first()]: the first row that passes the filter. *)
Fixpoint first {A : Type} (p : A -> bool) (l : list A) : option A :=
  match l with
  | [] => None
  | x :: r => if p x then Some x else first p r
  end.

(** Membership in a list of strings, and of integers ([x in xs]). *)
Definition mem_str (x : string) (xs : list string) : bool :=
  existsb (String.eqb x) xs.
Definition mem_Z (x : Z) (xs : list Z) : bool :=
  existsb (Z.eqb x) xs.

(** [set(xs)] of integers and of strings, listed without repetition. *)
Fixpoint set_Z (xs : list Z) : list Z :=
  match xs with
  | [] => []
  | x :: r => if mem_Z x r then set_Z r else x :: set_Z r
  end.
Fixpoint set_str (xs : list string) : list string :=
  match xs with
  | [] => []
  | x :: r => if mem_str x r then set_str r else x :: set_str r
  end.

(** Sequencing of computations that can raise. *)
Definition rbind {A B : Type} (r : result A) (k : A -> result B) : result B :=
match r with
| Ok a => k a
| Raise e => Raise e
end.

End Py.
Import Py.

Notation "'let?' x ':=' r 'in' k" := (rbind r (fun x => k))
(at level 10, x name, r at level 100, k at level 200).

(** ** db/models.py *)

Module Models.

Record SmartWallet : Type := mkSmartWallet {
  sw_id : Z;
  sw_address : string;
  sw_win_rate : Q;
  sw_total_trades : Z;
  sw_trades_7d : Z;
  sw_pnl_total_sol : Q;
  sw_pnl_7d_sol : Q;
  sw_avg_hold_time_mins : option Q;
  sw_conviction_score : Q;
  sw_is_active : bool;
  sw_last_activity : option datetime
}.

Record Token : Type := mkToken {
  tk_id : Z;
  tk_contract_address : string;
  tk_name : option string;
  tk_symbol : option string;
  tk_market_cap_sol : option Q;
  tk_liquidity_sol : option Q;
  tk_total_supply : option Q;
  tk_platform : string;
  tk_launched_at : option datetime;
  tk_is_rugged : bool
}.

Inductive TradeType : Type := BUY | SELL.

Definition is_buy (t : TradeType) : bool :=
  match t with BUY => true | SELL => false end.

Record Trade : Type := mkTrade {
  tr_id : Z;
  tr_wallet_id : Z;
  tr_token_id : Z;
  tr_tx_signature : string;
  tr_trade_type : TradeType;
  tr_sol_amount : Q;
  tr_token_amount : Q;
  tr_supply_percentage : option Q;
  tr_mcap_at_trade : option Q;
  tr_block_time : datetime
}.

(** [Alert.alert_type] holds the [value] of a [SignalType]. *)
Inductive SignalType : Type :=
| HIGH_CONVICTION
| CLUSTER_BUY
| VOLUME_SPIKE.

Definition SignalType_eqb (a b : SignalType) : bool :=
  match a, b with
  | HIGH_CONVICTION, HIGH_CONVICTION
  | CLUSTER_BUY, CLUSTER_BUY
  | VOLUME_SPIKE, VOLUME_SPIKE => true
  | _, _ => false
  end.

Record Alert : Type := mkAlert {
  al_id : Z;
  al_token_id : Z;
  al_alert_type : SignalType;
  al_total_sol_volume : Q;
  al_wallet_count : Z;
  al_avg_win_rate : option Q;
  al_max_supply_pct : option Q;
  al_is_sent : bool;
  al_sent_at : option datetime;
  al_created_at : datetime;
  al_outcome_pnl : option Q;
  al_outcome_checked_at : option datetime
}.

Record ClusterEvent : Type := mkClusterEvent {
  ce_id : Z;
  ce_token_id : Z;
  ce_wallet_addresses : list string;
  ce_wallet_count : Z;
  ce_total_sol : Q;
  ce_first_buy_at : datetime;
  ce_last_buy_at : datetime;
  ce_window_seconds : Z
}.

(** The session: one list of rows per table. *)
Record Session : Type := mkSession {
  wallets : list SmartWallet;
  tokens : list Token;
  trades : list Trade;
  alerts : list Alert;
  cluster_events : list ClusterEvent
}.

(** The next value of an autoincrement primary key. *)
Definition next_id {A : Type} (id : A -> Z) (rows : list A) : Z :=
  1 + fold_left Z.max (map id rows) 0%Z.

(** State and exceptions. *)
Definition M (A : Type) : Type := Session -> result A * Session.

Definition ret {A : Type} (a : A) : M A := fun s => (Ok a, s).
Definition raise {A : Type} (e : exn) : M A := fun s => (Raise e, s).
Definition bind {A B : Type} (m : M A) (k : A -> M B) : M B :=
  fun s =>
    match m s with
    | (Ok a, s') => k a s'
    | (Raise e, s') => (Raise e, s')
    end.
Definition lift {A : Type} (r : result A) : M A := fun s => (r, s).
Definition get : M Session := fun s => (Ok s, s).
Definition put (s : Session) : M unit := fun _ => (Ok tt, s).

(** A step that reads and writes the session and cannot raise. *)
Definition step {A : Type} (f : Session -> A * Session) : M A :=
  fun s => let (a, s') := f s in (Ok a, s').

(** [Token.age_minutes]. *)
Definition age_minutes (now : datetime) (t : Token) : Q :=
  match tk_launched_at t with
  | None => 0
  | Some launched => (now - launched) / 60
  end.

(** The relationships [trade.wallet], [trade.token] and [alert.token]. *)
Definition wallet_of (s : Session) (t : Trade) : option SmartWallet :=
  first (fun w => Z.eqb (sw_id w) (tr_wallet_id t)) (wallets s).
Definition token_of (s : Session) (t : Trade) : option Token :=
  first (fun k => Z.eqb (tk_id k) (tr_token_id t)) (tokens s).
Definition alert_token (s : Session) (a : Alert) : option Token :=
  first (fun k => Z.eqb (tk_id k) (al_token_id a)) (tokens s).

(** [WalletRepository.get_by_address]. *)
Definition get_by_address (s : Session) (address : string) : option SmartWallet :=
  first (fun w => String.eqb (sw_address w) address) (wallets s).

(** [TradeRepository.get_recent_buys_for_token]. *)
Definition get_recent_buys_for_token
    (now : datetime) (s : Session) (token_id : Z) (minutes : Z) : list Trade :=
  let cutoff := now - inject_Z (60 * minutes) in
  filter (fun t => Z.eqb (tr_token_id t) token_id
                   && is_buy (tr_trade_type t)
                   && Qgeb (tr_block_time t) cutoff) (trades s).

(** [TradeRepository.check_cluster_condition]. *)
Definition check_cluster_condition
    (now : datetime) (s : Session) (token_id : Z)
    (min_wallets window_mins : Z) (min_sol : Q) : bool * list Trade :=
  let trades := get_recent_buys_for_token now s token_id window_mins in
  let qualifying_trades := filter (fun t => Qgeb (tr_sol_amount t) min_sol) trades in
  let unique_wallets := set_Z (map tr_wallet_id qualifying_trades) in
  (Z.geb (Z.of_nat (List.length unique_wallets)) min_wallets, qualifying_trades).

End Models.
Import Models.

Declare Scope py_scope.
Delimit Scope py_scope with py.
Notation "x <- m ;; k" := (bind m (fun x => k))
  (at level 100, m at next level, right associativity) : py_scope.
Notation "' pat <- m ;; k" := (bind m (fun x => match x with pat => k end))
  (at level 100, pat pattern, m at next level, right associativity) : py_scope.

(** ** config.py *)

Module Config.

Record Settings : Type := mkSettings {
  high_conviction_min_sol : Q;
  high_conviction_min_supply_pct : Q;
  cluster_min_wallets : Z;
  cluster_window_minutes : Z;
  cluster_min_sol : Q;
  volume_spike_threshold : Q;
  new_token_max_age_minutes : Z
}.

(** The defaults of the [Field]s. *)
Definition settings : Settings := {|
  high_conviction_min_sol := 1;
  high_conviction_min_supply_pct := 1 # 2;
  cluster_min_wallets := 2;
  cluster_window_minutes := 5;
  cluster_min_sol := 1 # 2;
  volume_spike_threshold := 1 # 10;
  new_token_max_age_minutes := 60
|}.

End Config.
Import Config.

(** ** processors/signal_processor.py *)

Module SignalProcessor.

Local Open Scope py_scope.

(** A value of the free-form [details] map. *)
Inductive DetailValue : Type :=
| VFloat (q : Q)
| VInt (z : Z)
| VStr (s : string)
| VStrList (l : list string).

Record SignalResult : Type := mkSignalResult {
  triggered : bool;
  signal_type : SignalType;
  sr_token : option Token;
  sr_trades : list Trade;
  sr_wallets : list SmartWallet;
  total_sol : Q;
  max_supply_pct : Q;
  details : list (string * DetailValue);
  rug_checked : bool;
  rug_passed : bool;
  rug_risk_score : Z;
  rug_warnings : list string
}.

(** [SignalResult(triggered=False, signal_type=ty)]: every other field at
    its default. *)
Definition not_triggered (ty : SignalType) : SignalResult := {|
  triggered := false; signal_type := ty; sr_token := None;
  sr_trades := []; sr_wallets := []; total_sol := 0; max_supply_pct := 0;
  details := []; rug_checked := false; rug_passed := true;
  rug_risk_score := 0; rug_warnings := []
|}.

(** Row updates: the mutated object replaces the row with its key. *)
Definition update_token (t : Token) (s : Session) : Session := {|
  wallets := wallets s;
  tokens := map (fun r => if Z.eqb (tk_id r) (tk_id t) then t else r) (tokens s);
  trades := trades s; alerts := alerts s; cluster_events := cluster_events s
|}.
Definition update_wallet (w : SmartWallet) (s : Session) : Session := {|
  wallets := map (fun r => if Z.eqb (sw_id r) (sw_id w) then w else r) (wallets s);
  tokens := tokens s; trades := trades s; alerts := alerts s;
  cluster_events := cluster_events s
|}.
Definition add_token (t : Token) (s : Session) : Session := {|
  wallets := wallets s; tokens := tokens s ++ [t]; trades := trades s;
  alerts := alerts s; cluster_events := cluster_events s
|}.
Definition add_trade (t : Trade) (s : Session) : Session := {|
  wallets := wallets s; tokens := tokens s; trades := trades s ++ [t];
  alerts := alerts s; cluster_events := cluster_events s
|}.
Definition add_cluster_event (c : ClusterEvent) (s : Session) : Session := {|
  wallets := wallets s; tokens := tokens s; trades := trades s;
  alerts := alerts s; cluster_events := cluster_events s ++ [c]
|}.

Definition set_market_cap_sol (v : option Q) (t : Token) : Token := {|
  tk_id := tk_id t; tk_contract_address := tk_contract_address t;
  tk_name := tk_name t; tk_symbol := tk_symbol t;
  tk_market_cap_sol := v; tk_liquidity_sol := tk_liquidity_sol t;
  tk_total_supply := tk_total_supply t; tk_platform := tk_platform t;
  tk_launched_at := tk_launched_at t; tk_is_rugged := tk_is_rugged t
|}.
Definition set_total_supply (v : option Q) (t : Token) : Token := {|
  tk_id := tk_id t; tk_contract_address := tk_contract_address t;
  tk_name := tk_name t; tk_symbol := tk_symbol t;
  tk_market_cap_sol := tk_market_cap_sol t; tk_liquidity_sol := tk_liquidity_sol t;
  tk_total_supply := v; tk_platform := tk_platform t;
  tk_launched_at := tk_launched_at t; tk_is_rugged := tk_is_rugged t
|}.
Definition set_last_activity (v : option datetime) (w : SmartWallet) : SmartWallet := {|
  sw_id := sw_id w; sw_address := sw_address w; sw_win_rate := sw_win_rate w;
  sw_total_trades := sw_total_trades w; sw_trades_7d := sw_trades_7d w;
  sw_pnl_total_sol := sw_pnl_total_sol w; sw_pnl_7d_sol := sw_pnl_7d_sol w;
  sw_avg_hold_time_mins := sw_avg_hold_time_mins w;
  sw_conviction_score := sw_conviction_score w; sw_is_active := sw_is_active w;
  sw_last_activity := v
|}.

(** [_get_or_create_token] *)
Definition _get_or_create_token
    (now : datetime) (contract_address : string)
    (market_cap total_supply : option Q) (s : Session) : Token * Session :=
  match first (fun k => String.eqb (tk_contract_address k) contract_address)
                (tokens s) with
  | None =>
      let token := {|
        tk_id := next_id tk_id (tokens s);
        tk_contract_address := contract_address;
        tk_name := None; tk_symbol := None;
        tk_market_cap_sol := market_cap; tk_liquidity_sol := None;
        tk_total_supply := total_supply; tk_platform := "unknown";
        tk_launched_at := Some now; tk_is_rugged := false |} in
        (token, add_token token s)
  | Some token =>
      let token := if truthy market_cap
                   then set_market_cap_sol market_cap token else token in
      let token := if truthy total_supply
                   then set_total_supply total_supply token else token in
        (token, update_token token s)
  end.

(** [_record_trade].  The result pairs the trade with the wallet object as
    the call leaves it ([last_activity] is set when a trade is added).
    Neither this function nor [_get_or_create_token] has a statement that
    can raise: both are plain state transformers. *)
Definition _record_trade
    (wallet : SmartWallet) (token : Token)
    (sol_amount token_amount supply_pct : Q) (tx_signature : string)
    (block_time : datetime) (market_cap : option Q) (s : Session)
    : (Trade * SmartWallet) * Session :=
  match first (fun t => String.eqb (tr_tx_signature t) tx_signature)
                (trades s) with
  | Some existing => ((existing, wallet), s)
  | None =>
      let trade := {|
        tr_id := next_id tr_id (trades s);
        tr_wallet_id := sw_id wallet; tr_token_id := tk_id token;
        tr_tx_signature := tx_signature; tr_trade_type := BUY;
        tr_sol_amount := sol_amount; tr_token_amount := token_amount;
        tr_supply_percentage := Some supply_pct;
        tr_mcap_at_trade := market_cap; tr_block_time := block_time |} in
      let wallet := set_last_activity (Some block_time) wallet in
        ((trade, wallet), update_wallet wallet (add_trade trade s))
  end.

(** The loop of [_check_cluster_buying] over the qualifying trades. *)
Fixpoint gather_cluster
    (s : Session) (trades : list Trade)
    (wallets : list SmartWallet) (wallet_addresses : list string)
    (total_sol max_supply : Q)
    : result (list SmartWallet * list string * Q * Q) :=
  match trades with
  | [] => Ok (wallets, wallet_addresses, total_sol, max_supply)
  | trade :: rest =>
      match wallet_of s trade with
      | None => Raise AttributeError
      | Some w =>
          let fresh := negb (mem_str (sw_address w) wallet_addresses) in
          gather_cluster s rest
            (if fresh then wallets ++ [w] else wallets)
            (if fresh then wallet_addresses ++ [sw_address w] else wallet_addresses)
            (total_sol + tr_sol_amount trade)
            (Py.max max_supply (or_else (tr_supply_percentage trade) 0))
      end
  end.

(** [t.wallet.address for t in trades] *)
Fixpoint trade_addresses (s : Session) (trades : list Trade) : result (list string) :=
  match trades with
  | [] => Ok []
  | t :: rest =>
      match wallet_of s t with
      | None => Raise AttributeError
      | Some w =>
          match trade_addresses s rest with
          | Ok l => Ok (sw_address w :: l)
          | Raise e => Raise e
          end
      end
  end.

(** [_record_cluster_event] *)
Definition _record_cluster_event (token : Token) (trades : list Trade) : M ClusterEvent :=
  s <- get ;;
  all_addresses <- lift (trade_addresses s trades) ;;
  let addresses := set_str all_addresses in
  let block_times := map tr_block_time trades in
  first_buy <- lift (min_list block_times) ;;
  last_buy <- lift (max_list block_times) ;;
  let cluster := {|
    ce_id := next_id ce_id (cluster_events s);
    ce_token_id := tk_id token;
    ce_wallet_addresses := addresses;
    ce_wallet_count := Z.of_nat (List.length addresses);
    ce_total_sol := sum (map tr_sol_amount trades);
    ce_first_buy_at := first_buy;
    ce_last_buy_at := last_buy;
    ce_window_seconds := int (last_buy - first_buy) |} in
  _ <- put (add_cluster_event cluster s) ;;
  ret cluster.

Section Processor.

(** The thresholds [__init__] loads from the settings. *)
Variable cfg : Settings.

(** [_check_high_conviction] *)
Definition _check_high_conviction
    (wallet : SmartWallet) (trade : Trade) (token : Token)
    (supply_pct sol_amount : Q) : SignalResult :=
  let triggered :=
    Qgeb sol_amount (high_conviction_min_sol cfg)
    && Qgeb supply_pct (high_conviction_min_supply_pct cfg) in
  {| triggered := triggered;
     signal_type := HIGH_CONVICTION;
     sr_token := Some token;
     sr_trades := [trade];
     sr_wallets := [wallet];
     total_sol := sol_amount;
     max_supply_pct := supply_pct;
     details := [("wallet_address", VStr (sw_address wallet));
                 ("wallet_win_rate", VFloat (sw_win_rate wallet));
                 ("sol_amount", VFloat sol_amount);
                 ("supply_pct", VFloat supply_pct);
                 ("conviction_score", VFloat (sw_conviction_score wallet))]%string;
     rug_checked := false; rug_passed := true;
     rug_risk_score := 0; rug_warnings := [] |}.

(** [_check_cluster_buying] *)
Definition _check_cluster_buying (now : datetime) (token : Token) : M SignalResult :=
  s <- get ;;
  let '(is_cluster, trades) :=
    check_cluster_condition now s (tk_id token)
      (cluster_min_wallets cfg) (cluster_window_minutes cfg) (cluster_min_sol cfg) in
  if negb is_cluster then ret (not_triggered CLUSTER_BUY)
  else
    '(wallets, wallet_addresses, total_sol, max_supply) <-
        lift (gather_cluster s trades [] [] 0 0) ;;
    _ <- _record_cluster_event token trades ;;
    avg_win_rate <- lift (div (sum (map sw_win_rate wallets)) (len wallets)) ;;
    ret {| triggered := true;
           signal_type := CLUSTER_BUY;
           sr_token := Some token;
           sr_trades := trades;
           sr_wallets := wallets;
           total_sol := total_sol;
           max_supply_pct := max_supply;
           details := [("wallet_count", VInt (Z.of_nat (List.length wallets)));
                       ("wallet_addresses", VStrList wallet_addresses);
                       ("avg_win_rate", VFloat avg_win_rate);
                       ("window_minutes", VInt (cluster_window_minutes cfg))]%string;
           rug_checked := false; rug_passed := true;
           rug_risk_score := 0; rug_warnings := [] |}.

(** The trailing five minutes of buys of [_check_volume_spike]. *)
Definition recent_trades (now : datetime) (s : Session) (token : Token) : list Trade :=
  let five_min_ago := now - 300 in
  filter (fun t => Z.eqb (tr_token_id t) (tk_id token)
                   && is_buy (tr_trade_type t)
                   && Qgeb (tr_block_time t) five_min_ago) (trades s).

(** [_check_volume_spike] *)
Definition _check_volume_spike (now : datetime) (token : Token) : M SignalResult :=
  if Qgtb (age_minutes now token) (inject_Z (new_token_max_age_minutes cfg))
  then ret (not_triggered VOLUME_SPIKE)
  else
    s <- get ;;
    let recent_trades := recent_trades now s token in
    let volume_5m := sum (map tr_sol_amount recent_trades) in
    let market_cap := or_else (tk_market_cap_sol token) 0 in
    if Qleb market_cap 0 then ret (not_triggered VOLUME_SPIKE)
    else
      volume_ratio <- lift (div volume_5m market_cap) ;;
      let triggered := Qgeb volume_ratio (volume_spike_threshold cfg) in
      ret {| triggered := triggered;
             signal_type := VOLUME_SPIKE;
             sr_token := Some token;
             sr_trades := recent_trades;
             sr_wallets := [];
             total_sol := volume_5m;
             max_supply_pct := 0;
             details := [("volume_5m_sol", VFloat volume_5m);
                         ("market_cap_sol", VFloat market_cap);
                         ("volume_ratio", VFloat volume_ratio);
                         ("threshold", VFloat (volume_spike_threshold cfg));
                         ("token_age_mins", VFloat (age_minutes now token))]%string;
             rug_checked := false; rug_passed := true;
             rug_risk_score := 0; rug_warnings := [] |}.

(** [supply_pct] as [process_buy_event] computes it. *)
Definition supply_percentage (token_amount : Q) (total_supply : option Q) : Q :=
  match total_supply with
  | Some ts =>
      if negb (Qeq_bool ts 0) && Qgtb ts 0 then (token_amount / ts) * 100 else 0
  | None => 0
  end.

(** [process_buy_event] *)
Definition process_buy_event
    (now : datetime) (wallet_address token_ca : string)
    (sol_amount token_amount : Q) (tx_signature : string)
    (block_time : datetime) (market_cap total_supply : option Q)
    : M (list SignalResult) :=
  let signals := [] in
  s <- get ;;
  match get_by_address s wallet_address with
  | None => ret signals
  | Some wallet =>
      token <- step (_get_or_create_token now token_ca market_cap total_supply) ;;
      let supply_pct := supply_percentage token_amount total_supply in
      '(trade, wallet) <- step (_record_trade wallet token sol_amount token_amount
                                  supply_pct tx_signature block_time market_cap) ;;
      let hc_signal := _check_high_conviction wallet trade token supply_pct sol_amount in
      let signals := if triggered hc_signal then signals ++ [hc_signal] else signals in
      cluster_signal <- _check_cluster_buying now token ;;
      let signals :=
        if triggered cluster_signal then signals ++ [cluster_signal] else signals in
      if Qleb (age_minutes now token) (inject_Z (new_token_max_age_minutes cfg))
      then
        volume_signal <- _check_volume_spike now token ;;
        ret (if triggered volume_signal then signals ++ [volume_signal] else signals)
      else ret signals
  end.

End Processor.

End SignalProcessor.


(** ** services/conviction_calculator.py *)

Module ConvictionCalculator.

Record WalletMetrics : Type := mkWalletMetrics {
  address : string;
  win_rate : Q;
  total_trades : Z;
  trades_7d : Z;
  trades_30d : Z;
  pnl_total_sol : Q;
  pnl_7d_sol : Q;
  avg_hold_time_mins : Q;
  avg_entry_mcap : Q;
  best_trade_multiple : Q;
  consistency_score : Q;
  early_entry_rate : Q;
  rug_avoidance_rate : Q
}.

(** Weight configuration. *)
Definition WEIGHT_WIN_RATE : Q := 30.
Definition WEIGHT_CONSISTENCY : Q := 20.
Definition WEIGHT_FREQUENCY : Q := 15.
Definition WEIGHT_PNL : Q := 15.
Definition WEIGHT_EARLY_ENTRY : Q := 10.
Definition WEIGHT_RUG_AVOIDANCE : Q := 10.

(** One entry of the dictionary [trades_by_token]. *)
Record Amounts : Type := mkAmounts { buys : Q; sells : Q }.

(** The body of the loop that fills [trades_by_token]; the dictionary keeps
    its keys in insertion order. *)
Fixpoint add_to_token (trade : Trade) (d : list (Z * Amounts)) : list (Z * Amounts) :=
  let add (a : Amounts) : Amounts :=
    match tr_trade_type trade with
    | BUY => {| buys := buys a + tr_sol_amount trade; sells := sells a |}
    | SELL => {| buys := buys a; sells := sells a + tr_sol_amount trade |}
    end in
  match d with
  | [] => [(tr_token_id trade, add {| buys := 0; sells := 0 |})]
  | (k, a) :: r =>
      if Z.eqb k (tr_token_id trade) then (k, add a) :: r
      else (k, a) :: add_to_token trade r
  end.

Definition trades_by_token (trades : list Trade) : list (Z * Amounts) :=
  fold_left (fun d trade => add_to_token trade d) trades [].

Section Calculator.

(** [x ** 0.5] on floats. *)
Variable pow_half : Q -> Q.

(** [_calculate_consistency] *)
Definition _calculate_consistency (s : Session) (wallet : SmartWallet) : result Q :=
  let trades := filter (fun t => Z.eqb (tr_wallet_id t) (sw_id wallet)) (trades s) in
  let pnls := map (fun kv => sells (snd kv) - buys (snd kv)) (trades_by_token trades) in
  if Nat.ltb (List.length pnls) 3 then Ok 50
  else
    let? avg_pnl := div (sum pnls) (len pnls) in
    if Qeq_bool avg_pnl 0 then Ok 50
    else
      let? variance := div (sum (map (fun p => (p - avg_pnl) ^ 2) pnls)) (len pnls) in
      let std_dev := pow_half variance in
      let? cv := (if negb (Qeq_bool avg_pnl 0)
                  then let? r := div std_dev avg_pnl in Ok (Qabs r)
                  else Ok 1) in
      let consistency_score := Py.max 0 (100 - cv * 50) in
      Ok consistency_score.

(** The loop of [_gather_metrics] that counts the early entries. *)
Definition early_entries (s : Session) (buy_trades : list Trade) : Z :=
  Z.of_nat (List.length (filter (fun trade =>
    match token_of s trade with
    | Some token =>
        match tk_launched_at token with
        | Some launched_at =>
            let entry_age := (tr_block_time trade - launched_at) / 60 in
            Qleb entry_age 30
        | None => false
        end
    | None => false
    end) buy_trades)).

(** The count query of [_gather_metrics]: the trade rows whose token is one
    of [tokens_traded] and is flagged as rugged. *)
Definition rugged_tokens (s : Session) (tokens_traded : list Z) : Z :=
  Z.of_nat (List.length (filter (fun t =>
    mem_Z (tr_token_id t) tokens_traded
    && match token_of s t with
       | Some token => tk_is_rugged token
       | None => false
       end) (trades s))).

(** [_gather_metrics] *)
Definition _gather_metrics (now : datetime) (s : Session) (wallet : SmartWallet)
    : result WalletMetrics :=
  let seven_days_ago := now - inject_Z (7 * 86400) in
  let thirty_days_ago := now - inject_Z (30 * 86400) in
  let all_trades := filter (fun t => Z.eqb (tr_wallet_id t) (sw_id wallet)) (trades s) in
  let trades_7d := filter (fun t => Qgeb (tr_block_time t) seven_days_ago) all_trades in
  let trades_30d := filter (fun t => Qgeb (tr_block_time t) thirty_days_ago) all_trades in
  let buy_trades := filter (fun t => is_buy (tr_trade_type t)) all_trades in
  let early_entries := early_entries s buy_trades in
  let? early_entry_rate :=
    (match buy_trades with
     | [] => Ok 0
     | _ => let? r := div (inject_Z early_entries) (len buy_trades) in Ok (r * 100)
     end) in
  let tokens_traded := set_Z (map tr_token_id buy_trades) in
  let rugged_tokens := rugged_tokens s tokens_traded in
  let? rug_avoidance :=
    (match tokens_traded with
     | [] => Ok 100
     | _ => let? r := div (len tokens_traded - inject_Z rugged_tokens) (len tokens_traded) in
            Ok (r * 100)
     end) in
  let entry_mcaps :=
    flat_map (fun t => if truthy (tr_mcap_at_trade t)
                       then [or_else (tr_mcap_at_trade t) 0] else []) buy_trades in
  let? avg_entry_mcap :=
    (match entry_mcaps with
     | [] => Ok 0
     | _ => div (sum entry_mcaps) (len entry_mcaps)
     end) in
  let best_multiple := 1 in
  let? consistency := _calculate_consistency s wallet in
  Ok {| address := sw_address wallet;
        win_rate := sw_win_rate wallet;
        total_trades := sw_total_trades wallet;
        trades_7d := Z.of_nat (List.length trades_7d);
        trades_30d := Z.of_nat (List.length trades_30d);
        pnl_total_sol := sw_pnl_total_sol wallet;
        pnl_7d_sol := sw_pnl_7d_sol wallet;
        avg_hold_time_mins := or_else (sw_avg_hold_time_mins wallet) 0;
        avg_entry_mcap := avg_entry_mcap;
        best_trade_multiple := best_multiple;
        consistency_score := consistency;
        early_entry_rate := early_entry_rate;
        rug_avoidance_rate := rug_avoidance |}.

(** [_score_win_rate] *)
Definition _score_win_rate (win_rate : Q) : Q :=
  if Qleb win_rate 50 then 0
  else ((win_rate - 50) / 50) * WEIGHT_WIN_RATE.

(** [_score_consistency] *)
Definition _score_consistency (metrics : WalletMetrics) : Q :=
  (consistency_score metrics / 100) * WEIGHT_CONSISTENCY.

(** [_score_frequency] *)
Definition _score_frequency (trades_7d trades_30d : Z) : Q :=
  let ratio := Py.min 1 (inject_Z trades_7d / 10) in
  ratio * WEIGHT_FREQUENCY.

(** [_score_pnl] *)
Definition _score_pnl (pnl_total pnl_7d : Q) : Q :=
  if Qleb pnl_total 0 then 0
  else
    let ratio := Py.min 1 (pnl_total / 100) in
    ratio * WEIGHT_PNL.

(** [_score_early_entry] *)
Definition _score_early_entry (early_rate : Q) : Q :=
  let ratio := Py.min 1 (early_rate / 50) in
  ratio * WEIGHT_EARLY_ENTRY.

(** [_score_rug_avoidance] *)
Definition _score_rug_avoidance (avoidance_rate : Q) : Q :=
  if Qleb avoidance_rate 50 then 0
  else
    let ratio := (avoidance_rate - 50) / 50 in
    ratio * WEIGHT_RUG_AVOIDANCE.

(** The six component scores of [calculate_score], in the order of the sum. *)
Record Components : Type := mkComponents {
  win_rate_score : Q;
  consistency_component : Q;
  frequency_score : Q;
  pnl_score : Q;
  early_entry_score : Q;
  rug_avoidance_score : Q
}.

Definition components (metrics : WalletMetrics) : Components := {|
  win_rate_score := _score_win_rate (win_rate metrics);
  consistency_component := _score_consistency metrics;
  frequency_score := _score_frequency (trades_7d metrics) (trades_30d metrics);
  pnl_score := _score_pnl (pnl_total_sol metrics) (pnl_7d_sol metrics);
  early_entry_score := _score_early_entry (early_entry_rate metrics);
  rug_avoidance_score := _score_rug_avoidance (rug_avoidance_rate metrics)
|}.

Definition total_score (c : Components) : Q :=
  win_rate_score c + consistency_component c + frequency_score c
  + pnl_score c + early_entry_score c + rug_avoidance_score c.

(** [calculate_score] *)
Definition calculate_score (now : datetime) (s : Session) (wallet : SmartWallet)
    : result Q :=
  let? metrics := _gather_metrics now s wallet in
  let total_score := total_score (components metrics) in
  Ok (Py.min 100 (Py.max 0 total_score)).

End Calculator.

End ConvictionCalculator.


(** ** services/outcome_tracker.py *)

Module OutcomeTracker.

Local Open Scope py_scope.

Inductive OutcomeStatus : Type :=
| PENDING
| WINNER
| LOSER
| RUGGED
| UNKNOWN.

Record AlertOutcome : Type := mkAlertOutcome {
  alert_id : Z;
  token_ca : string;
  status : OutcomeStatus;
  price_at_alert : Q;
  price_current : Q;
  price_ath : Q;
  return_pct : Q;
  ath_return_pct : Q;
  time_to_ath_mins : Q;
  alert_age_mins : Q;
  checked_at : datetime
}.

Record PerformanceStats : Type := mkPerformanceStats {
  total_alerts : Z;
  winners : Z;
  losers : Z;
  rugged : Z;
  pending : Z;
  win_rate : Q;
  avg_return_pct : Q;
  avg_loss_pct : Q;
  best_return_pct : Q;
  worst_loss_pct : Q;
  high_conviction_win_rate : Q;
  cluster_buy_win_rate : Q;
  volume_spike_win_rate : Q
}.

(** The fields of [TokenMetadata] the tracker reads. *)
Record TokenMetadata : Type := mkTokenMetadata {
  md_price_usd : Q;
  md_total_supply : Q
}.

(** Thresholds. *)
Definition WIN_THRESHOLD_PCT : Q := 20.
Definition LOSS_THRESHOLD_PCT : Q := -30.
Definition RUG_THRESHOLD_PCT : Q := -80.

(** The [if]/[elif] chain of [check_alert_outcome] that determines the
    status. *)
Definition determine_status (alert_age_mins return_pct : Q) : OutcomeStatus :=
  if Qltb alert_age_mins 30 then PENDING
  else if Qleb return_pct RUG_THRESHOLD_PCT then RUGGED
  else if Qgeb return_pct WIN_THRESHOLD_PCT then WINNER
  else if Qleb return_pct LOSS_THRESHOLD_PCT then LOSER
  else PENDING.

Definition set_is_rugged (v : bool) (t : Token) : Token := {|
  tk_id := tk_id t; tk_contract_address := tk_contract_address t;
  tk_name := tk_name t; tk_symbol := tk_symbol t;
  tk_market_cap_sol := tk_market_cap_sol t; tk_liquidity_sol := tk_liquidity_sol t;
  tk_total_supply := tk_total_supply t; tk_platform := tk_platform t;
  tk_launched_at := tk_launched_at t; tk_is_rugged := v
|}.

Definition set_outcome (pnl : Q) (checked_at : datetime) (a : Alert) : Alert := {|
  al_id := al_id a; al_token_id := al_token_id a; al_alert_type := al_alert_type a;
  al_total_sol_volume := al_total_sol_volume a; al_wallet_count := al_wallet_count a;
  al_avg_win_rate := al_avg_win_rate a; al_max_supply_pct := al_max_supply_pct a;
  al_is_sent := al_is_sent a; al_sent_at := al_sent_at a;
  al_created_at := al_created_at a;
  al_outcome_pnl := Some pnl; al_outcome_checked_at := Some checked_at
|}.

(** [token.is_rugged = True] followed by [commit()]. *)
Definition flag_rugged (token : Token) (s : Session) : Session := {|
  wallets := wallets s;
  tokens := map (fun r => if Z.eqb (tk_id r) (tk_id token)
                          then set_is_rugged true r else r) (tokens s);
  trades := trades s; alerts := alerts s; cluster_events := cluster_events s
|}.

(** [alert.outcome_pnl = ...; alert.outcome_checked_at = ...] followed by
    [commit()]. *)
Definition write_outcome (alert : Alert) (pnl : Q) (checked_at : datetime)
    (s : Session) : Session := {|
  wallets := wallets s; tokens := tokens s; trades := trades s;
  alerts := map (fun r => if Z.eqb (al_id r) (al_id alert)
                          then set_outcome pnl checked_at r else r) (alerts s);
  cluster_events := cluster_events s
|}.

Section Tracker.

(** [self.token_service.get_token_metadata], by contract address; the
    service may fail. *)
Variable get_token_metadata : string -> result TokenMetadata.

(** [check_alert_outcome] *)
Definition check_alert_outcome (now : datetime) (alert : Alert) : M AlertOutcome :=
  s <- get ;;
  match alert_token s alert with
  | None => raise AttributeError
  | Some token =>
      let alert_age_mins := (now - al_created_at alert) / 60 in
      metadata <- lift (get_token_metadata (tk_contract_address token)) ;;
      let current_price := md_price_usd metadata in
      let trigger_trades :=
        filter (fun t => Z.eqb (tr_token_id t) (tk_id token)
                         && Qgeb (tr_block_time t) (al_created_at alert - 60)
                         && Qleb (tr_block_time t) (al_created_at alert + 60))
               (trades s) in
      price_at_alert <-
        lift (match trigger_trades with
              | t0 :: _ =>
                  if truthy (tr_mcap_at_trade t0)
                  then div (or_else (tr_mcap_at_trade t0) 0)
                           (or_else (Some (md_total_supply metadata)) 1)
                  else Ok current_price
              | [] => Ok current_price
              end) ;;
      return_pct <-
        lift (if Qgtb price_at_alert 0
              then let? r := div (current_price - price_at_alert) price_at_alert in
                   Ok (r * 100)
              else Ok 0) ;;
      let price_ath := Py.max current_price (price_at_alert * (3 # 2)) in
      ath_return_pct <-
        lift (if Qgtb price_at_alert 0
              then let? r := div (price_ath - price_at_alert) price_at_alert in
                   Ok (r * 100)
              else Ok 0) ;;
      let status := determine_status alert_age_mins return_pct in
      _ <- (match status with
            | RUGGED => put (flag_rugged token s)
            | _ => ret tt
            end) ;;
      let outcome := {|
        alert_id := al_id alert;
        token_ca := tk_contract_address token;
        status := status;
        price_at_alert := price_at_alert;
        price_current := current_price;
        price_ath := price_ath;
        return_pct := return_pct;
        ath_return_pct := ath_return_pct;
        time_to_ath_mins := 15;
        alert_age_mins := alert_age_mins;
        checked_at := now |} in
      s' <- get ;;
      _ <- put (write_outcome alert return_pct now s') ;;
      ret outcome
  end.

(** The query of [check_pending_alerts]. *)
Definition alerts_to_check (now : datetime) (s : Session) : list Alert :=
  let cutoff := now - 1800 in
  let recheck_cutoff := now - 14400 in
  firstn 50
    (filter (fun a =>
       Qleb (al_created_at a) cutoff
       && match al_outcome_checked_at a with
          | None => true
          | Some c => Qleb c recheck_cutoff
          end) (alerts s)).

(** The loop of [check_pending_alerts]: an alert whose check raises is
    logged and skipped. *)
Fixpoint check_each (now : datetime) (alerts : list Alert) (outcomes : list AlertOutcome)
    : M (list AlertOutcome) :=
  match alerts with
  | [] => ret outcomes
  | alert :: rest =>
      fun s =>
        match check_alert_outcome now alert s with
        | (Ok outcome, s') => check_each now rest (outcomes ++ [outcome]) s'
        | (Raise _, s') => check_each now rest outcomes s'
        end
  end.

(** [check_pending_alerts] *)
Definition check_pending_alerts (now : datetime) : M (list AlertOutcome) :=
  s <- get ;;
  check_each now (alerts_to_check now s) [].

End Tracker.

(** [max(xs) if xs else 0] and [min(xs) if xs else 0]. *)
Definition max_or_0 (xs : list Q) : Q :=
  match max_list xs with Ok m => m | Raise _ => 0 end.
Definition min_or_0 (xs : list Q) : Q :=
  match min_list xs with Ok m => m | Raise _ => 0 end.

(** [a.outcome_pnl] of an alert the query has kept ([outcome_pnl != None]). *)
Definition pnl (a : Alert) : Q :=
  match al_outcome_pnl a with Some p => p | None => 0 end.

(** [len(xs) / resolved * 100 if resolved > 0 else 0] *)
Definition rate (n resolved : Z) : result Q :=
  if Z.ltb 0 resolved
  then let? r := div (inject_Z n) (inject_Z resolved) in Ok (r * 100)
  else Ok 0.

(** [sum(xs) / len(xs) if xs else 0] *)
Definition average (xs : list Q) : result Q :=
  match xs with
  | [] => Ok 0
  | _ => div (sum xs) (len xs)
  end.

Definition count {A : Type} (xs : list A) : Z := Z.of_nat (List.length xs).

(** The inner function [win_rate_for_type] of [get_performance_stats]. *)
Definition win_rate_for_type (alerts : list Alert) (alert_type : SignalType) : result Q :=
  let type_alerts := filter (fun a => SignalType_eqb (al_alert_type a) alert_type) alerts in
  let type_winners := filter (fun a => Qgeb (pnl a) WIN_THRESHOLD_PCT) type_alerts in
  let type_resolved :=
    (count (filter (fun a => Qleb (pnl a) LOSS_THRESHOLD_PCT) type_alerts)
     + count type_winners)%Z in
  rate (count type_winners) type_resolved.

(** [get_performance_stats] *)
Definition get_performance_stats (now : datetime) (s : Session) (days : Z)
    : result PerformanceStats :=
  let cutoff := now - inject_Z (days * 86400) in
  let alerts :=
    filter (fun a => Qgeb (al_created_at a) cutoff
                     && match al_outcome_pnl a with Some _ => true | None => false end)
           (alerts s) in
  match alerts with
  | [] =>
      Ok {| total_alerts := 0; winners := 0; losers := 0; rugged := 0; pending := 0;
            win_rate := 0; avg_return_pct := 0; avg_loss_pct := 0;
            best_return_pct := 0; worst_loss_pct := 0;
            high_conviction_win_rate := 0; cluster_buy_win_rate := 0;
            volume_spike_win_rate := 0 |}
  | _ =>
      let winners := filter (fun a => Qgeb (pnl a) WIN_THRESHOLD_PCT) alerts in
      let losers := filter (fun a => Qleb (pnl a) LOSS_THRESHOLD_PCT) alerts in
      let rugged := filter (fun a => Qleb (pnl a) RUG_THRESHOLD_PCT) alerts in
      let resolved := (count winners + count losers)%Z in
      let? win_rate := rate (count winners) resolved in
      let winner_returns := map pnl winners in
      let loser_returns := map pnl losers in
      let? avg_return := average winner_returns in
      let? avg_loss := average loser_returns in
      let all_returns := map pnl alerts in
      let best := max_or_0 all_returns in
      let worst := min_or_0 all_returns in
      let pending_count :=
        count (filter (fun a => Qgeb (al_created_at a) cutoff
                                && match al_outcome_pnl a with
                                   | Some _ => false
                                   | None => true
                                   end) (Models.alerts s)) in
      let? hc := win_rate_for_type alerts HIGH_CONVICTION in
      let? cb := win_rate_for_type alerts CLUSTER_BUY in
      let? vs := win_rate_for_type alerts VOLUME_SPIKE in
      Ok {| total_alerts := count alerts + pending_count;
            winners := count winners;
            losers := count losers;
            rugged := count rugged;
            pending := pending_count;
            win_rate := win_rate;
            avg_return_pct := avg_return;
            avg_loss_pct := avg_loss;
            best_return_pct := best;
            worst_loss_pct := worst;
            high_conviction_win_rate := hc;
            cluster_buy_win_rate := cb;
            volume_spike_win_rate := vs |}
  end.

End OutcomeTracker.


(** ** services/backtester.py *)

Module Backtester.

(** A float that may be [float('inf')]. *)
Inductive xfloat : Type :=
| Fin (q : Q)
| Inf.

Inductive ExitStrategy : Type :=
| FIXED_TIME
| TAKE_PROFIT
| STOP_LOSS
| TRAILING_STOP.

Record BacktestConfig : Type := mkBacktestConfig {
  start_date : datetime;
  end_date : datetime;
  signal_types : list SignalType;
  min_wallet_win_rate : Q;
  cfg_position_size_sol : Q;
  exit_strategy : ExitStrategy;
  exit_time_minutes : Z;
  take_profit_pct : Q;
  skip_rugged_tokens : bool
}.

Record BacktestTrade : Type := mkBacktestTrade {
  token_address : string;
  signal_type : SignalType;
  entry_time : datetime;
  entry_price : Q;
  entry_mcap : Q;
  exit_time : option datetime;
  exit_price : option Q;
  exit_reason : option string;
  position_size_sol : Q;
  pnl_sol : Q;
  pnl_pct : Q;
  max_pnl_pct : Q;
  wallet_win_rate : Q;
  supply_pct : Q;
  wallet_count : Z
}.

(** One entry of [stats_by_type]. *)
Record TypeStats : Type := mkTypeStats {
  ts_trades : Z;
  ts_win_rate : Q;
  ts_avg_pnl : Q;
  ts_total_pnl : Q
}.

Record BacktestResult : Type := mkBacktestResult {
  config : BacktestConfig;
  trades : list BacktestTrade;
  total_trades : Z;
  winning_trades : Z;
  losing_trades : Z;
  win_rate : Q;
  total_pnl_sol : Q;
  total_pnl_pct : Q;
  avg_pnl_pct : Q;
  best_trade_pct : Q;
  worst_trade_pct : Q;
  max_drawdown_pct : Q;
  sharpe_ratio : Q;
  profit_factor : xfloat;
  stats_by_type : list (SignalType * TypeStats)
}.

(** [BacktestResult(config=config, trades=trades)]: the summary fields at
    their defaults. *)
Definition new_result (config : BacktestConfig) (trades : list BacktestTrade)
    : BacktestResult := {|
  config := config; trades := trades;
  total_trades := 0; winning_trades := 0; losing_trades := 0; win_rate := 0;
  total_pnl_sol := 0; total_pnl_pct := 0; avg_pnl_pct := 0;
  best_trade_pct := 0; worst_trade_pct := 0;
  max_drawdown_pct := 0; sharpe_ratio := 0; profit_factor := Fin 0;
  stats_by_type := []
|}.

(** The step [# Calculate PnL] of [_simulate_trade]: [(pnl_pct, pnl_sol)].
    The quotient is exact here and rounded in the source: the facts stated
    about it are its sign, the case of equal prices, and the expression
    itself, not the value it comes to. *)
Definition calculate_pnl (config : BacktestConfig) (entry_price exit_price : Q)
    : result (Q * Q) :=
  let? pnl_pct :=
    (if Qgtb entry_price 0
     then let? r := div (exit_price - entry_price) entry_price in Ok (r * 100)
     else Ok 0) in
  let? hundredth := div pnl_pct 100 in
  let pnl_sol := cfg_position_size_sol config * hundredth in
  Ok (pnl_pct, pnl_sol).

Definition count {A : Type} (xs : list A) : Z := Z.of_nat (List.length xs).

(** The sums behind the profit factor. *)
Definition gross_profit (trades : list BacktestTrade) : Q :=
  sum (map pnl_sol (filter (fun t => Qgtb (pnl_sol t) 0) trades)).
Definition gross_loss (trades : list BacktestTrade) : Q :=
  Qabs (sum (map pnl_sol (filter (fun t => Qltb (pnl_sol t) 0) trades))).

(** The loop that computes the maximal drawdown:
    [(cumulative, peak, max_dd)] after the trades read so far.  The running
    sum is exact here and rounded in the source: the facts stated about the
    drawdown are those that comparisons alone decide. *)
Definition drawdown_step (acc : Q * Q * Q) (trade : BacktestTrade) : Q * Q * Q :=
  let '(cumulative, peak, max_dd) := acc in
  let cumulative := cumulative + pnl_pct trade in
  let peak := Py.max peak cumulative in
  let drawdown := peak - cumulative in
  (cumulative, peak, Py.max max_dd drawdown).

Definition max_drawdown (trades : list BacktestTrade) : Q :=
  snd (fold_left drawdown_step trades (0, 0, 0)).

(** The entry of [stats_by_type] for one signal type, if it has trades. *)
Definition type_stats (trades : list BacktestTrade) (ty : SignalType)
    : result (list (SignalType * TypeStats)) :=
  let type_trades := filter (fun t => SignalType_eqb (signal_type t) ty) trades in
  match type_trades with
  | [] => Ok []
  | _ =>
      let winners := count (filter (fun t => Qgtb (pnl_pct t) 0) type_trades) in
      let? wr := div (inject_Z winners) (len type_trades) in
      let? avg := div (sum (map pnl_pct type_trades)) (len type_trades) in
      Ok [(ty, {| ts_trades := count type_trades;
                  ts_win_rate := wr * 100;
                  ts_avg_pnl := avg;
                  ts_total_pnl := sum (map pnl_sol type_trades) |})]
  end.

(** [d[k] = v] on the dictionary [stats_by_type]. *)
Fixpoint dict_set (k : SignalType) (v : TypeStats) (d : list (SignalType * TypeStats))
    : list (SignalType * TypeStats) :=
  match d with
  | [] => [(k, v)]
  | (k', v') :: r => if SignalType_eqb k' k then (k', v) :: r else (k', v') :: dict_set k v r
  end.

(** [_calculate_stats]: the result object as the call leaves it.  Counts,
    the best and the worst trade are exact in the source as well; the
    averages and the sums are rounded there. *)
Definition _calculate_stats (result : BacktestResult) : Py.result BacktestResult :=
  match trades result with
  | [] => Ok result
  | _ =>
      let trades := trades result in
      let total_trades := count trades in
      let winning_trades := count (filter (fun t => Qgtb (pnl_pct t) 0) trades) in
      let losing_trades := count (filter (fun t => Qleb (pnl_pct t) 0) trades) in
      let? win_rate :=
        (if Z.ltb 0 total_trades
         then let? r := div (inject_Z winning_trades) (inject_Z total_trades) in
              Ok (r * 100)
         else Ok 0) in
      let pnls := map pnl_pct trades in
      let total_pnl_sol := sum (map pnl_sol trades) in
      let total_pnl_pct := sum pnls in
      let? avg_pnl_pct :=
        (if Z.ltb 0 total_trades then div total_pnl_pct (inject_Z total_trades)
         else Ok 0) in
      let? best := (match pnls with [] => Ok 0 | _ => max_list pnls end) in
      let? worst := (match pnls with [] => Ok 0 | _ => min_list pnls end) in
      let gross_profit := gross_profit trades in
      let gross_loss := gross_loss trades in
      let? profit_factor :=
        (if Qgtb gross_loss 0
         then let? r := div gross_profit gross_loss in Ok (Fin r)
         else Ok Inf) in
      let? hc := type_stats trades HIGH_CONVICTION in
      let? cb := type_stats trades CLUSTER_BUY in
      let? vs := type_stats trades VOLUME_SPIKE in
      Ok {| config := config result;
            trades := trades;
            total_trades := total_trades;
            winning_trades := winning_trades;
            losing_trades := losing_trades;
            win_rate := win_rate;
            total_pnl_sol := total_pnl_sol;
            total_pnl_pct := total_pnl_pct;
            avg_pnl_pct := avg_pnl_pct;
            best_trade_pct := best;
            worst_trade_pct := worst;
            max_drawdown_pct := max_drawdown trades;
            sharpe_ratio := sharpe_ratio result;
            profit_factor := profit_factor;
            stats_by_type :=
              fold_left (fun d kv => dict_set (fst kv) (snd kv) d) (hc ++ cb ++ vs)
                        (stats_by_type result) |}
  end.

End Backtester.


(** ** Notions used in the statements *)

(** The arguments of one call of [process_buy_event]. *)
Record BuyEvent : Type := mkBuyEvent {
  ev_wallet_address : string;
  ev_token_ca : string;
  ev_sol_amount : Q;
  ev_token_amount : Q;
  ev_tx_signature : string;
  ev_block_time : datetime;
  ev_market_cap : option Q;
  ev_total_supply : option Q
}.

Definition process (cfg : Settings) (now : datetime) (ev : BuyEvent)
    : M (list SignalProcessor.SignalResult) :=
  SignalProcessor.process_buy_event cfg now
    (ev_wallet_address ev) (ev_token_ca ev) (ev_sol_amount ev) (ev_token_amount ev)
    (ev_tx_signature ev) (ev_block_time ev) (ev_market_cap ev) (ev_total_supply ev).

(** The token and the session on which [process_buy_event] evaluates the
    three signals: what [_get_or_create_token] and [_record_trade] leave. *)
Definition recorded (now : datetime) (ev : BuyEvent) (wallet : SmartWallet) (s : Session)
    : Token * Session :=
  let '(token, s1) :=
    SignalProcessor._get_or_create_token now (ev_token_ca ev)
      (ev_market_cap ev) (ev_total_supply ev) s in
  let '(_, s2) :=
    SignalProcessor._record_trade wallet token (ev_sol_amount ev) (ev_token_amount ev)
      (SignalProcessor.supply_percentage (ev_token_amount ev) (ev_total_supply ev))
      (ev_tx_signature ev) (ev_block_time ev) (ev_market_cap ev) s1 in
  (token, s2).

(** Referential integrity of [trades.wallet_id]: every trade has its wallet. *)
Definition fk_ok (s : Session) : bool :=
  forallb (fun t => match wallet_of s t with Some _ => true | None => false end)
          (trades s).

(** No trade of the session spends a negative amount of SOL. *)
Definition sol_nonneg (s : Session) : bool :=
  forallb (fun t => Qleb 0 (tr_sol_amount t)) (trades s).

(** The number of trade rows with a given transaction signature. *)
Definition trades_with_signature (sig : string) (s : Session) : nat :=
  List.length (filter (fun t => String.eqb (tr_tx_signature t) sig) (trades s)).

(** The types of the signals a call has returned. *)
Definition signal_types (l : list SignalProcessor.SignalResult) : list SignalType :=
  map SignalProcessor.signal_type l.

(** The five-minute buy volume of a token, as [_check_volume_spike] sums it. *)
Definition volume_5m (now : datetime) (s : Session) (token : Token) : Q :=
  sum (map tr_sol_amount (SignalProcessor.recent_trades now s token)).

(** No signal of the second list repeats a trigger of the first: re-submission
    leads to no second alert of a type the first submission has triggered. *)
Definition no_duplicate_triggers (first second : list SignalProcessor.SignalResult) : Prop :=
  forall ty, In ty (signal_types second) -> ~ In ty (signal_types first).

(** The three conditions, as booleans over the recorded token and session. *)
Definition hc_triggered (cfg : Settings) (ev : BuyEvent) : bool :=
  Qgeb (ev_sol_amount ev) (high_conviction_min_sol cfg)
  && Qgeb (SignalProcessor.supply_percentage (ev_token_amount ev) (ev_total_supply ev))
          (high_conviction_min_supply_pct cfg).

Definition cluster_triggered (cfg : Settings) (now : datetime) (s : Session) (token : Token)
    : bool :=
  fst (check_cluster_condition now s (tk_id token)
         (cluster_min_wallets cfg) (cluster_window_minutes cfg) (cluster_min_sol cfg)).

Definition volume_triggered (cfg : Settings) (now : datetime) (s : Session) (token : Token)
    : bool :=
  Qleb (age_minutes now token) (inject_Z (new_token_max_age_minutes cfg))
  && negb (Qleb (or_else (tk_market_cap_sol token) 0) 0)
  && Qgeb (volume_5m now s token / or_else (tk_market_cap_sol token) 0)
          (volume_spike_threshold cfg).

(** A session and an event for the examples: one tracked wallet, no token
    and no trade yet; the wallet buys 1% of the supply for 2 SOL. *)
Definition example_wallet : SmartWallet := {|
  sw_id := 1; sw_address := "W1"; sw_win_rate := 70; sw_total_trades := 40;
  sw_trades_7d := 12; sw_pnl_total_sol := 100; sw_pnl_7d_sol := 5;
  sw_avg_hold_time_mins := None; sw_conviction_score := 0;
  sw_is_active := true; sw_last_activity := None
|}.

Definition example_session : Session := {|
  wallets := [example_wallet]; tokens := []; trades := []; alerts := [];
  cluster_events := []
|}.

Definition example_event : BuyEvent := {|
  ev_wallet_address := "W1"; ev_token_ca := "T1";
  ev_sol_amount := 2; ev_token_amount := 10000;
  ev_tx_signature := "sig1"; ev_block_time := 1000;
  ev_market_cap := Some 100; ev_total_supply := Some 1000000
|}.

(** The same event from an address that is not tracked. *)
Definition stranger_event : BuyEvent := {|
  ev_wallet_address := "W9"; ev_token_ca := "T1";
  ev_sol_amount := 2; ev_token_amount := 10000;
  ev_tx_signature := "sig9"; ev_block_time := 1000;
  ev_market_cap := Some 100; ev_total_supply := Some 1000000
|}.

(** A wallet row whose stored win rate exceeds 100, as the scrapers can
    write it: they store whatever percentage they parse. *)
Definition overrated_wallet : SmartWallet := {|
  sw_id := 1; sw_address := "W1"; sw_win_rate := 150; sw_total_trades := 40;
  sw_trades_7d := 12; sw_pnl_total_sol := 0; sw_pnl_7d_sol := 0;
  sw_avg_hold_time_mins := None; sw_conviction_score := 0;
  sw_is_active := true; sw_last_activity := None
|}.

Definition overrated_session : Session := {|
  wallets := [overrated_wallet]; tokens := []; trades := []; alerts := [];
  cluster_events := []
|}.

(** The trade rows of a wallet. *)
Definition trades_of (s : Session) (wallet : SmartWallet) : list Trade :=
  filter (fun t => Z.eqb (tr_wallet_id t) (sw_id wallet)) (trades s).

(** The age of an alert, in minutes, as [check_alert_outcome] computes it. *)
Definition alert_age (now : datetime) (a : Alert) : Q :=
  (now - al_created_at a) / 60.

(** An alert row after a run of the tracker: untouched, or at least thirty
    minutes old with its outcome fields written. *)
Definition untouched_or_old (now : datetime) (a a' : Alert) : Prop :=
  a' = a
  \/ (30 <= alert_age now a
      /\ exists p, a' = OutcomeTracker.set_outcome p now a).

(** The class the thresholds of [check_alert_outcome] give to a checked
    alert that is old enough to be classified. *)
Definition classify (a : Alert) : OutcomeTracker.OutcomeStatus :=
  OutcomeTracker.determine_status 30 (OutcomeTracker.pnl a).

Definition OutcomeStatus_eqb (a b : OutcomeTracker.OutcomeStatus) : bool :=
  match a, b with
  | OutcomeTracker.PENDING, OutcomeTracker.PENDING
  | OutcomeTracker.WINNER, OutcomeTracker.WINNER
  | OutcomeTracker.LOSER, OutcomeTracker.LOSER
  | OutcomeTracker.RUGGED, OutcomeTracker.RUGGED
  | OutcomeTracker.UNKNOWN, OutcomeTracker.UNKNOWN => true
  | _, _ => false
  end.

(** The number of alerts of a class. *)
Definition class_count (c : OutcomeTracker.OutcomeStatus) (l : list Alert) : Z :=
  Z.of_nat (List.length (filter (fun a => OutcomeStatus_eqb (classify a) c) l)).

(** The alerts [get_performance_stats] reports on: created within the
    trailing [days] days, with an outcome. *)
Definition reported_alerts (now : datetime) (s : Session) (days : Z) : list Alert :=
  filter (fun a => Qgeb (al_created_at a) (now - inject_Z (days * 86400))
                   && match al_outcome_pnl a with Some _ => true | None => false end)
         (alerts s).

Definition of_type (ty : SignalType) (l : list Alert) : list Alert :=
  filter (fun a => SignalType_eqb (al_alert_type a) ty) l.

(** Winners among a number of resolved alerts, as a percentage; 0 when
    nothing is resolved. *)
Definition percentage (n resolved : Z) : Q :=
  if Z.ltb 0 resolved then inject_Z n / inject_Z resolved * 100 else 0.

(** The win rate in the words of the specification: the fraction of winners
    among the alerts classified WINNER or LOSER, the rugged ones set apart.
    It is compared below with what [get_performance_stats] computes. *)
Definition claimed_win_rate (l : list Alert) : Q :=
  percentage (class_count OutcomeTracker.WINNER l)
             (class_count OutcomeTracker.WINNER l + class_count OutcomeTracker.LOSER l).

(** What the code computes: the rugged alerts count among the resolved. *)
Definition win_rate_with_rugged (l : list Alert) : Q :=
  percentage (class_count OutcomeTracker.WINNER l)
             (class_count OutcomeTracker.WINNER l + class_count OutcomeTracker.LOSER l
              + class_count OutcomeTracker.RUGGED l).

(** A session for the examples of the tracker: a token bought at a market
    cap of 100 SOL for a supply of 1,000,000, and one alert on it. *)
Definition tracked_token : Token := {|
  tk_id := 1; tk_contract_address := "T1"; tk_name := None; tk_symbol := None;
  tk_market_cap_sol := Some 100; tk_liquidity_sol := None;
  tk_total_supply := Some 1000000; tk_platform := "unknown";
  tk_launched_at := Some 0; tk_is_rugged := false
|}.

Definition tracked_trade : Trade := {|
  tr_id := 1; tr_wallet_id := 1; tr_token_id := 1; tr_tx_signature := "sig1";
  tr_trade_type := BUY; tr_sol_amount := 2; tr_token_amount := 10000;
  tr_supply_percentage := Some 1; tr_mcap_at_trade := Some 100;
  tr_block_time := 1000
|}.

Definition alert_at (id : Z) (ty : SignalType) (created_at : datetime)
    (outcome_pnl : option Q) : Alert := {|
  al_id := id; al_token_id := 1; al_alert_type := ty;
  al_total_sol_volume := 2; al_wallet_count := 1;
  al_avg_win_rate := Some 70; al_max_supply_pct := Some 1;
  al_is_sent := true; al_sent_at := Some created_at;
  al_created_at := created_at;
  al_outcome_pnl := outcome_pnl;
  al_outcome_checked_at := match outcome_pnl with Some _ => Some created_at | None => None end
|}.

Definition tracked_session : Session := {|
  wallets := [example_wallet]; tokens := [tracked_token]; trades := [tracked_trade];
  alerts := [alert_at 1 HIGH_CONVICTION 1000 None];
  cluster_events := []
|}.

(** The token service when the price has fallen by 85%. *)
Definition crashed_metadata (_ : string) : result OutcomeTracker.TokenMetadata :=
  Ok {| OutcomeTracker.md_price_usd := 15 # 1000000;
        OutcomeTracker.md_total_supply := 1000000 |}.

(** A session with two checked alerts: a winner at +25% and a rugged one at
    -90%. *)
Definition reported_session : Session := {|
  wallets := [example_wallet]; tokens := [tracked_token]; trades := [tracked_trade];
  alerts := [alert_at 1 HIGH_CONVICTION 1000 (Some 25);
             alert_at 2 HIGH_CONVICTION 2000 (Some (-90))];
  cluster_events := []
|}.

(** A backtest configuration and simulated trades for the examples. *)
Definition example_config : Backtester.BacktestConfig := {|
  Backtester.start_date := 0; Backtester.end_date := 100000;
  Backtester.signal_types := [HIGH_CONVICTION; CLUSTER_BUY; VOLUME_SPIKE];
  Backtester.min_wallet_win_rate := 65;
  Backtester.cfg_position_size_sol := 1;
  Backtester.exit_strategy := Backtester.FIXED_TIME;
  Backtester.exit_time_minutes := 60;
  Backtester.take_profit_pct := 50;
  Backtester.skip_rugged_tokens := true
|}.

Definition simulated (pnl_pct pnl_sol : Q) : Backtester.BacktestTrade := {|
  Backtester.token_address := "T1"; Backtester.signal_type := HIGH_CONVICTION;
  Backtester.entry_time := 1000; Backtester.entry_price := 1 # 10000;
  Backtester.entry_mcap := 100;
  Backtester.exit_time := Some 4600; Backtester.exit_price := None;
  Backtester.exit_reason := Some "fixed_time"%string;
  Backtester.position_size_sol := 1;
  Backtester.pnl_sol := pnl_sol; Backtester.pnl_pct := pnl_pct;
  Backtester.max_pnl_pct := pnl_pct;
  Backtester.wallet_win_rate := 70; Backtester.supply_pct := 1;
  Backtester.wallet_count := 1
|}.

(** Two winning trades, +50% and +20% on a position of 1 SOL. *)
Definition winning_run : Backtester.BacktestResult :=
  Backtester.new_result example_config [simulated 50 (1 # 2); simulated 20 (1 # 5)].

(** Two tracked wallets, for the cluster scenario. *)
Definition second_wallet : SmartWallet := {|
  sw_id := 2; sw_address := "W2"; sw_win_rate := 80; sw_total_trades := 25;
  sw_trades_7d := 11; sw_pnl_total_sol := 40; sw_pnl_7d_sol := 3;
  sw_avg_hold_time_mins := None; sw_conviction_score := 0;
  sw_is_active := true; sw_last_activity := None
|}.

Definition two_wallet_session : Session := {|
  wallets := [example_wallet; second_wallet]; tokens := []; trades := [];
  alerts := []; cluster_events := []
|}.

Definition small_buy (wallet_address tx_signature : string) (block_time : datetime)
    : BuyEvent := {|
  ev_wallet_address := wallet_address; ev_token_ca := "T1";
  ev_sol_amount := 6 # 10; ev_token_amount := 100;
  ev_tx_signature := tx_signature; ev_block_time := block_time;
  ev_market_cap := Some 1000; ev_total_supply := Some 1000000
|}.

(** The session a call leaves. *)
Definition after {A : Type} (r : result A * Session) : Session := snd r.

(** A token launched 45 minutes before instant 2700, with a market cap of
    100 SOL and 12 SOL bought within the last five minutes. *)
Definition young_token : Token := {|
  tk_id := 1; tk_contract_address := "T1"; tk_name := None; tk_symbol := None;
  tk_market_cap_sol := Some 100; tk_liquidity_sol := None;
  tk_total_supply := Some 1000000; tk_platform := "unknown";
  tk_launched_at := Some 0; tk_is_rugged := false
|}.

Definition spike_session : Session := {|
  wallets := [example_wallet]; tokens := [young_token];
  trades := [ {| tr_id := 1; tr_wallet_id := 1; tr_token_id := 1;
                 tr_tx_signature := "sig1"; tr_trade_type := BUY;
                 tr_sol_amount := 12; tr_token_amount := 10000;
                 tr_supply_percentage := Some 1; tr_mcap_at_trade := Some 100;
                 tr_block_time := 2600 |} ];
  alerts := []; cluster_events := []
|}.

(** The buy volume of the trailing five minutes, read trade by trade in
    the order of the table: the SOL spent by the trades of the token that
    are buys and whose block time is not earlier than five minutes before
    [now], added to what the trades before have spent. *)
Fixpoint buy_volume_from (spent : Q) (now : datetime) (token_id : Z) (trades : list Trade)
    : Q :=
  match trades with
  | [] => spent
  | t :: rest =>
      let counted :=
        Z.eqb (tr_token_id t) token_id
        && match tr_trade_type t with BUY => true | SELL => false end
        && Qle_bool (now - 300) (tr_block_time t) in
      buy_volume_from (if counted then spent + tr_sol_amount t else spent)
        now token_id rest
  end.

Definition trailing_buy_volume (now : datetime) (token_id : Z) (trades : list Trade) : Q :=
  buy_volume_from 0 now token_id trades.

(** A second buy of the tracked wallet on the young token, 50 seconds
    before instant 2700: 1 SOL, with no market data attached. *)
Definition spike_event : BuyEvent := {|
  ev_wallet_address := "W1"; ev_token_ca := "T1";
  ev_sol_amount := 1; ev_token_amount := 1000;
  ev_tx_signature := "sig2"; ev_block_time := 2650;
  ev_market_cap := None; ev_total_supply := None
|}.









(** * The rest of the core

    The operations around the ones above: the queries and methods of
    [db/models.py], the alert life cycle and the enrichment of
    [signal_processor.py], the risk gate of [rug_detector.py], the batch
    operations of [conviction_calculator.py], the replay of [backtester.py],
    the webhook entry point of [helius_handler.py] and the rate limiter of
    [webhook_security.py]. *)

From Stdlib Require Import Sorted Permutation.

(** ** Queries: [order_by] and [limit] *)

Module Query.

(** [ORDER BY]: the rows in the order [before], rows that compare equal in
    the order of the table. *)
Fixpoint insert_by {A : Type} (before : A -> A -> bool) (x : A) (l : list A) : list A :=
  match l with
  | [] => [x]
  | y :: r => if before x y then x :: y :: r else y :: insert_by before x r
  end.

Definition order_by {A : Type} (before : A -> A -> bool) (l : list A) : list A :=
  fold_right (insert_by before) [] l.

(** [LIMIT n], for a limit that is not negative. *)
Definition limit {A : Type} (n : nat) (l : list A) : list A := firstn n l.

End Query.

(** ** db/models.py: methods and repository queries *)

Module ModelMethods.

(** [SmartWallet.meets_threshold] *)
Definition meets_threshold (w : SmartWallet) (min_win_rate : Q) (min_trades_7d : Z) : bool :=
  Qgeb (sw_win_rate w) min_win_rate && Z.geb (sw_trades_7d w) min_trades_7d.

(** [Trade.is_high_conviction] *)
Definition is_high_conviction (t : Trade) (min_sol min_supply_pct : Q) : bool :=
  Qgeb (tr_sol_amount t) min_sol
  && Qgeb (or_else (tr_supply_percentage t) 0) min_supply_pct.

(** [WalletRepository.get_active_wallets] *)
Definition get_active_wallets (s : Session) (min_win_rate : Q) (min_trades : Z)
    : list SmartWallet :=
  Query.order_by
    (fun a b => Qgeb (sw_conviction_score a) (sw_conviction_score b))
    (filter (fun w => sw_is_active w
                      && Qgeb (sw_win_rate w) min_win_rate
                      && Z.geb (sw_trades_7d w) min_trades) (wallets s)).

(** [WalletRepository.get_wallet_addresses] *)
Definition get_wallet_addresses (s : Session) : list string :=
  map sw_address (filter sw_is_active (wallets s)).

End ModelMethods.

(** ** services/token_metadata.py: the metadata record *)

Module TokenMetadataService.

(** The fields of [TokenMetadata] that the enrichment and the risk gate
    read. *)
Record TokenMetadata : Type := mkTokenMetadata {
  name : option string;
  symbol : option string;
  total_supply : Q;
  price_usd : Q;
  market_cap_sol : Q;
  liquidity_usd : Q;
  liquidity_sol : Q;
  is_mintable : bool;
  is_freezable : bool
}.

End TokenMetadataService.

(** ** services/rug_detector.py *)

Module RugDetector.

Import TokenMetadataService.

Inductive RiskLevel : Type :=
| LOW
| MEDIUM
| HIGH
| CRITICAL.

(** [RiskLevel.value] *)
Definition RiskLevel_value (l : RiskLevel) : string :=
  match l with
  | LOW => "low"
  | MEDIUM => "medium"
  | HIGH => "high"
  | CRITICAL => "critical"
  end.

Record RugCheckResult : Type := mkRugCheckResult {
  contract_address : string;
  risk_level : RiskLevel;
  risk_score : Z;
  passed : bool;
  mintable : bool;
  freezable : bool;
  lp_unlocked : bool;
  low_liquidity : bool;
  high_concentration : bool;
  honeypot_risk : bool;
  copycat_name : bool;
  warnings : list string;
  detail_liquidity_usd : Q;
  detail_top10_concentration : Q;
  detail_copycat_of : option string
}.

(** Thresholds. *)
Definition MIN_LIQUIDITY_USD : Q := 5000.
Definition MAX_TOP10_CONCENTRATION : Q := 50.

Definition COPYCAT_PATTERNS : list string :=
  ["BONK"; "WIF"; "PEPE"; "DOGE"; "SHIB"; "SOL"; "ETH"; "BTC"; "USDC"; "USDT"]%string.

(** [a in b] on strings. *)
Definition contains (a b : string) : bool :=
  match String.index 0 a b with
  | Some _ => true
  | None => false
  end.

(** [not s] and [s or ""] for an [Optional[str]]. *)
Definition is_blank (o : option string) : bool :=
  match o with
  | Some s => String.eqb s ""
  | None => true
  end.
Definition or_empty (o : option string) : string :=
  match o with
  | Some s => s
  | None => ""%string
  end.

Section Detector.

(** [str.upper]. *)
Variable upper : string -> string.

(** A float in a format string, [f"{x:.0f}"] and [f"{x:.1f}"], by the
    number of decimals. *)
Variable format_float : nat -> Q -> string.

(** The collaborators: the two calls of the token service and the two
    network checks, which catch their own failures. *)
Variable get_token_metadata : string -> result TokenMetadata.
Variable get_holder_distribution : string -> result (option Q).
Variable _check_lp_unlocked : string -> bool.
Variable _check_honeypot : string -> bool.

(** The body of the loop of [_check_copycat] for one known name: does the
    token copy it? *)
Definition copies (symbol_upper name_upper known : string) : bool :=
  String.eqb symbol_upper known
  || (contains known name_upper && negb (String.eqb name_upper known))
  || mem_str symbol_upper
       [known ++ "2"; known ++ "2.0"; "BABY" ++ known;
        "MINI" ++ known; known ++ "INU"; known ++ "MOON"]%string.

(** [_check_copycat] *)
Definition _check_copycat (symbol name : option string) : option string :=
  if is_blank symbol && is_blank name then None
  else
    let symbol_upper := upper (or_empty symbol) in
    let name_upper := upper (or_empty name) in
    first (copies symbol_upper name_upper) COPYCAT_PATTERNS.

(** One check of [check_token]: the score and the warnings after it. *)
Definition flag (raised : bool) (points : Z) (warning : string)
    (acc : Z * list string) : Z * list string :=
  if raised then (fst acc + points, snd acc ++ [warning])%Z else acc.

(** The level of a score. *)
Definition level_of (risk_score : Z) : RiskLevel :=
  if Z.geb risk_score 70 then CRITICAL
  else if Z.geb risk_score 50 then HIGH
  else if Z.geb risk_score 25 then MEDIUM
  else LOW.

(** [check_token] *)
Definition check_token (contract_address : string) : result RugCheckResult :=
  let? metadata := get_token_metadata contract_address in
  let? holder_dist := get_holder_distribution contract_address in
  let acc := (0%Z, []) in
  let mintable := is_mintable metadata in
  let acc := flag mintable 25 "Token is MINTABLE - supply can be inflated" acc in
  let freezable := is_freezable metadata in
  let acc := flag freezable 30 "Token has FREEZE authority - honeypot risk" acc in
  let lp_unlocked := _check_lp_unlocked contract_address in
  let acc := flag lp_unlocked 20 "Liquidity is NOT locked - rug pull risk" acc in
  let low_liquidity := Qltb (liquidity_usd metadata) MIN_LIQUIDITY_USD in
  let acc := flag low_liquidity 10
               ("Low liquidity: $" ++ format_float 0 (liquidity_usd metadata)) acc in
  let top10_pct := match holder_dist with Some p => p | None => 0 end in
  let high_concentration := Qgtb top10_pct MAX_TOP10_CONCENTRATION in
  let acc := flag high_concentration 15
               ("High concentration: Top 10 hold " ++ format_float 1 top10_pct ++ "%") acc in
  let honeypot_risk := _check_honeypot contract_address in
  let acc := flag honeypot_risk 40 "HONEYPOT detected - token cannot be sold" acc in
  let copycat := _check_copycat (symbol metadata) (name metadata) in
  let acc := flag (match copycat with Some _ => true | None => false end) 10
               ("Possible copycat of known token: " ++ or_empty copycat) acc in
  let risk_score := fst acc in
  let risk_level := level_of risk_score in
  let passed := match risk_level with CRITICAL | HIGH => false | _ => true end in
  Ok {| contract_address := contract_address;
        risk_level := risk_level;
        risk_score := risk_score;
        passed := passed;
        mintable := mintable;
        freezable := freezable;
        lp_unlocked := lp_unlocked;
        low_liquidity := low_liquidity;
        high_concentration := high_concentration;
        honeypot_risk := honeypot_risk;
        copycat_name := match copycat with Some _ => true | None => false end;
        warnings := snd acc;
        detail_liquidity_usd := liquidity_usd metadata;
        detail_top10_concentration := top10_pct;
        detail_copycat_of := copycat |}.

(** [should_alert] *)
Definition should_alert (contract_address : string) : result (bool * RugCheckResult) :=
  let? result := check_token contract_address in
  Ok (passed result, result).

End Detector.

End RugDetector.


(** ** processors/signal_processor.py: alerts and enrichment *)

Module AlertLifecycle.

Import SignalProcessor.

Local Open Scope py_scope.

(** The JSON document [create_alert] serialises into the column
    [trigger_data].  The row record of the model does not carry the column;
    the document an alert is created with is the value of [trigger_data]. *)
Record WalletEntry : Type := mkWalletEntry {
  we_address : string;
  we_win_rate : Q;
  we_conviction_score : Q
}.

Record RugCheckEntry : Type := mkRugCheckEntry {
  rc_passed : bool;
  rc_risk_score : Z;
  rc_warnings : list string
}.

Record TriggerData : Type := mkTriggerData {
  td_wallets : list WalletEntry;
  td_details : list (string * DetailValue);
  td_rug_check : option RugCheckEntry
}.

Definition trigger_data (signal : SignalResult) : TriggerData := {|
  td_wallets :=
    map (fun w => {| we_address := sw_address w;
                     we_win_rate := sw_win_rate w;
                     we_conviction_score := sw_conviction_score w |})
        (sr_wallets signal);
  td_details := details signal;
  td_rug_check :=
    if rug_checked signal
    then Some {| rc_passed := rug_passed signal;
                 rc_risk_score := rug_risk_score signal;
                 rc_warnings := rug_warnings signal |}
    else None
|}.

(** [d.get(key)] on a details map. *)
Definition detail_get (key : string) (d : list (string * DetailValue)) : option DetailValue :=
  match first (fun kv => String.eqb (fst kv) key) d with
  | Some kv => Some (snd kv)
  | None => None
  end.

(** [d[key] = v] on a details map. *)
Fixpoint detail_set (key : string) (v : DetailValue) (d : list (string * DetailValue))
    : list (string * DetailValue) :=
  match d with
  | [] => [(key, v)]
  | (k, v') :: r =>
      if String.eqb k key then (k, v) :: r else (k, v') :: detail_set key v r
  end.

(** [signal.details.get('avg_win_rate') or (signal.wallets[0].win_rate if
    signal.wallets else 0)].  A value under the key that is true without
    being a number is no value of the column of the row model: no signal of
    the processor carries one, and the model raises on it. *)
Definition avg_win_rate_of (signal : SignalResult) : result Q :=
  let fallback :=
    match sr_wallets signal with
    | w :: _ => sw_win_rate w
    | [] => 0
    end in
  match detail_get "avg_win_rate" (details signal) with
  | None => Ok fallback
  | Some (VFloat q) => Ok (if Qeq_bool q 0 then fallback else q)
  | Some (VInt z) => Ok (if Z.eqb z 0 then fallback else inject_Z z)
  | Some (VStr x) => if String.eqb x "" then Ok fallback else Raise ValueError
  | Some (VStrList l) => match l with [] => Ok fallback | _ => Raise ValueError end
  end.

Definition add_alert (a : Alert) (s : Session) : Session := {|
  wallets := wallets s; tokens := tokens s; trades := trades s;
  alerts := alerts s ++ [a]; cluster_events := cluster_events s
|}.

(** [create_alert] *)
Definition create_alert (now : datetime) (signal : SignalResult) (skip_rug_failed : bool)
    : M (option Alert) :=
  match sr_token signal with
  | None => raise AttributeError
  | Some token =>
      if skip_rug_failed && rug_checked signal && negb (rug_passed signal)
      then ret None
      else
        s <- get ;;
        avg_win_rate <- lift (avg_win_rate_of signal) ;;
        let alert := {|
          al_id := next_id al_id (alerts s);
          al_token_id := tk_id token;
          al_alert_type := signal_type signal;
          al_total_sol_volume := total_sol signal;
          al_wallet_count := Z.of_nat (List.length (sr_wallets signal));
          al_avg_win_rate := Some avg_win_rate;
          al_max_supply_pct := Some (max_supply_pct signal);
          al_is_sent := false;
          al_sent_at := None;
          al_created_at := now;
          al_outcome_pnl := None;
          al_outcome_checked_at := None |} in
        _ <- put (add_alert alert s) ;;
        ret (Some alert)
  end.

(** [get_pending_alerts] *)
Definition get_pending_alerts (s : Session) (limit : nat) : list Alert :=
  Query.limit limit
    (Query.order_by (fun a b => Qleb (al_created_at a) (al_created_at b))
       (filter (fun a => negb (al_is_sent a)) (alerts s))).

Definition set_sent (sent_at : datetime) (a : Alert) : Alert := {|
  al_id := al_id a; al_token_id := al_token_id a; al_alert_type := al_alert_type a;
  al_total_sol_volume := al_total_sol_volume a; al_wallet_count := al_wallet_count a;
  al_avg_win_rate := al_avg_win_rate a; al_max_supply_pct := al_max_supply_pct a;
  al_is_sent := true; al_sent_at := Some sent_at;
  al_created_at := al_created_at a;
  al_outcome_pnl := al_outcome_pnl a;
  al_outcome_checked_at := al_outcome_checked_at a
|}.

(** [mark_alert_sent] *)
Definition mark_alert_sent (now : datetime) (alert : Alert) (s : Session) : Session := {|
  wallets := wallets s; tokens := tokens s; trades := trades s;
  alerts := map (fun r => if Z.eqb (al_id r) (al_id alert) then set_sent now r else r)
                (alerts s);
  cluster_events := cluster_events s
|}.

Definition set_name (v : option string) (t : Token) : Token := {|
  tk_id := tk_id t; tk_contract_address := tk_contract_address t;
  tk_name := v; tk_symbol := tk_symbol t;
  tk_market_cap_sol := tk_market_cap_sol t; tk_liquidity_sol := tk_liquidity_sol t;
  tk_total_supply := tk_total_supply t; tk_platform := tk_platform t;
  tk_launched_at := tk_launched_at t; tk_is_rugged := tk_is_rugged t
|}.
Definition set_symbol (v : option string) (t : Token) : Token := {|
  tk_id := tk_id t; tk_contract_address := tk_contract_address t;
  tk_name := tk_name t; tk_symbol := v;
  tk_market_cap_sol := tk_market_cap_sol t; tk_liquidity_sol := tk_liquidity_sol t;
  tk_total_supply := tk_total_supply t; tk_platform := tk_platform t;
  tk_launched_at := tk_launched_at t; tk_is_rugged := tk_is_rugged t
|}.
Definition set_liquidity_sol (v : option Q) (t : Token) : Token := {|
  tk_id := tk_id t; tk_contract_address := tk_contract_address t;
  tk_name := tk_name t; tk_symbol := tk_symbol t;
  tk_market_cap_sol := tk_market_cap_sol t; tk_liquidity_sol := v;
  tk_total_supply := tk_total_supply t; tk_platform := tk_platform t;
  tk_launched_at := tk_launched_at t; tk_is_rugged := tk_is_rugged t
|}.

(** The five assignments of [enrich_and_validate_signal] to the token. *)
Definition apply_metadata (metadata : TokenMetadataService.TokenMetadata) (t : Token)
    : Token :=
  let t := if RugDetector.is_blank (TokenMetadataService.name metadata) then t
           else set_name (TokenMetadataService.name metadata) t in
  let t := if RugDetector.is_blank (TokenMetadataService.symbol metadata) then t
           else set_symbol (TokenMetadataService.symbol metadata) t in
  let t := if Qgtb (TokenMetadataService.market_cap_sol metadata) 0
           then set_market_cap_sol (Some (TokenMetadataService.market_cap_sol metadata)) t
           else t in
  let t := if Qgtb (TokenMetadataService.liquidity_sol metadata) 0
           then set_liquidity_sol (Some (TokenMetadataService.liquidity_sol metadata)) t
           else t in
  let t := if Qgtb (TokenMetadataService.total_supply metadata) 0
           then set_total_supply (Some (TokenMetadataService.total_supply metadata)) t
           else t in
  t.

(** The token object of the signal is a row of the session: the
    assignments reach the row with its key. *)
Definition enrich_token (metadata : TokenMetadataService.TokenMetadata) (token : Token)
    (s : Session) : Session := {|
  wallets := wallets s;
  tokens := map (fun r => if Z.eqb (tk_id r) (tk_id token)
                          then apply_metadata metadata r else r) (tokens s);
  trades := trades s; alerts := alerts s; cluster_events := cluster_events s
|}.

Definition with_token (t : Token) (g : SignalResult) : SignalResult := {|
  triggered := triggered g; signal_type := signal_type g;
  sr_token := Some t; sr_trades := sr_trades g; sr_wallets := sr_wallets g;
  total_sol := total_sol g; max_supply_pct := max_supply_pct g;
  details := details g; rug_checked := rug_checked g; rug_passed := rug_passed g;
  rug_risk_score := rug_risk_score g; rug_warnings := rug_warnings g
|}.

Section Enrichment.

(** The lazily loaded services. *)
Variable get_token_metadata : string -> result TokenMetadataService.TokenMetadata.
Variable check_token : string -> result RugDetector.RugCheckResult.

(** The dictionary stored under ['rug_check'], with its entries [passed],
    [risk_score], [risk_level] and the first three warnings, as a value of
    the details map (whose values in the model are not nested). *)
Variable rug_check_detail : bool -> Z -> string -> list string -> DetailValue.

Definition with_rug_check (rug_result : RugDetector.RugCheckResult) (g : SignalResult)
    : SignalResult := {|
  triggered := triggered g; signal_type := signal_type g;
  sr_token := sr_token g; sr_trades := sr_trades g; sr_wallets := sr_wallets g;
  total_sol := total_sol g; max_supply_pct := max_supply_pct g;
  details :=
    detail_set "rug_check"
      (rug_check_detail (RugDetector.passed rug_result)
         (RugDetector.risk_score rug_result)
         (RugDetector.RiskLevel_value (RugDetector.risk_level rug_result))
         (firstn 3 (RugDetector.warnings rug_result)))
      (details g);
  rug_checked := true;
  rug_passed := RugDetector.passed rug_result;
  rug_risk_score := RugDetector.risk_score rug_result;
  rug_warnings := RugDetector.warnings rug_result
|}.

(** [enrich_and_validate_signal]: the [try] block catches every exception,
    so the call is a plain state transformer; what was assigned before a
    failure stays assigned. *)
Definition enrich_and_validate_signal (signal : SignalResult) (s : Session)
    : SignalResult * Session :=
  if negb (triggered signal) then (signal, s)
  else
    match sr_token signal with
    | None => (signal, s)
    | Some token =>
        match get_token_metadata (tk_contract_address token) with
        | Raise _ => (signal, s)
        | Ok metadata =>
            let token := apply_metadata metadata token in
            let signal := with_token token signal in
            let s := enrich_token metadata token s in
            match check_token (tk_contract_address token) with
            | Raise _ => (signal, s)
            | Ok rug_result => (with_rug_check rug_result signal, s)
            end
        end
    end.

End Enrichment.

End AlertLifecycle.

(** ** services/conviction_calculator.py: the batch operations *)

Module ConvictionBatch.

Import ConvictionCalculator.

Definition set_conviction_score (v : Q) (w : SmartWallet) : SmartWallet := {|
  sw_id := sw_id w; sw_address := sw_address w; sw_win_rate := sw_win_rate w;
  sw_total_trades := sw_total_trades w; sw_trades_7d := sw_trades_7d w;
  sw_pnl_total_sol := sw_pnl_total_sol w; sw_pnl_7d_sol := sw_pnl_7d_sol w;
  sw_avg_hold_time_mins := sw_avg_hold_time_mins w;
  sw_conviction_score := v; sw_is_active := sw_is_active w;
  sw_last_activity := sw_last_activity w
|}.

Definition with_wallets (rows : list SmartWallet) (s : Session) : Session := {|
  wallets := rows; tokens := tokens s; trades := trades s; alerts := alerts s;
  cluster_events := cluster_events s
|}.

Section Batch.

Variable pow_half : Q -> Q.

(** The loop of [update_all_scores] over the wallet rows: [done] are the
    rows already visited, [rest] the rows to visit.  The query keeps the
    active wallets; a wallet whose score cannot be calculated is logged
    and skipped. *)
Fixpoint score_rows (now : datetime) (s : Session) (done rest : list SmartWallet)
    (updated : Z) : Z * Session :=
  match rest with
  | [] => (updated, with_wallets done s)
  | wallet :: rest' =>
      if sw_is_active wallet
      then
        match calculate_score pow_half now (with_wallets (done ++ rest) s) wallet with
        | Ok new_score =>
            score_rows now s (done ++ [set_conviction_score new_score wallet]) rest'
                       (updated + 1)
        | Raise _ => score_rows now s (done ++ [wallet]) rest' updated
        end
      else score_rows now s (done ++ [wallet]) rest' updated
  end.

(** [update_all_scores] *)
Definition update_all_scores (now : datetime) (s : Session) : Z * Session :=
  score_rows now s [] (wallets s) 0.

End Batch.

(** [get_top_wallets] *)
Definition get_top_wallets (s : Session) (limit : nat) (min_score : Q) : list SmartWallet :=
  Query.limit limit
    (Query.order_by
       (fun a b => Qgeb (sw_conviction_score a) (sw_conviction_score b))
       (filter (fun w => sw_is_active w && Qgeb (sw_conviction_score w) min_score)
               (wallets s))).

End ConvictionBatch.


(** ** services/backtester.py: the replay *)

Module BacktestReplay.

Import Backtester.
Import AlertLifecycle.

(** [ORDER BY mcap_at_trade DESC], as SQLite (the configured database)
    orders it: a row without market cap comes after every row with one. *)
Definition mcap_desc (a b : Trade) : bool :=
  match tr_mcap_at_trade a, tr_mcap_at_trade b with
  | Some x, Some y => Qgeb x y
  | Some _, None => true
  | None, Some _ => false
  | None, None => true
  end.

(** [_simulate_exit].  [uniform] and [gauss] are the values that
    [random.uniform(0.1, 0.5)] and [random.gauss(1.2, 0.5)] would draw. *)
Definition _simulate_exit
    (s : Session) (token : Token) (entry_time : datetime) (entry_price : Q)
    (config : BacktestConfig) (uniform gauss : Q)
    : result (datetime * Q * string * Q) :=
  match exit_strategy config with
  | FIXED_TIME =>
      let exit_time := entry_time + inject_Z (60 * exit_time_minutes config) in
      let exit_trades :=
        filter (fun t => Z.eqb (tr_token_id t) (tk_id token)
                         && Qgeb (tr_block_time t) (exit_time - 300)
                         && Qleb (tr_block_time t) (exit_time + 300)) (Models.trades s) in
      let? exit_price :=
        (match exit_trades with
         | _ :: _ =>
             let? avg_mcap :=
               div (sum (map (fun t => or_else (tr_mcap_at_trade t) 0) exit_trades))
                   (len exit_trades) in
             if Qgtb avg_mcap 0
             then div avg_mcap (or_else (tk_total_supply token) 1)
             else Ok entry_price
         | [] =>
             if tk_is_rugged token then Ok (entry_price * uniform)
             else
               let multiplier := gauss in
               Ok (entry_price * Py.max (1 # 10) multiplier)
         end) in
      let? pnl_pct :=
        (if Qgtb entry_price 0
         then let? r := div (exit_price - entry_price) entry_price in Ok (r * 100)
         else Ok 0) in
      Ok (exit_time, exit_price, "fixed_time"%string, Py.max pnl_pct (pnl_pct * (3 # 2)))
  | TAKE_PROFIT =>
      let? hundredth := div (take_profit_pct config) 100 in
      let target_price := entry_price * (1 + hundredth) in
      let max_trades :=
        first (fun _ => true)
          (Query.order_by mcap_desc
             (filter (fun t => Z.eqb (tr_token_id t) (tk_id token)
                               && Qgtb (tr_block_time t) entry_time) (Models.trades s))) in
      let timeout :=
        (entry_time + inject_Z (60 * exit_time_minutes config),
         entry_price * (9 # 10), "timeout"%string, -10) in
      match max_trades with
      | Some max_trade =>
          if truthy (tr_mcap_at_trade max_trade)
          then
            let? max_price :=
              div (or_else (tr_mcap_at_trade max_trade) 0)
                  (or_else (tk_total_supply token) 1) in
            if Qgeb max_price target_price
            then Ok (tr_block_time max_trade, target_price, "take_profit"%string,
                     take_profit_pct config)
            else Ok timeout
          else Ok timeout
      | None => Ok timeout
      end
  | _ => Ok (entry_time + 3600, entry_price, "unknown"%string, 0)
  end.

(** [details.get('mcap_at_trade', 0)], compared with 0 afterwards: a value
    that is no number makes the comparison raise. *)
Definition details_mcap (d : list (string * SignalProcessor.DetailValue)) : result Q :=
  match detail_get "mcap_at_trade" d with
  | None => Ok 0
  | Some (SignalProcessor.VFloat q) => Ok q
  | Some (SignalProcessor.VInt z) => Ok (inject_Z z)
  | Some _ => Raise ValueError
  end.

(** The body of the [try] block of [_simulate_trade].  [stored] is
    [json.loads(alert.trigger_data)], [None] for an empty column.  An alert
    without token raises at the first use of the token; whichever statement
    that is, [_simulate_trade] returns [None]. *)
Definition simulate (alert : Alert) (config : BacktestConfig)
    (stored : result (option TriggerData)) (uniform gauss : Q) (s : Session)
    : result (option BacktestTrade) :=
  match alert_token s alert with
  | None => Raise AttributeError
  | Some token =>
      if skip_rugged_tokens config && tk_is_rugged token then Ok None
      else
        let? trigger_data := stored in
        let details := match trigger_data with Some d => td_details d | None => [] end in
        let wallets := match trigger_data with Some d => td_wallets d | None => [] end in
        let? avg_wr :=
          (match wallets with
           | [] => Ok 0
           | _ => div (sum (map we_win_rate wallets)) (len wallets)
           end) in
        if Qltb avg_wr (min_wallet_win_rate config) then Ok None
        else
          let? entry_mcap :=
            (if truthy (tk_market_cap_sol token)
             then Ok (or_else (tk_market_cap_sol token) 0)
             else details_mcap details) in
          if Qleb entry_mcap 0 then Ok None
          else
            let? entry_price := div entry_mcap (or_else (tk_total_supply token) 1) in
            let? exit :=
              _simulate_exit s token (al_created_at alert) entry_price config
                uniform gauss in
            let '(exit_time, exit_price, exit_reason, max_pnl) := exit in
            let? pnl := calculate_pnl config entry_price exit_price in
            let '(pnl_pct, pnl_sol) := pnl in
            Ok (Some {|
              token_address := tk_contract_address token;
              signal_type := al_alert_type alert;
              entry_time := al_created_at alert;
              entry_price := entry_price;
              entry_mcap := entry_mcap;
              exit_time := Some exit_time;
              exit_price := Some exit_price;
              exit_reason := Some exit_reason;
              position_size_sol := cfg_position_size_sol config;
              pnl_sol := pnl_sol;
              pnl_pct := pnl_pct;
              max_pnl_pct := max_pnl;
              wallet_win_rate := avg_wr;
              supply_pct := or_else (al_max_supply_pct alert) 0;
              wallet_count := al_wallet_count alert |})
  end.

(** [_simulate_trade]: any exception gives [None]. *)
Definition _simulate_trade (alert : Alert) (config : BacktestConfig)
    (stored : result (option TriggerData)) (uniform gauss : Q) (s : Session)
    : option BacktestTrade :=
  match simulate alert config stored uniform gauss s with
  | Ok trade => trade
  | Raise _ => None
  end.

Section Replay.

(** The column [trigger_data] of an alert, parsed; and the random draws
    made while the alert is simulated. *)
Variable stored_trigger_data : Alert -> result (option TriggerData).
Variable random_uniform : Alert -> Q.
Variable random_gauss : Alert -> Q.

(** The query of [run_backtest]. *)
Definition alerts_in_range (config : BacktestConfig) (s : Session) : list Alert :=
  Query.order_by (fun a b => Qleb (al_created_at a) (al_created_at b))
    (filter (fun a => Qgeb (al_created_at a) (start_date config)
                      && Qleb (al_created_at a) (end_date config)
                      && existsb (SignalType_eqb (al_alert_type a)) (signal_types config))
            (alerts s)).

(** The loop of [run_backtest]. *)
Definition simulate_all (config : BacktestConfig) (s : Session) (alerts : list Alert)
    : list BacktestTrade :=
  flat_map (fun alert =>
              match _simulate_trade alert config (stored_trigger_data alert)
                      (random_uniform alert) (random_gauss alert) s with
              | Some trade => [trade]
              | None => []
              end) alerts.

(** [run_backtest] *)
Definition run_backtest (config : BacktestConfig) (s : Session) : result BacktestResult :=
  let result := new_result config (simulate_all config s (alerts_in_range config s)) in
  _calculate_stats result.

(** [run_quick_backtest] *)
Definition run_quick_backtest (now : datetime) (s : Session) (days : Z)
    : result BacktestResult :=
  run_backtest
    {| start_date := now - inject_Z (days * 86400);
       end_date := now;
       signal_types := [HIGH_CONVICTION; CLUSTER_BUY; VOLUME_SPIKE];
       min_wallet_win_rate := 65;
       cfg_position_size_sol := 1;
       exit_strategy := FIXED_TIME;
       exit_time_minutes := 60;
       take_profit_pct := 50;
       skip_rugged_tokens := true |} s.

End Replay.

End BacktestReplay.

(** ** processors/helius_handler.py *)

Module HeliusHandler.

Import SignalProcessor.
Import AlertLifecycle.

(** An enhanced transaction of the payload, every key optional as the code
    reads it with [get]: a field is [None] when the key is missing. *)
Record NativeTransfer : Type := mkNativeTransfer {
  nt_fromUserAccount : option string;
  nt_amount : option Q
}.

Record TokenTransfer : Type := mkTokenTransfer {
  tt_mint : option string;
  tt_toUserAccount : option string;
  tt_tokenAmount : option Q
}.

Record Instruction : Type := mkInstruction {
  in_programId : option string
}.

Record Transaction : Type := mkTransaction {
  tx_type : option string;
  tx_signature : option string;
  tx_timestamp : option Z;
  tx_feePayer : option string;
  tx_tokenTransfers : option (list TokenTransfer);
  tx_nativeTransfers : option (list NativeTransfer);
  tx_instructions : option (list Instruction)
}.

Record ParsedSwap : Type := mkParsedSwap {
  wallet_address : string;
  token_address : string;
  sol_amount : Q;
  token_amount : Q;
  tx_signature_of : string;
  block_time : datetime;
  platform : string;
  is_buy : bool
}.

Definition PUMP_FUN_PROGRAM : string := "6EF8rrecthR5Dkzon8Nwu78hRvfCKubJ14M5uBEwF6P".
Definition RAYDIUM_AMM_PROGRAM : string := "675kPX9MHTjS2zt1qfr1NYHuzeLXfQM9H24wFSUt1Mp8".
Definition SOL_MINT : string := "So11111111111111111111111111111111111111112".

(** [d.get(key, default)] and [d.get(key) == x]. *)
Definition get_or {A : Type} (o : option A) (default : A) : A :=
  match o with Some a => a | None => default end.
Definition get_eqb (o : option string) (x : string) : bool :=
  match o with Some a => String.eqb a x | None => false end.

(** The two loops of [_parse_transaction] over the transfers. *)
Definition sol_out_of (fee_payer : string) (native_transfers : list NativeTransfer) : Q :=
  fold_left (fun sol_out nt =>
               if get_eqb (nt_fromUserAccount nt) fee_payer
               then sol_out + get_or (nt_amount nt) 0 / inject_Z (10 ^ 9)
               else sol_out) native_transfers 0.

Definition token_in_of (fee_payer : string) (token_transfers : list TokenTransfer)
    : Q * option string :=
  fold_left (fun (acc : Q * option string) tt =>
               let mint := get_or (tt_mint tt) ""%string in
               if String.eqb mint SOL_MINT then acc
               else if get_eqb (tt_toUserAccount tt) fee_payer
                    then (fst acc + get_or (tt_tokenAmount tt) 0, Some mint)
                    else acc) token_transfers (0, None).

(** The loop over the instructions: the platform of the first instruction
    of one of the two programs. *)
Fixpoint platform_of (instructions : list Instruction) : string :=
  match instructions with
  | [] => "unknown"
  | inst :: rest =>
      let program_id := get_or (in_programId inst) ""%string in
      if String.eqb program_id PUMP_FUN_PROGRAM then "pump_fun"
      else if String.eqb program_id RAYDIUM_AMM_PROGRAM then "raydium"
      else platform_of rest
  end.

Section Handler.

Variable cfg : Settings.

(** [str.upper]. *)
Variable upper : string -> string.

(** [_parse_transaction] *)
Definition _parse_transaction (now : datetime) (tx : Transaction) : option ParsedSwap :=
  let tx_type := upper (get_or (tx_type tx) ""%string) in
  if negb (String.eqb tx_type "SWAP") then None
  else
    let signature := get_or (tx_signature tx) ""%string in
    let timestamp := get_or (tx_timestamp tx) 0%Z in
    let block_time := if Z.eqb timestamp 0 then now else inject_Z timestamp in
    let fee_payer := get_or (tx_feePayer tx) ""%string in
    let token_transfers := get_or (tx_tokenTransfers tx) [] in
    let native_transfers := get_or (tx_nativeTransfers tx) [] in
    let sol_out := sol_out_of fee_payer native_transfers in
    let '(token_in, token_address) := token_in_of fee_payer token_transfers in
    let is_buy :=
      Qgtb sol_out 0 && Qgtb token_in 0
      && negb (RugDetector.is_blank token_address) in
    if negb is_buy then None
    else
      let instructions := get_or (tx_instructions tx) [] in
      Some {| wallet_address := fee_payer;
              token_address := get_or token_address ""%string;
              sol_amount := sol_out;
              token_amount := token_in;
              tx_signature_of := signature;
              block_time := block_time;
              platform := platform_of instructions;
              is_buy := true |}.

(** An entry of the list [handle_webhook] returns. *)
Record AlertInfo : Type := mkAlertInfo {
  ai_alert_id : Z;
  ai_type : SignalType;
  ai_token : string
}.

(** The inner loop of [handle_webhook] over the signals of one
    transaction.  An exception abandons the rest of the transaction; the
    entries appended to [alerts] before it stay. *)
Fixpoint create_alerts (now : datetime) (token : string) (signals : list SignalResult)
    (alerts : list AlertInfo) (s : Session) : list AlertInfo * Session :=
  match signals with
  | [] => (alerts, s)
  | signal :: rest =>
      if triggered signal
      then
        match create_alert now signal true s with
        | (Ok (Some alert), s') =>
            create_alerts now token rest
              (alerts ++ [{| ai_alert_id := al_id alert;
                             ai_type := signal_type signal;
                             ai_token := token |}]) s'
        | (Ok None, s') => (alerts, s')
        | (Raise _, s') => (alerts, s')
        end
      else create_alerts now token rest alerts s
  end.

(** The body of the outer loop, for one transaction. *)
Definition handle_transaction (now : datetime) (tracked_wallets : list string)
    (tx : Transaction) (alerts : list AlertInfo) (s : Session)
    : list AlertInfo * Session :=
  match _parse_transaction now tx with
  | Some parsed =>
      if is_buy parsed && mem_str (wallet_address parsed) tracked_wallets
      then
        match process_buy_event cfg now (wallet_address parsed) (token_address parsed)
                (sol_amount parsed) (token_amount parsed) (tx_signature_of parsed)
                (block_time parsed) None None s with
        | (Ok signals, s') => create_alerts now (token_address parsed) signals alerts s'
        | (Raise _, s') => (alerts, s')
        end
      else (alerts, s)
  | None => (alerts, s)
  end.

(** [handle_webhook], on the list of the transactions of the payload.
    [tracked_wallets] is the cache of the handler. *)
Definition handle_webhook (now : datetime) (tracked_wallets : list string)
    (payload : list Transaction) (s : Session) : list AlertInfo * Session :=
  fold_left (fun acc tx => handle_transaction now tracked_wallets tx (fst acc) (snd acc))
            payload ([], s).

(** [_refresh_wallet_cache], [add_wallet_to_cache] and
    [remove_wallet_from_cache], on the cache as a list without repetition. *)
Definition _refresh_wallet_cache (s : Session) : list string :=
  set_str (ModelMethods.get_wallet_addresses s).
Definition add_wallet_to_cache (address : string) (tracked_wallets : list string)
    : list string :=
  if mem_str address tracked_wallets then tracked_wallets
  else tracked_wallets ++ [address].
Definition remove_wallet_from_cache (address : string) (tracked_wallets : list string)
    : list string :=
  filter (fun a => negb (String.eqb a address)) tracked_wallets.

End Handler.

End HeliusHandler.

(** ** processors/webhook_security.py: the rate limiter *)

Module RateLimiter.

(** The dictionary [_requests]: the keys in insertion order, each with
    the timestamps of its recorded requests. *)
Definition Requests : Type := list (string * list Q).

Record t : Type := mkRateLimiter {
  max_requests : Z;
  window_seconds : Z;
  _requests : Requests
}.

Definition lookup (identifier : string) (d : Requests) : option (list Q) :=
  match first (fun kv => String.eqb (fst kv) identifier) d with
  | Some kv => Some (snd kv)
  | None => None
  end.

(** [d[identifier] = l] *)
Fixpoint store (identifier : string) (l : list Q) (d : Requests) : Requests :=
  match d with
  | [] => [(identifier, l)]
  | (k, l') :: r =>
      if String.eqb k identifier then (k, l) :: r else (k, l') :: store identifier l r
  end.

(** [d[identifier]], for a key that is present. *)
Definition get_list (identifier : string) (d : Requests) : list Q :=
  match lookup identifier d with
  | Some l => l
  | None => []
  end.

(** [RateLimiter(max_requests, window_seconds)] *)
Definition new (max_requests window_seconds : Z) : t :=
  {| max_requests := max_requests; window_seconds := window_seconds; _requests := [] |}.

Definition recent (window_start : Q) (l : list Q) : list Q :=
  filter (fun ts => Qgtb ts window_start) l.

(** [is_allowed]; [now] is [time.time()]. *)
Definition is_allowed (now : Q) (identifier : string) (rl : t) : bool * t :=
  let window_start := now - inject_Z (window_seconds rl) in
  let requests :=
    match lookup identifier (_requests rl) with
    | Some _ => _requests rl
    | None => store identifier [] (_requests rl)
    end in
  let kept := recent window_start (get_list identifier requests) in
  let requests := store identifier kept requests in
  if Z.geb (Z.of_nat (List.length kept)) (max_requests rl)
  then (false, {| max_requests := max_requests rl;
                  window_seconds := window_seconds rl;
                  _requests := requests |})
  else (true, {| max_requests := max_requests rl;
                 window_seconds := window_seconds rl;
                 _requests := store identifier (kept ++ [now]) requests |}).

(** [cleanup] *)
Definition cleanup (now : Q) (rl : t) : t :=
  let window_start := now - inject_Z (window_seconds rl) in
  {| max_requests := max_requests rl;
     window_seconds := window_seconds rl;
     _requests :=
       flat_map (fun kv =>
                   match recent window_start (snd kv) with
                   | [] => []
                   | l => [(fst kv, l)]
                   end) (_requests rl) |}.

End RateLimiter.

(** * Scenarios for the rest of the core *)

(** A triggered signal on the tracked token, as [process_buy_event] builds
    it: no rug check yet. *)
Definition example_signal : SignalProcessor.SignalResult := {|
  SignalProcessor.triggered := true;
  SignalProcessor.signal_type := HIGH_CONVICTION;
  SignalProcessor.sr_token := Some tracked_token;
  SignalProcessor.sr_trades := [tracked_trade];
  SignalProcessor.sr_wallets := [example_wallet];
  SignalProcessor.total_sol := 2;
  SignalProcessor.max_supply_pct := 1;
  SignalProcessor.details := [("sol_amount"%string, SignalProcessor.VFloat 2)];
  SignalProcessor.rug_checked := false;
  SignalProcessor.rug_passed := true;
  SignalProcessor.rug_risk_score := 0;
  SignalProcessor.rug_warnings := []
|}.

(** The metadata of a token with a freeze authority and little liquidity,
    and the services of a run in which every call succeeds. *)
Definition risky_metadata : TokenMetadataService.TokenMetadata := {|
  TokenMetadataService.name := Some "Baby Bonk"%string;
  TokenMetadataService.symbol := Some "BABYBONK"%string;
  TokenMetadataService.total_supply := 1000000;
  TokenMetadataService.price_usd := 1 # 1000;
  TokenMetadataService.market_cap_sol := 120;
  TokenMetadataService.liquidity_usd := 1000;
  TokenMetadataService.liquidity_sol := 7;
  TokenMetadataService.is_mintable := true;
  TokenMetadataService.is_freezable := true
|}.

Definition risky_service (_ : string) : result TokenMetadataService.TokenMetadata :=
  Ok risky_metadata.
Definition no_holders (_ : string) : result (option Q) := Ok None.
Definition never (_ : string) : bool := false.
Definition no_format (_ : nat) (_ : Q) : string := ""%string.
Definition same_case (x : string) : string := x.

Definition risky_check : string -> result RugDetector.RugCheckResult :=
  RugDetector.check_token same_case no_format risky_service no_holders never never.

Definition no_detail (_ : bool) (_ : Z) (_ : string) (_ : list string)
    : SignalProcessor.DetailValue :=
  SignalProcessor.VStr "rug_check".

(** The row [update_all_scores] leaves for a wallet row: the score of an
    active wallet is recalculated on the session as the call finds it. *)
Definition rescored (pow_half : Q -> Q) (now : datetime) (s : Session) (w : SmartWallet)
    : SmartWallet :=
  if sw_is_active w
  then match ConvictionCalculator.calculate_score pow_half now s w with
       | Ok q => ConvictionBatch.set_conviction_score q w
       | Raise _ => w
       end
  else w.

(** A first buy of the tracked wallet, with the supply known. *)
Definition supplied_event : BuyEvent := {|
  ev_wallet_address := "W1"; ev_token_ca := "T1";
  ev_sol_amount := 2; ev_token_amount := 10000;
  ev_tx_signature := "sig9"; ev_block_time := 1500;
  ev_market_cap := Some 100; ev_total_supply := Some 1000000
|}.

(** A run of the rate limiter: the calls [is_allowed(identifier)] in the
    order they arrive, each with the time it reads; the result is the list
    of the calls that were allowed, and the limiter after the run. *)
Fixpoint serve (calls : list (Q * string)) (rl : RateLimiter.t)
    (granted : list (Q * string)) : list (Q * string) * RateLimiter.t :=
  match calls with
  | [] => (granted, rl)
  | (now, identifier) :: rest =>
      let (allowed, rl') := RateLimiter.is_allowed now identifier rl in
      serve rest rl' (if allowed then granted ++ [(now, identifier)] else granted)
  end.

(** The requests of [identifier] among [granted] that fall in the window
    that ends at [now]. *)
Definition in_window (window_seconds : Z) (now : Q) (identifier : string)
    (granted : list (Q * string)) : list (Q * string) :=
  filter (fun c => String.eqb (snd c) identifier
                   && Qgtb (fst c) (now - inject_Z window_seconds)) granted.

(** What the limiter remembers stands for what it has granted: within any
    window that ends no earlier than the last call, the stored timestamps of
    an identifier are those of its granted requests. *)
Definition remembers (rl : RateLimiter.t) (granted : list (Q * string)) (last : Q) : Prop :=
  forall identifier now, last <= now ->
    RateLimiter.recent (now - inject_Z (RateLimiter.window_seconds rl))
      (RateLimiter.get_list identifier (RateLimiter._requests rl))
    = map fst (in_window (RateLimiter.window_seconds rl) now identifier granted).

(** Three requests of one address within a minute. *)
Definition example_calls : list (Q * string) :=
  [(0, "10.0.0.1"); (30, "10.0.0.1"); (40, "10.0.0.1")]%string.

(** The call of [process_buy_event] that [handle_webhook] makes for a parsed
    swap: market cap and total supply are left at their defaults. *)
Definition webhook_event (p : HeliusHandler.ParsedSwap) : BuyEvent := {|
  ev_wallet_address := HeliusHandler.wallet_address p;
  ev_token_ca := HeliusHandler.token_address p;
  ev_sol_amount := HeliusHandler.sol_amount p;
  ev_token_amount := HeliusHandler.token_amount p;
  ev_tx_signature := HeliusHandler.tx_signature_of p;
  ev_block_time := HeliusHandler.block_time p;
  ev_market_cap := None;
  ev_total_supply := None
|}.

(** A swap of 2 SOL for 10000 tokens by the tracked wallet, as Helius
    reports it, and the same swap by a wallet that is not tracked. *)
Definition swap_of (payer signature : string) : HeliusHandler.Transaction := {|
  HeliusHandler.tx_type := Some "SWAP"%string;
  HeliusHandler.tx_signature := Some signature;
  HeliusHandler.tx_timestamp := Some 1500%Z;
  HeliusHandler.tx_feePayer := Some payer;
  HeliusHandler.tx_tokenTransfers :=
    Some [{| HeliusHandler.tt_mint := Some "T1"%string;
             HeliusHandler.tt_toUserAccount := Some payer;
             HeliusHandler.tt_tokenAmount := Some 10000 |}];
  HeliusHandler.tx_nativeTransfers :=
    Some [{| HeliusHandler.nt_fromUserAccount := Some payer;
             HeliusHandler.nt_amount := Some 2000000000 |}];
  HeliusHandler.tx_instructions :=
    Some [{| HeliusHandler.in_programId := Some HeliusHandler.PUMP_FUN_PROGRAM |}]
|}.

(** The configuration of the examples under another exit strategy, the
    trigger data of the example signal as what every alert has stored, and
    fixed draws. *)
Definition config_with (strategy : Backtester.ExitStrategy) : Backtester.BacktestConfig := {|
  Backtester.start_date := 0; Backtester.end_date := 100000;
  Backtester.signal_types := [HIGH_CONVICTION; CLUSTER_BUY; VOLUME_SPIKE];
  Backtester.min_wallet_win_rate := 65;
  Backtester.cfg_position_size_sol := 1;
  Backtester.exit_strategy := strategy;
  Backtester.exit_time_minutes := 60;
  Backtester.take_profit_pct := 50;
  Backtester.skip_rugged_tokens := true
|}.

Definition stored_example (_ : Alert) : result (option AlertLifecycle.TriggerData) :=
  Ok (Some (AlertLifecycle.trigger_data example_signal)).
Definition draw_uniform (_ : Alert) : Q := 3 # 10.
Definition draw_gauss (_ : Alert) : Q := 6 # 5.


(** * Properties *)

(** ** Comparisons and the builtins *)

Lemma Qleb_iff (a b : Q) : Qleb a b = true <-> a <= b.
Proof. unfold Qleb. apply Qle_bool_iff. Qed.

Lemma Qgeb_iff (a b : Q) : Qgeb a b = true <-> b <= a.
Proof. unfold Qgeb. apply Qle_bool_iff. Qed.

Lemma Qltb_iff (a b : Q) : Qltb a b = true <-> a < b.
Proof.
  unfold Qltb. rewrite negb_true_iff, <- not_true_iff_false, Qle_bool_iff.
  split; [apply Qnot_le_lt | apply Qlt_not_le].
Qed.

Lemma Qgtb_iff (a b : Q) : Qgtb a b = true <-> b < a.
Proof.
  unfold Qgtb. rewrite negb_true_iff, <- not_true_iff_false, Qle_bool_iff.
  split; [apply Qnot_le_lt | apply Qlt_not_le].
Qed.

Lemma Qleb_false_iff (a b : Q) : Qleb a b = false <-> b < a.
Proof.
  rewrite <- not_true_iff_false, Qleb_iff.
  split; [apply Qnot_le_lt | apply Qlt_not_le].
Qed.

Lemma Qgeb_false_iff (a b : Q) : Qgeb a b = false <-> a < b.
Proof. unfold Qgeb. apply (Qleb_false_iff b a). Qed.

Lemma Qltb_false_iff (a b : Q) : Qltb a b = false <-> b <= a.
Proof. unfold Qltb. rewrite negb_false_iff. apply Qle_bool_iff. Qed.

Lemma Qgtb_false_iff (a b : Q) : Qgtb a b = false <-> a <= b.
Proof. unfold Qgtb. rewrite negb_false_iff. apply Qle_bool_iff. Qed.

Lemma Qeq_bool_false_iff (a b : Q) : Qeq_bool a b = false <-> ~ a == b.
Proof. rewrite <- not_true_iff_false, Qeq_bool_iff. tauto. Qed.

(** Case analysis on a comparison, with the order fact in the context. *)
Ltac case_cmp :=
  match goal with
  | |- context [Qleb ?a ?b] =>
      let E := fresh "E" in
      destruct (Qleb a b) eqn:E;
      [apply Qleb_iff in E | apply Qleb_false_iff in E]
  | |- context [Qgeb ?a ?b] =>
      let E := fresh "E" in
      destruct (Qgeb a b) eqn:E;
      [apply Qgeb_iff in E | apply Qgeb_false_iff in E]
  | |- context [Qltb ?a ?b] =>
      let E := fresh "E" in
      destruct (Qltb a b) eqn:E;
      [apply Qltb_iff in E | apply Qltb_false_iff in E]
  | |- context [Qgtb ?a ?b] =>
      let E := fresh "E" in
      destruct (Qgtb a b) eqn:E;
      [apply Qgtb_iff in E | apply Qgtb_false_iff in E]
  end.

Lemma py_min_le_l (a b : Q) : Py.min a b <= a.
Proof. unfold Py.min. case_cmp; lra. Qed.

Lemma py_min_le_r (a b : Q) : Py.min a b <= b.
Proof. unfold Py.min. case_cmp; lra. Qed.

Lemma py_min_glb (a b c : Q) : c <= a -> c <= b -> c <= Py.min a b.
Proof. unfold Py.min. case_cmp; lra. Qed.

Lemma py_max_ge_l (a b : Q) : a <= Py.max a b.
Proof. unfold Py.max. case_cmp; lra. Qed.

Lemma py_max_ge_r (a b : Q) : b <= Py.max a b.
Proof. unfold Py.max. case_cmp; lra. Qed.

Lemma py_max_lub (a b c : Q) : a <= c -> b <= c -> Py.max a b <= c.
Proof. unfold Py.max. case_cmp; lra. Qed.

Lemma div_ok (a b : Q) : ~ b == 0 -> div a b = Ok (a / b).
Proof.
  intros H. unfold div. apply Qeq_bool_false_iff in H. now rewrite H.
Qed.

Lemma len_nonzero {A : Type} (x : A) (l : list A) : ~ len (x :: l) == 0.
Proof.
  unfold len. cbn [List.length]. intros H.
  unfold Qeq in H. cbn in H. lia.
Qed.

Lemma len_nonneg {A : Type} (l : list A) : 0 <= len l.
Proof. unfold len, Qle. cbn. lia. Qed.

Lemma len_pos {A : Type} (x : A) (l : list A) : 0 < len (x :: l).
Proof. unfold len, Qlt. cbn [List.length]. cbn. lia. Qed.

(** [sum] is a fold from the left; it agrees with the recursive sum. *)
Lemma fold_plus_shift (xs : list Q) (a : Q) :
  fold_left Qplus xs a == a + fold_left Qplus xs 0.
Proof.
  revert a. induction xs as [|x xs IH]; intros a; cbn.
  - lra.
  - rewrite (IH (a + x)), (IH (0 + x)). lra.
Qed.

Lemma sum_cons (x : Q) (xs : list Q) : sum (x :: xs) == x + sum xs.
Proof. unfold sum. cbn. rewrite fold_plus_shift. lra. Qed.

Lemma sum_nil : sum [] == 0.
Proof. reflexivity. Qed.

Lemma sum_nonneg (xs : list Q) : (forall x, In x xs -> 0 <= x) -> 0 <= sum xs.
Proof.
  induction xs as [|x xs IH]; intros H.
  - rewrite sum_nil. lra.
  - rewrite sum_cons.
    assert (0 <= x) by (apply H; now left).
    assert (0 <= sum xs) by (apply IH; intros y Hy; apply H; now right).
    lra.
Qed.

(** [Query.first()] *)
Lemma first_some {A : Type} (p : A -> bool) (l : list A) (x : A) :
  first p l = Some x -> In x l /\ p x = true.
Proof.
  induction l as [|y l IH]; cbn; [discriminate|].
  destruct (p y) eqn:E.
  - intros [= ->]. auto.
  - intros H. destruct (IH H). auto.
Qed.

Lemma first_none {A : Type} (p : A -> bool) (l : list A) :
  first p l = None <-> forall x, In x l -> p x = false.
Proof.
  induction l as [|y l IH]; cbn.
  - split; [intros _ x [] | reflexivity].
  - destruct (p y) eqn:E; split.
    + discriminate.
    + intros H. specialize (H y (or_introl eq_refl)). congruence.
    + intros H x [<-|Hx]; [assumption | now apply IH].
    + intros H. apply IH. intros x Hx. apply H. now right.
Qed.

Lemma first_exists {A : Type} (p : A -> bool) (l : list A) (x : A) :
  In x l -> p x = true -> exists y, first p l = Some y.
Proof.
  intros Hin Hp. destruct (first p l) eqn:E; [eauto|].
  rewrite first_none in E. specialize (E x Hin). congruence.
Qed.

Lemma first_app_none {A : Type} (p : A -> bool) (l : list A) (x : A) :
  first p l = None -> first p (l ++ [x]) = if p x then Some x else None.
Proof.
  induction l as [|y l IH]; cbn; [reflexivity|].
  destruct (p y); [discriminate | exact IH].
Qed.

Lemma first_app_some {A : Type} (p : A -> bool) (l r : list A) (x : A) :
  first p l = Some x -> first p (l ++ r) = Some x.
Proof.
  induction l as [|y l IH]; cbn; [discriminate|].
  destruct (p y); [trivial | exact IH].
Qed.

(** Replacing the rows that carry the key of [x] by [x] leaves the first
    row that passes [p] equal to [x], when [x] passes [p] and the row found
    before carries the key of [x]. *)
Lemma first_replace {A : Type} (p : A -> bool) (key : A -> Z) (l : list A) (x0 x : A) :
  first p l = Some x0 -> key x0 = key x -> p x = true ->
  first p (map (fun r => if Z.eqb (key r) (key x) then x else r) l) = Some x.
Proof.
  intros H Hk Hp. induction l as [|y l IH]; cbn in *; [discriminate|].
  destruct (Z.eqb (key y) (key x)) eqn:Ek.
  - now rewrite Hp.
  - destruct (p y) eqn:Ey.
    + injection H as ->. rewrite Hk, Z.eqb_refl in Ek. discriminate.
    + now apply IH.
Qed.

(** ** The signal processor *)

Module SignalProcessorFacts.

Import SignalProcessor.

(** What the two recording steps leave untouched. *)
Lemma get_or_create_token_frame now ca mc ts s :
  let s1 := snd (_get_or_create_token now ca mc ts s) in
  trades s1 = trades s /\ wallets s1 = wallets s /\
  alerts s1 = alerts s /\ cluster_events s1 = cluster_events s.
Proof.
  unfold _get_or_create_token.
  destruct (first _ (tokens s)); cbn; auto.
Qed.

Lemma record_trade_frame w tok sol amt pct sig bt mc s :
  let s1 := snd (_record_trade w tok sol amt pct sig bt mc s) in
  tokens s1 = tokens s /\ alerts s1 = alerts s /\
  cluster_events s1 = cluster_events s /\
  map sw_id (wallets s1) = map sw_id (wallets s).
Proof.
  unfold _record_trade.
  destruct (first _ (trades s)); cbn; auto.
  repeat split; auto.
  rewrite map_map. apply map_ext. intros r.
  destruct (Z.eqb (sw_id r) (sw_id w)) eqn:E; cbn; [|reflexivity].
  apply Z.eqb_eq in E. now rewrite E.
Qed.

(** [trade.wallet] resolves as soon as some wallet row carries the key. *)
Lemma first_by_id_ids {A : Type} (key : A -> Z) (k : Z) (l l' : list A) :
  map key l = map key l' ->
  first (fun r => Z.eqb (key r) k) l <> None ->
  first (fun r => Z.eqb (key r) k) l' <> None.
Proof.
  revert l'. induction l as [|x l IH]; intros [|x' l'] Hm; cbn in *;
    try discriminate; try tauto.
  injection Hm as Hx Hl. rewrite <- Hx.
  destruct (Z.eqb (key x) k); [discriminate | now apply IH].
Qed.

Lemma fk_ok_spec (s : Session) :
  fk_ok s = true <-> forall t, In t (trades s) -> wallet_of s t <> None.
Proof.
  unfold fk_ok. rewrite forallb_forall. split; intros H t Ht.
  - specialize (H t Ht). destruct (wallet_of s t); [discriminate | discriminate].
  - specialize (H t Ht). destruct (wallet_of s t); [reflexivity | congruence].
Qed.

Lemma fk_ok_recorded now ev w s :
  get_by_address s (ev_wallet_address ev) = Some w ->
  fk_ok s = true ->
  fk_ok (snd (recorded now ev w s)) = true.
Proof.
  intros Hw Hfk. unfold recorded.
  destruct (_get_or_create_token _ _ _ _ s) as [tok s1] eqn:E1.
  pose proof (get_or_create_token_frame now (ev_token_ca ev) (ev_market_cap ev)
                (ev_total_supply ev) s) as F1.
  rewrite E1 in F1. cbn in F1. destruct F1 as (Ft & Fw & _ & _).
  match goal with
  | |- context [_record_trade ?a ?b ?c ?d ?e ?f ?g ?h s1] =>
      pose proof (record_trade_frame a b c d e f g h s1) as F2;
      destruct (_record_trade a b c d e f g h s1) as [[tr w'] s2] eqn:E2
  end.
  cbn in F2. destruct F2 as (_ & _ & _ & Fids). cbn.
  rewrite fk_ok_spec in Hfk |- *.
  assert (Hold : forall t, In t (trades s) -> wallet_of s2 t <> None).
  { intros t Ht. unfold wallet_of.
    apply (first_by_id_ids sw_id (tr_wallet_id t) (wallets s)).
    - now rewrite Fids, Fw.
    - now apply Hfk. }
  unfold _record_trade in E2.
  destruct (first _ (trades s1)) as [ex|] eqn:Ef.
  - injection E2 as <- <- <-. intros t Ht. rewrite Ft in Ht.
    specialize (Hold t Ht). unfold wallet_of in *. exact Hold.
  - injection E2 as <- <- <-. intros t Ht. cbn in Ht. rewrite Ft in Ht.
    apply in_app_or in Ht. destruct Ht as [Ht|[<-|[]]].
    + apply Hold; assumption.
    + unfold wallet_of. cbn [tr_wallet_id].
      apply (first_by_id_ids sw_id (sw_id w) (wallets s)).
      * cbn in Fids. rewrite <- Fw. symmetry. exact Fids.
      * apply first_some in Hw. destruct Hw as [Hin _].
        destruct (first_exists (fun r => Z.eqb (sw_id r) (sw_id w)) (wallets s) w Hin
                    (Z.eqb_refl _)) as [y Hy].
        rewrite Hy. discriminate.
Qed.

(** The loop of the cluster check ends normally when every trade has its
    wallet, and never loses a wallet it has gathered. *)
Lemma gather_cluster_ok s trades ws addrs tot mx :
  (forall t, In t trades -> wallet_of s t <> None) ->
  exists ws' addrs' tot' mx',
    gather_cluster s trades ws addrs tot mx = Ok (ws', addrs', tot', mx')
    /\ (List.length ws <= List.length ws')%nat.
Proof.
  revert ws addrs tot mx.
  induction trades as [|t trades IH]; intros ws addrs tot mx H; cbn.
  - eauto 10.
  - destruct (wallet_of s t) as [w|] eqn:Ew.
    + edestruct IH as (ws' & addrs' & tot' & mx' & Heq & Hlen).
      { intros t' Ht'. apply H. now right. }
      rewrite Heq. do 4 eexists. split; [reflexivity|].
      destruct (negb (mem_str (sw_address w) addrs)); [|exact Hlen].
      rewrite length_app in Hlen. cbn in Hlen. lia.
    + exfalso. apply (H t); [now left | exact Ew].
Qed.

Lemma gather_cluster_mono s trades ws addrs tot mx ws' addrs' tot' mx' :
  gather_cluster s trades ws addrs tot mx = Ok (ws', addrs', tot', mx') ->
  (List.length ws <= List.length ws')%nat.
Proof.
  revert ws addrs tot mx.
  induction trades as [|x trades IH]; intros ws addrs tot mx; cbn.
  - intros [= <- _ _ _]. lia.
  - destruct (wallet_of s x) as [w|]; [|discriminate].
    intros H. apply IH in H.
    destruct (negb (mem_str (sw_address w) addrs)); [|exact H].
    rewrite length_app in H. cbn in H. lia.
Qed.

Lemma gather_cluster_nonempty s x trades ws' addrs' tot' mx' :
  gather_cluster s (x :: trades) [] [] 0 0 = Ok (ws', addrs', tot', mx') ->
  ws' <> [].
Proof.
  cbn. destruct (wallet_of s x) as [w|]; [|discriminate].
  cbn. intros H. apply gather_cluster_mono in H.
  destruct ws'; [cbn in H; lia | discriminate].
Qed.

Lemma trade_addresses_ok s trades :
  (forall t, In t trades -> wallet_of s t <> None) ->
  exists l, trade_addresses s trades = Ok l.
Proof.
  induction trades as [|x trades IH]; intros H; cbn; [eauto|].
  destruct (wallet_of s x) eqn:Ew.
  - destruct IH as [l Hl]; [intros y Hy; apply H; now right|].
    rewrite Hl. eauto.
  - exfalso. apply (H x); [now left | exact Ew].
Qed.

(** A qualifying trade is a trade of the session. *)
Lemma cluster_trades_in now s k mw wm ms t :
  In t (snd (check_cluster_condition now s k mw wm ms)) -> In t (trades s).
Proof.
  unfold check_cluster_condition, get_recent_buys_for_token. cbn.
  intros H. apply filter_In in H. destruct H as [H _].
  apply filter_In in H. tauto.
Qed.

(** With at least one wallet required, a cluster has a qualifying trade. *)
Lemma cluster_trades_nonempty now s k mw wm ms :
  (1 <= mw)%Z ->
  fst (check_cluster_condition now s k mw wm ms) = true ->
  snd (check_cluster_condition now s k mw wm ms) <> [].
Proof.
  unfold check_cluster_condition. cbn. intros Hmw H Hnil.
  rewrite Hnil in H. cbn in H. apply Z.geb_le in H. lia.
Qed.

Lemma record_cluster_event_ok token x trades s :
  (forall t, In t (x :: trades) -> wallet_of s t <> None) ->
  exists c, _record_cluster_event token (x :: trades) s = (Ok c, add_cluster_event c s).
Proof.
  intros Hres. unfold _record_cluster_event, bind, get, lift, put, ret.
  destruct (trade_addresses_ok s (x :: trades) Hres) as [l Hl]. rewrite Hl.
  cbn [map min_list max_list]. eexists. reflexivity.
Qed.

(** [_check_cluster_buying] returns normally on a session with referential
    integrity, reports the cluster condition, and adds at most a
    [ClusterEvent] to the session. *)
Lemma check_cluster_buying_ok cfg now token s :
  fk_ok s = true -> (1 <= cluster_min_wallets cfg)%Z ->
  exists r s',
    _check_cluster_buying cfg now token s = (Ok r, s')
    /\ signal_type r = CLUSTER_BUY
    /\ triggered r = cluster_triggered cfg now s token
    /\ trades s' = trades s /\ wallets s' = wallets s
    /\ tokens s' = tokens s /\ alerts s' = alerts s
    /\ (if triggered r
        then exists c, cluster_events s' = cluster_events s ++ [c]
        else cluster_events s' = cluster_events s).
Proof.
  intros Hfk Hmw. unfold _check_cluster_buying, cluster_triggered.
  unfold bind at 1, get at 1.
  pose proof (cluster_trades_nonempty now s (tk_id token) _
                (cluster_window_minutes cfg) (cluster_min_sol cfg) Hmw) as Hne.
  pose proof (fun t => cluster_trades_in now s (tk_id token) (cluster_min_wallets cfg)
                (cluster_window_minutes cfg) (cluster_min_sol cfg) t) as Hin.
  destruct (check_cluster_condition _ _ _ _ _ _) as [is_cluster q].
  cbn [fst snd] in *.
  destruct is_cluster; cbn [negb].
  - specialize (Hne eq_refl).
    rewrite fk_ok_spec in Hfk.
    assert (Hres : forall t, In t q -> wallet_of s t <> None) by auto.
    destruct (gather_cluster_ok s q [] [] 0 0 Hres)
      as (ws & addrs & tot & mx & Hg & _).
    destruct q as [|t0 q]; [congruence|].
    pose proof (gather_cluster_nonempty _ _ _ _ _ _ _ Hg) as Hws.
    unfold bind at 1, lift at 1. rewrite Hg.
    destruct (record_cluster_event_ok token t0 q s Hres) as [c Hc].
    unfold bind at 1. rewrite Hc.
    destruct ws as [|w0 ws]; [congruence|].
    unfold bind, lift. rewrite (div_ok _ _ (len_nonzero w0 ws)).
    unfold ret. do 2 eexists. split; [reflexivity|].
    cbn [signal_type triggered]. unfold add_cluster_event.
    cbn [trades wallets tokens alerts cluster_events].
    repeat split; eauto.
  - unfold ret. do 2 eexists. split; [reflexivity|].
    cbn [signal_type triggered not_triggered]. repeat split.
Qed.

(** [_check_volume_spike] always returns normally, changes nothing, and
    reports the volume condition. *)
Lemma check_volume_spike_ok cfg now token s :
  exists r,
    _check_volume_spike cfg now token s = (Ok r, s)
    /\ signal_type r = VOLUME_SPIKE
    /\ triggered r = volume_triggered cfg now s token
    /\ (Qleb (or_else (tk_market_cap_sol token) 0) 0 = true ->
        r = not_triggered VOLUME_SPIKE).
Proof.
  unfold _check_volume_spike, volume_triggered, volume_5m, bind, get, lift, ret.
  destruct (Qgtb (age_minutes now token) _) eqn:Eage.
  - eexists. split; [reflexivity|]. cbn. repeat split.
    apply Qgtb_iff in Eage.
    destruct (Qleb (age_minutes now token) _) eqn:E2; [|reflexivity].
    apply Qleb_iff in E2. lra.
  - apply Qgtb_false_iff in Eage. apply Qleb_iff in Eage. rewrite Eage.
    destruct (Qleb (or_else (tk_market_cap_sol token) 0) 0) eqn:Emc.
    + eexists. split; [reflexivity|]. cbn. repeat split.
    + apply Qleb_false_iff in Emc.
      rewrite div_ok by lra.
      eexists. split; [reflexivity|]. cbn. repeat split. discriminate.
Qed.

(** Whenever [_record_cluster_event] returns it has added one row and
    nothing else. *)
Lemma record_cluster_event_result token trades s c s' :
  _record_cluster_event token trades s = (Ok c, s') -> s' = add_cluster_event c s.
Proof.
  unfold _record_cluster_event, bind, get, lift, put, ret.
  destruct (trade_addresses s trades); [|discriminate].
  destruct (min_list _); [|discriminate].
  destruct (max_list _); [|discriminate].
  now intros [= <- <-].
Qed.

(** Whenever [_check_cluster_buying] returns, its result reports the cluster
    condition, and only the cluster events may have changed. *)
Lemma check_cluster_buying_result cfg now token s r s' :
  _check_cluster_buying cfg now token s = (Ok r, s') ->
  signal_type r = CLUSTER_BUY
  /\ triggered r = cluster_triggered cfg now s token
  /\ trades s' = trades s /\ wallets s' = wallets s
  /\ tokens s' = tokens s /\ alerts s' = alerts s.
Proof.
  unfold _check_cluster_buying, cluster_triggered.
  unfold bind at 1, get at 1.
  destruct (check_cluster_condition _ _ _ _ _ _) as [is_cluster q].
  cbn [fst snd]. destruct is_cluster; cbn [negb].
  - unfold bind at 1, lift at 1.
    destruct (gather_cluster s q [] [] 0 0) as [[[[ws addrs] tot] mx]|]; [|discriminate].
    unfold bind at 1.
    destruct (_record_cluster_event token q s) as [[c|] s1] eqn:Ec; [|discriminate].
    apply record_cluster_event_result in Ec. subst s1.
    unfold bind, lift. destruct (div _ _); [|discriminate].
    unfold ret. intros [= <- <-]. cbn. auto 10.
  - unfold ret. intros [= <- <-]. cbn. auto 10.
Qed.

(** Whenever [process_buy_event] returns for a known wallet, its signals are
    those of the three conditions that hold on the recorded token and
    session, in this order. *)
Lemma process_result cfg now ev s w sigs s3 :
  get_by_address s (ev_wallet_address ev) = Some w ->
  process cfg now ev s = (Ok sigs, s3) ->
  signal_types sigs =
    (if hc_triggered cfg ev then [HIGH_CONVICTION] else [])
    ++ (if cluster_triggered cfg now (snd (recorded now ev w s))
             (fst (recorded now ev w s))
        then [CLUSTER_BUY] else [])
    ++ (if volume_triggered cfg now (snd (recorded now ev w s))
             (fst (recorded now ev w s))
        then [VOLUME_SPIKE] else [])
  /\ trades s3 = trades (snd (recorded now ev w s))
  /\ wallets s3 = wallets (snd (recorded now ev w s))
  /\ tokens s3 = tokens (snd (recorded now ev w s))
  /\ alerts s3 = alerts (snd (recorded now ev w s)).
Proof.
  intros Hw.
  unfold process, process_buy_event, bind at 1, get. rewrite Hw.
  unfold recorded. unfold bind at 1, step at 1.
  destruct (_get_or_create_token _ _ _ _ s) as [token s1].
  unfold bind at 1, step at 1.
  destruct (_record_trade _ _ _ _ _ _ _ _ s1) as [[trade w'] s2].
  cbn [fst snd].
  unfold bind at 1.
  destruct (_check_cluster_buying cfg now token s2) as [[cl|] s2'] eqn:Hcl;
    [|discriminate].
  apply check_cluster_buying_result in Hcl.
  destruct Hcl as (Hty & Htr & Ft & Fw & Fk & Fa).
  destruct (check_volume_spike_ok cfg now token s2') as (vs & Hvs & Hvty & Hvtr & _).
  assert (Hvol : volume_triggered cfg now s2' token = volume_triggered cfg now s2 token).
  { unfold volume_triggered, volume_5m, recent_trades. now rewrite Ft. }
  rewrite Hvol in Hvtr. clear Hvol.
  assert (Hhc : triggered (_check_high_conviction cfg w' trade token
                  (supply_percentage (ev_token_amount ev) (ev_total_supply ev))
                  (ev_sol_amount ev)) = hc_triggered cfg ev) by reflexivity.
  set (hc := _check_high_conviction _ _ _ _ _ _) in *.
  assert (Hhty : signal_type hc = HIGH_CONVICTION) by reflexivity.
  clearbody hc.
  destruct (Qleb (age_minutes now token) _) eqn:Eage.
  - unfold bind. rewrite Hvs. unfold ret. intros [= <- <-].
    rewrite <- Hhc, <- Htr, <- Hvtr. split; [|auto].
    unfold signal_types.
    destruct (triggered hc), (triggered cl), (triggered vs); cbn;
      rewrite ?Hhty, ?Hty, ?Hvty; reflexivity.
  - unfold ret. intros [= <- <-].
    assert (Hv : volume_triggered cfg now s2 token = false).
    { unfold volume_triggered. now rewrite Eage. }
    rewrite Hv, <- Hhc, <- Htr. split; [|auto].
    unfold signal_types.
    destruct (triggered hc), (triggered cl); cbn; rewrite ?Hhty, ?Hty; reflexivity.
Qed.

(** The shape of a call of [process_buy_event] for a known wallet. *)
Lemma process_known cfg now ev s w :
  get_by_address s (ev_wallet_address ev) = Some w ->
  fk_ok s = true -> (1 <= cluster_min_wallets cfg)%Z ->
  exists sigs s3,
    process cfg now ev s = (Ok sigs, s3)
    /\ signal_types sigs =
         (if hc_triggered cfg ev then [HIGH_CONVICTION] else [])
         ++ (if cluster_triggered cfg now (snd (recorded now ev w s))
                  (fst (recorded now ev w s))
             then [CLUSTER_BUY] else [])
         ++ (if volume_triggered cfg now (snd (recorded now ev w s))
                  (fst (recorded now ev w s))
             then [VOLUME_SPIKE] else [])
    /\ (forall sg, In sg sigs -> triggered sg = true)
    /\ trades s3 = trades (snd (recorded now ev w s))
    /\ wallets s3 = wallets (snd (recorded now ev w s))
    /\ tokens s3 = tokens (snd (recorded now ev w s))
    /\ alerts s3 = alerts (snd (recorded now ev w s)).
Proof.
  intros Hw Hfk Hmw.
  pose proof (fk_ok_recorded now ev w s Hw Hfk) as Hfk2.
  unfold process, process_buy_event, bind at 1, get. rewrite Hw.
  unfold recorded in *. unfold bind at 1, step at 1.
  destruct (_get_or_create_token _ _ _ _ s) as [token s1].
  unfold bind at 1, step at 1.
  destruct (_record_trade _ _ _ _ _ _ _ _ s1) as [[trade w'] s2].
  cbn [fst snd] in *.
  destruct (check_cluster_buying_ok cfg now token s2 Hfk2 Hmw)
    as (cl & s3 & Hcl & Hty & Htr & Ft & Fw & Fk & Fa & _).
  unfold bind at 1. rewrite Hcl.
  destruct (check_volume_spike_ok cfg now token s3) as (vs & Hvs & Hvty & Hvtr & _).
  assert (Hvol : volume_triggered cfg now s3 token = volume_triggered cfg now s2 token).
  { unfold volume_triggered, volume_5m, recent_trades. now rewrite Ft. }
  rewrite Hvol in Hvtr. clear Hvol.
  assert (Hhc : triggered (_check_high_conviction cfg w' trade token
                  (supply_percentage (ev_token_amount ev) (ev_total_supply ev))
                  (ev_sol_amount ev)) = hc_triggered cfg ev) by reflexivity.
  set (hc := _check_high_conviction _ _ _ _ _ _) in *.
  assert (Hhty : signal_type hc = HIGH_CONVICTION) by reflexivity.
  destruct (Qleb (age_minutes now token) _) eqn:Eage.
  - unfold bind. rewrite Hvs. unfold ret.
    do 2 eexists. split; [reflexivity|].
    rewrite <- Hhc, <- Htr, <- Hvtr.
    split; [|split; [|auto]].
    + unfold signal_types.
      destruct (triggered hc), (triggered cl), (triggered vs); cbn;
        rewrite ?Hhty, ?Hty, ?Hvty; reflexivity.
    + intros sg.
      destruct (triggered hc) eqn:T1, (triggered cl) eqn:T2, (triggered vs) eqn:T3;
        cbn; intuition (subst; assumption).
  - unfold ret. do 2 eexists. split; [reflexivity|].
    assert (Hv : volume_triggered cfg now s2 token = false).
    { unfold volume_triggered. now rewrite Eage. }
    rewrite Hv, <- Hhc, <- Htr.
    split; [|split; [|auto]].
    + unfold signal_types.
      destruct (triggered hc), (triggered cl); cbn; rewrite ?Hhty, ?Hty; reflexivity.
    + intros sg.
      destruct (triggered hc) eqn:T1, (triggered cl) eqn:T2;
        cbn; intuition (subst; assumption).
Qed.

Lemma hc_triggered_iff cfg ev :
  hc_triggered cfg ev = true <->
  high_conviction_min_sol cfg <= ev_sol_amount ev
  /\ high_conviction_min_supply_pct cfg
     <= supply_percentage (ev_token_amount ev) (ev_total_supply ev).
Proof.
  unfold hc_triggered. rewrite andb_true_iff, !Qgeb_iff. tauto.
Qed.

Lemma volume_triggered_iff cfg now s token :
  volume_triggered cfg now s token = true <->
  age_minutes now token <= inject_Z (new_token_max_age_minutes cfg)
  /\ exists mc, tk_market_cap_sol token = Some mc /\ 0 < mc
                /\ volume_spike_threshold cfg <= volume_5m now s token / mc.
Proof.
  unfold volume_triggered.
  rewrite !andb_true_iff, negb_true_iff, Qleb_iff, Qleb_false_iff, Qgeb_iff.
  destruct (tk_market_cap_sol token) as [mc|]; cbn [or_else].
  - destruct (Qeq_bool mc 0) eqn:E.
    + apply Qeq_bool_iff in E. split.
      * intros [[_ H] _]. lra.
      * intros [_ (mc' & [= <-] & H & _)]. lra.
    + split.
      * intros [[H1 H2] H3]. eauto.
      * intros [H1 (mc' & [= <-] & H2 & H3)]. auto.
  - split.
    + intros [[_ H] _]. lra.
    + intros [_ (mc' & [=] & _)].
Qed.

Lemma in_signal_types_app (a b c : bool) (ty : SignalType) :
  In ty ((if a then [HIGH_CONVICTION] else [])
         ++ (if b then [CLUSTER_BUY] else [])
         ++ (if c then [VOLUME_SPIKE] else [])) <->
  match ty with
  | HIGH_CONVICTION => a = true
  | CLUSTER_BUY => b = true
  | VOLUME_SPIKE => c = true
  end.
Proof.
  destruct a, b, c, ty; cbn; intuition congruence.
Qed.

(** C5.  A buy event whose [wallet_address] is not the address of a wallet
    row makes [process_buy_event] return the empty list of signals without
    raising, and leaves the session as it was: no trade, token, cluster
    event or alert is created. *)
Theorem C5_unknown_wallet_is_noop cfg now ev s :
  get_by_address s (ev_wallet_address ev) = None ->
  process cfg now ev s = (Ok [], s).
Proof.
  intros H. unfold process, process_buy_event, bind, get. now rewrite H.
Qed.

Lemma C5_unknown_wallet_witness :
  get_by_address example_session (ev_wallet_address stranger_event) = None
  /\ process settings 1000 stranger_event example_session = (Ok [], example_session).
Proof.
  split; [reflexivity|].
  apply (C5_unknown_wallet_is_noop settings 1000 stranger_event example_session).
  reflexivity.
Defined.

(** C3.  For a buy event of a known wallet, whenever [process_buy_event]
    returns, its signals contain HIGH_CONVICTION exactly when
    [sol_amount >= high_conviction_min_sol] and
    [supply_pct >= high_conviction_min_supply_pct] (defaults 1.0 and 0.5);
    it does return on a session where every trade has its wallet, with at
    least one wallet required for a cluster.  The trigger of
    [_check_high_conviction] is monotone in both amounts. *)
Theorem C3_high_conviction_iff_thresholds cfg now ev s w :
  get_by_address s (ev_wallet_address ev) = Some w ->
  (forall sigs s',
     process cfg now ev s = (Ok sigs, s') ->
     (In HIGH_CONVICTION (signal_types sigs) <->
      high_conviction_min_sol cfg <= ev_sol_amount ev
      /\ high_conviction_min_supply_pct cfg
         <= supply_percentage (ev_token_amount ev) (ev_total_supply ev)))
  /\ (fk_ok s = true -> (1 <= cluster_min_wallets cfg)%Z ->
      exists sigs s', process cfg now ev s = (Ok sigs, s'))
  /\ (forall wallet trade token supply_pct sol_amount wallet' trade' token'
             supply_pct' sol_amount',
        sol_amount <= sol_amount' -> supply_pct <= supply_pct' ->
        triggered (_check_high_conviction cfg wallet trade token supply_pct sol_amount)
          = true ->
        triggered (_check_high_conviction cfg wallet' trade' token' supply_pct' sol_amount')
          = true)
  /\ high_conviction_min_sol settings == 1
  /\ high_conviction_min_supply_pct settings == 1 # 2.
Proof.
  intros Hw. split; [|split; [|split; [|split; reflexivity]]].
  - intros sigs s' Hp.
    destruct (process_result cfg now ev s w sigs s' Hw Hp) as (Hty & _).
    rewrite Hty, in_signal_types_app. apply hc_triggered_iff.
  - intros Hfk Hmw.
    destruct (process_known cfg now ev s w Hw Hfk Hmw) as (sigs & s' & Hp & _).
    eauto.
  - intros wallet trade token pct sol wallet' trade' token' pct' sol' Hs Hp.
    cbn [triggered _check_high_conviction].
    rewrite !andb_true_iff, !Qgeb_iff. intros [H1 H2]. split; lra.
Qed.

Lemma C3_high_conviction_witness :
  exists sigs s',
    process settings 1000 example_event example_session = (Ok sigs, s')
    /\ In HIGH_CONVICTION (signal_types sigs).
Proof.
  destruct (C3_high_conviction_iff_thresholds settings 1000 example_event
              example_session example_wallet eq_refl)
    as (Hiff & Hret & _).
  destruct Hret as (sigs & s' & Hp).
  - reflexivity.
  - vm_compute. discriminate.
  - exists sigs, s'. split; [exact Hp|].
    apply (Hiff sigs s' Hp). split; vm_compute; discriminate.
Defined.

(** The five-minute volume that [_check_volume_spike] sums is the buy
    volume of the trailing five minutes. *)
Lemma buy_volume_from_sum now (token : Token) (l : list Trade) (spent : Q) :
  buy_volume_from spent now (tk_id token) l
  == spent
     + sum (map tr_sol_amount
              (filter (fun t => Z.eqb (tr_token_id t) (tk_id token)
                                && is_buy (tr_trade_type t)
                                && Qgeb (tr_block_time t) (now - 300)) l)).
Proof.
  revert spent. induction l as [|t l IH]; intros spent;
    cbn [filter map buy_volume_from].
  - rewrite sum_nil. lra.
  - cbv zeta. rewrite IH.
    change (Qgeb (tr_block_time t) (now - 300))
      with (Qle_bool (now - 300) (tr_block_time t)).
    destruct (Z.eqb (tr_token_id t) (tk_id token)); cbn [andb]; [|reflexivity].
    destruct (tr_trade_type t); cbn [is_buy andb]; [|reflexivity].
    destruct (Qle_bool (now - 300) (tr_block_time t)); [|reflexivity].
    cbn [map]. rewrite sum_cons. lra.
Qed.

Lemma volume_5m_trailing now (s : Session) (token : Token) :
  volume_5m now s token == trailing_buy_volume now (tk_id token) (trades s).
Proof.
  unfold volume_5m, recent_trades, trailing_buy_volume.
  rewrite buy_volume_from_sum. lra.
Qed.

Lemma volume_triggered_trailing_iff cfg now s token :
  volume_triggered cfg now s token = true <->
  age_minutes now token <= inject_Z (new_token_max_age_minutes cfg)
  /\ exists mc, tk_market_cap_sol token = Some mc /\ 0 < mc
                /\ volume_spike_threshold cfg
                   <= trailing_buy_volume now (tk_id token) (trades s) / mc.
Proof.
  rewrite volume_triggered_iff. split.
  - intros (Ha & mc & Hmc & Hpos & Hthr). split; [exact Ha|].
    exists mc. split; [exact Hmc|]. split; [exact Hpos|].
    now rewrite <- volume_5m_trailing.
  - intros (Ha & mc & Hmc & Hpos & Hthr). split; [exact Ha|].
    exists mc. split; [exact Hmc|]. split; [exact Hpos|].
    now rewrite volume_5m_trailing.
Qed.

(** C7.  [_check_volume_spike] never raises and changes nothing; it
    triggers exactly when the token is at most [new_token_max_age_minutes]
    old, its market cap is known and positive, and the buy volume of the
    trailing five minutes (the SOL of the buys of the token with a block
    time from five minutes before the check on) divided by the market cap
    reaches [volume_spike_threshold] (defaults 60 and 0.10); with a market
    cap unknown or not positive it returns the not-triggered result.
    Whenever [process_buy_event] returns for a known wallet, its signals
    contain VOLUME_SPIKE under the same condition, on the token and session
    the event has been recorded in; in particular not for an older
    token. *)
Theorem C7_volume_spike_condition cfg now ev s w :
  get_by_address s (ev_wallet_address ev) = Some w ->
  (forall token s0,
     exists r,
       _check_volume_spike cfg now token s0 = (Ok r, s0)
       /\ (triggered r = true <->
           age_minutes now token <= inject_Z (new_token_max_age_minutes cfg)
           /\ exists mc, tk_market_cap_sol token = Some mc /\ 0 < mc
                /\ volume_spike_threshold cfg
                   <= trailing_buy_volume now (tk_id token) (trades s0) / mc)
       /\ (tk_market_cap_sol token = None
           \/ (exists mc, tk_market_cap_sol token = Some mc /\ mc <= 0) ->
           r = not_triggered VOLUME_SPIKE))
  /\ (forall sigs s',
        process cfg now ev s = (Ok sigs, s') ->
        (In VOLUME_SPIKE (signal_types sigs) <->
         let token := fst (recorded now ev w s) in
         let s2 := snd (recorded now ev w s) in
         age_minutes now token <= inject_Z (new_token_max_age_minutes cfg)
         /\ exists mc, tk_market_cap_sol token = Some mc /\ 0 < mc
              /\ volume_spike_threshold cfg
                 <= trailing_buy_volume now (tk_id token) (trades s2) / mc))
  /\ (fk_ok s = true -> (1 <= cluster_min_wallets cfg)%Z ->
      exists sigs s', process cfg now ev s = (Ok sigs, s'))
  /\ volume_spike_threshold settings == 1 # 10
  /\ new_token_max_age_minutes settings = 60%Z.
Proof.
  intros Hw. split; [|split; [|split; [|split; reflexivity]]].
  - intros token s0.
    destruct (check_volume_spike_ok cfg now token s0) as (r & Hr & _ & Htr & Hnt).
    exists r. split; [exact Hr|]. split.
    + rewrite Htr. apply volume_triggered_trailing_iff.
    + intros H. apply Hnt. apply Qleb_iff.
      destruct H as [-> | (mc & -> & Hmc)]; cbn [or_else]; [lra|].
      destruct (Qeq_bool mc 0); lra.
  - intros sigs s' Hp.
    destruct (process_result cfg now ev s w sigs s' Hw Hp) as (Hty & _).
    rewrite Hty, in_signal_types_app. cbv zeta. apply volume_triggered_trailing_iff.
  - intros Hfk Hmw.
    destruct (process_known cfg now ev s w Hw Hfk Hmw) as (sigs & s' & Hp & _).
    eauto.
Qed.

(** On the young token, 12 SOL and then 1 SOL bought within five minutes
    for a market cap of 100 SOL: the second buy returns VOLUME_SPIKE, at a
    ratio of 0.13. *)
Lemma C7_volume_spike_witness :
  exists sigs s',
    process settings 2700 spike_event spike_session = (Ok sigs, s')
    /\ In VOLUME_SPIKE (signal_types sigs)
    /\ trailing_buy_volume 2700 1 (trades s') == 13.
Proof.
  destruct (C7_volume_spike_condition settings 2700 spike_event spike_session
              example_wallet eq_refl)
    as (_ & Hiff & Hret & _).
  destruct Hret as (sigs & s' & Hp).
  - reflexivity.
  - vm_compute. discriminate.
  - exists sigs, s'. split; [exact Hp|]. split.
    + apply (Hiff sigs s' Hp). cbv zeta. split.
      * vm_compute. discriminate.
      * exists 100. split; [reflexivity|]. split; [reflexivity|].
        vm_compute. discriminate.
    + vm_compute in Hp. injection Hp as _ <-. reflexivity.
Defined.

(** *** Re-submission of an event *)

(** The second [_get_or_create_token] for the same address finds the token
    the first one has returned and leaves it as it is. *)
Lemma get_or_create_token_again now1 now2 ca mc ts s sB :
  tokens sB = tokens (snd (_get_or_create_token now1 ca mc ts s)) ->
  _get_or_create_token now2 ca mc ts sB =
    (fst (_get_or_create_token now1 ca mc ts s),
     update_token (fst (_get_or_create_token now1 ca mc ts s)) sB).
Proof.
  unfold _get_or_create_token at 1 3 4.
  destruct (first _ (tokens s)) as [t0|] eqn:E0; cbn [fst snd]; intros HB.
  - set (tok := if truthy ts then _ else _) in *.
    assert (Hid : tk_id t0 = tk_id tok).
    { unfold tok. destruct (truthy ts), (truthy mc); reflexivity. }
    assert (Hp : String.eqb (tk_contract_address tok) ca = true).
    { apply first_some in E0. destruct E0 as [_ E0].
      unfold tok. destruct (truthy ts), (truthy mc); exact E0. }
    unfold update_token in HB. cbn [tokens] in HB.
    unfold _get_or_create_token. rewrite HB.
    rewrite (first_replace (fun k => String.eqb (tk_contract_address k) ca)
               tk_id (tokens s) t0 tok E0 Hid Hp).
    assert (Hupd : (if truthy ts
                    then set_total_supply ts
                           (if truthy mc then set_market_cap_sol mc tok else tok)
                    else if truthy mc then set_market_cap_sol mc tok else tok) = tok).
    { unfold tok. destruct (truthy ts), (truthy mc); reflexivity. }
    rewrite Hupd. reflexivity.
  - unfold _get_or_create_token. unfold add_token in HB. cbn [tokens] in HB.
    rewrite HB. rewrite first_app_none by exact E0.
    cbn [tk_contract_address]. rewrite String.eqb_refl.
    destruct (truthy ts), (truthy mc); reflexivity.
Qed.

(** The second [_record_trade] for the same signature finds the trade the
    first one has returned and changes nothing. *)
Lemma record_trade_again w w2 tok tok2 sol amt pct sig bt mc s sB :
  trades sB = trades (snd (_record_trade w tok sol amt pct sig bt mc s)) ->
  _record_trade w2 tok2 sol amt pct sig bt mc sB =
    ((fst (fst (_record_trade w tok sol amt pct sig bt mc s)), w2), sB).
Proof.
  unfold _record_trade at 1 3.
  destruct (first _ (trades s)) as [ex|] eqn:E0; cbn [fst snd]; intros HB.
  - unfold _record_trade. rewrite HB, E0. reflexivity.
  - unfold _record_trade. unfold update_wallet, add_trade in HB. cbn [trades] in HB.
    rewrite HB, first_app_none by exact E0.
    cbn [tr_tx_signature]. rewrite String.eqb_refl. reflexivity.
Qed.

Lemma filter_first_none {A : Type} (p : A -> bool) (l : list A) :
  first p l = None -> filter p l = [].
Proof.
  induction l as [|x l IH]; cbn; [reflexivity|].
  destruct (p x); [discriminate | exact IH].
Qed.

Lemma filter_first_some {A : Type} (p : A -> bool) (l : list A) (x : A) :
  first p l = Some x -> (1 <= List.length (filter p l))%nat.
Proof.
  induction l as [|y l IH]; cbn; [discriminate|].
  destruct (p y); cbn; [lia | exact IH].
Qed.

(** After [_record_trade] exactly one row carries the signature, when at
    most one did before. *)
Lemma record_trade_one_row w tok sol amt pct sig bt mc s :
  (trades_with_signature sig s <= 1)%nat ->
  trades_with_signature sig (snd (_record_trade w tok sol amt pct sig bt mc s)) = 1%nat.
Proof.
  unfold trades_with_signature, _record_trade.
  destruct (first _ (trades s)) as [ex|] eqn:E0; cbn [fst snd]; intros H.
  - apply filter_first_some in E0. lia.
  - unfold update_wallet, add_trade. cbn [trades].
    rewrite filter_app, (filter_first_none _ _ E0). cbn.
    rewrite String.eqb_refl. reflexivity.
Qed.

(** [set(xs)] of integers *)
Lemma mem_Z_iff (x : Z) (xs : list Z) : mem_Z x xs = true <-> In x xs.
Proof.
  unfold mem_Z. rewrite existsb_exists. split.
  - intros (y & Hy & E). apply Z.eqb_eq in E. now subst.
  - intros H. exists x. split; [exact H | apply Z.eqb_refl].
Qed.

Lemma In_set_Z (x : Z) (xs : list Z) : In x (set_Z xs) <-> In x xs.
Proof.
  induction xs as [|y xs IH]; cbn; [tauto|].
  destruct (mem_Z y xs) eqn:E; cbn; rewrite IH.
  - apply mem_Z_iff in E. split; [tauto|]. intros [<-|H]; assumption.
  - tauto.
Qed.

Lemma NoDup_set_Z (xs : list Z) : NoDup (set_Z xs).
Proof.
  induction xs as [|y xs IH]; cbn; [constructor|].
  destruct (mem_Z y xs) eqn:E; [exact IH|].
  constructor; [|exact IH].
  rewrite In_set_Z, <- mem_Z_iff. congruence.
Qed.

Lemma set_Z_length_incl (l1 l2 : list Z) :
  incl l1 l2 -> (List.length (set_Z l1) <= List.length (set_Z l2))%nat.
Proof.
  intros H. apply NoDup_incl_length; [apply NoDup_set_Z|].
  intros x Hx. apply In_set_Z. apply H. apply In_set_Z. exact Hx.
Qed.

(** The cluster condition of a later instant implies that of an earlier
    one, on the same trades. *)
Lemma cluster_triggered_earlier cfg now1 now2 sA sB token :
  trades sB = trades sA -> now1 <= now2 ->
  cluster_triggered cfg now2 sB token = true ->
  cluster_triggered cfg now1 sA token = true.
Proof.
  intros Htr Hnow. unfold cluster_triggered, check_cluster_condition,
    get_recent_buys_for_token. cbn [fst]. rewrite Htr.
  rewrite !Z.geb_le. intros H.
  eapply Z.le_trans; [exact H|].
  apply Nat2Z.inj_le, set_Z_length_incl.
  intros k Hk. apply in_map_iff in Hk. destruct Hk as (t & <- & Ht).
  apply in_map. apply filter_In in Ht. destruct Ht as [Ht Hq].
  apply filter_In in Ht. destruct Ht as [Ht Hp].
  apply filter_In. split; [|exact Hq]. apply filter_In. split; [exact Ht|].
  rewrite !andb_true_iff in Hp |- *. destruct Hp as [[H1 H2] H3].
  repeat split; try assumption.
  rewrite Qgeb_iff in H3 |- *. lra.
Qed.

Lemma sum_filter_le (p1 p2 : Trade -> bool) (l : list Trade) :
  (forall t, In t l -> p2 t = true -> p1 t = true) ->
  (forall t, In t l -> 0 <= tr_sol_amount t) ->
  sum (map tr_sol_amount (filter p2 l)) <= sum (map tr_sol_amount (filter p1 l)).
Proof.
  induction l as [|x l IH]; intros Hp Hn; cbn [filter map].
  - lra.
  - assert (IH' : sum (map tr_sol_amount (filter p2 l))
                  <= sum (map tr_sol_amount (filter p1 l))).
    { apply IH; intros t Ht; [apply Hp | apply Hn]; now right. }
    assert (Hx : 0 <= tr_sol_amount x) by (apply Hn; now left).
    specialize (Hp x (or_introl eq_refl)).
    destruct (p2 x) eqn:E2.
    + rewrite (Hp eq_refl). cbn [map]. rewrite !sum_cons. lra.
    + destruct (p1 x); cbn [map]; rewrite ?sum_cons; lra.
Qed.

Lemma sol_nonneg_spec (s : Session) :
  sol_nonneg s = true <-> forall t, In t (trades s) -> 0 <= tr_sol_amount t.
Proof.
  unfold sol_nonneg. rewrite forallb_forall.
  split; intros H t Ht; [apply Qleb_iff | apply Qleb_iff]; auto.
Qed.

Lemma Qdiv_le_mono (a b c : Q) : 0 < c -> a <= b -> a / c <= b / c.
Proof.
  intros Hc Hab. unfold Qdiv. apply Qmult_le_compat_r; [exact Hab|].
  apply Qlt_le_weak, Qinv_lt_0_compat, Hc.
Qed.

Lemma age_minutes_mono now1 now2 token :
  now1 <= now2 -> age_minutes now1 token <= age_minutes now2 token.
Proof.
  intros H. unfold age_minutes.
  destruct (tk_launched_at token) as [d|]; [|lra].
  apply Qdiv_le_mono; [reflexivity|]. unfold datetime in *. lra.
Qed.

(** The volume condition of a later instant implies that of an earlier one,
    on the same trades, when no trade spends a negative amount. *)
Lemma volume_triggered_earlier cfg now1 now2 sA sB token :
  trades sB = trades sA -> now1 <= now2 -> sol_nonneg sA = true ->
  volume_triggered cfg now2 sB token = true ->
  volume_triggered cfg now1 sA token = true.
Proof.
  intros Htr Hnow Hnn. rewrite !volume_triggered_iff.
  intros (Hage & mc & Hmc & Hpos & Hthr).
  split.
  - pose proof (age_minutes_mono now1 now2 token Hnow). lra.
  - exists mc. repeat split; try assumption.
    eapply Qle_trans; [exact Hthr|].
    apply Qdiv_le_mono; [exact Hpos|].
    unfold volume_5m, recent_trades. rewrite Htr.
    apply sum_filter_le.
    + intros t _. rewrite !andb_true_iff, !Qgeb_iff. intros [[H1 H2] H3].
      repeat split; try assumption. lra.
    + now apply sol_nonneg_spec.
Qed.

Lemma recorded_eq now ev w s :
  recorded now ev w s =
    (fst (_get_or_create_token now (ev_token_ca ev) (ev_market_cap ev)
            (ev_total_supply ev) s),
     snd (_record_trade w
            (fst (_get_or_create_token now (ev_token_ca ev) (ev_market_cap ev)
                    (ev_total_supply ev) s))
            (ev_sol_amount ev) (ev_token_amount ev)
            (supply_percentage (ev_token_amount ev) (ev_total_supply ev))
            (ev_tx_signature ev) (ev_block_time ev) (ev_market_cap ev)
            (snd (_get_or_create_token now (ev_token_ca ev) (ev_market_cap ev)
                    (ev_total_supply ev) s)))).
Proof.
  unfold recorded.
  destruct (_get_or_create_token _ _ _ _ s) as [tok s1]. cbn [fst snd].
  destruct (_record_trade _ _ _ _ _ _ _ _ s1) as [[tr w'] s2]. reflexivity.
Qed.

(** Recording the same event again, on a session with the trades and tokens
    the first recording has left, yields the same token and adds no trade. *)
Lemma recorded_again now1 now2 ev w w2 s sB :
  trades sB = trades (snd (recorded now1 ev w s)) ->
  tokens sB = tokens (snd (recorded now1 ev w s)) ->
  fst (recorded now2 ev w2 sB) = fst (recorded now1 ev w s)
  /\ trades (snd (recorded now2 ev w2 sB)) = trades sB
  /\ wallets (snd (recorded now2 ev w2 sB)) = wallets sB.
Proof.
  rewrite (recorded_eq now1), (recorded_eq now2). cbn [fst snd].
  intros Htr Htk.
  set (g1 := _get_or_create_token now1 _ _ _ s) in *.
  match type of Htk with
  | _ = tokens (snd (_record_trade ?a ?b ?c ?d ?e ?f ?g ?h ?i)) =>
      pose proof (record_trade_frame a b c d e f g h i) as F;
      cbv zeta in F; destruct F as (Ftk & _)
  end.
  rewrite Ftk in Htk.
  rewrite (get_or_create_token_again now1 now2 _ _ _ s sB Htk).
  fold g1. cbn [fst snd].
  rewrite (record_trade_again w w2 (fst g1) (fst g1) _ _ _ _ _ _ (snd g1)
             (update_token (fst g1) sB) Htr).
  cbn [fst snd]. auto.
Qed.

Lemma wallet_still_known now ev w s :
  get_by_address s (ev_wallet_address ev) = Some w ->
  exists w2, get_by_address (snd (recorded now ev w s)) (ev_wallet_address ev) = Some w2.
Proof.
  intros Hw. rewrite recorded_eq. cbn [snd].
  pose proof (get_or_create_token_frame now (ev_token_ca ev) (ev_market_cap ev)
                (ev_total_supply ev) s) as F. cbv zeta in F.
  destruct F as (_ & Fw & _).
  set (g := _get_or_create_token _ _ _ _ s) in *.
  unfold _record_trade, get_by_address in *.
  destruct (first _ (trades (snd g))); cbn [snd].
  - rewrite Fw. eauto.
  - unfold update_wallet, add_trade. cbn [wallets]. rewrite Fw.
    eexists.
    apply (first_replace (fun r => String.eqb (sw_address r) (ev_wallet_address ev))
             sw_id (wallets s) w (set_last_activity (Some (ev_block_time ev)) w) Hw).
    + reflexivity.
    + apply first_some in Hw. exact (proj2 Hw).
Qed.

Lemma fk_ok_ext (a b : Session) :
  trades a = trades b -> wallets a = wallets b -> fk_ok a = fk_ok b.
Proof.
  intros Ht Hw. unfold fk_ok, wallet_of. now rewrite Ht, Hw.
Qed.

Lemma sol_nonneg_recorded now ev w s :
  sol_nonneg s = true -> 0 <= ev_sol_amount ev ->
  sol_nonneg (snd (recorded now ev w s)) = true.
Proof.
  intros Hn He. rewrite recorded_eq. cbn [snd].
  pose proof (get_or_create_token_frame now (ev_token_ca ev) (ev_market_cap ev)
                (ev_total_supply ev) s) as F. cbv zeta in F.
  destruct F as (Ft & _).
  set (g := _get_or_create_token _ _ _ _ s) in *.
  unfold _record_trade, sol_nonneg in *.
  destruct (first _ (trades (snd g))); cbn [snd].
  - now rewrite Ft.
  - unfold update_wallet, add_trade. cbn [trades]. rewrite Ft.
    rewrite forallb_app, Hn. cbn. rewrite andb_true_r. now apply Qleb_iff.
Qed.

Lemma one_row_recorded now ev w s :
  (trades_with_signature (ev_tx_signature ev) s <= 1)%nat ->
  trades_with_signature (ev_tx_signature ev) (snd (recorded now ev w s)) = 1%nat.
Proof.
  intros H. rewrite recorded_eq. cbn [snd].
  apply record_trade_one_row.
  pose proof (get_or_create_token_frame now (ev_token_ca ev) (ev_market_cap ev)
                (ev_total_supply ev) s) as F. cbv zeta in F.
  destruct F as (Ft & _).
  unfold trades_with_signature in *. now rewrite Ft.
Qed.

(** C1 (as amended).  Processing the same buy event of a known wallet a
    second time, not earlier than the first, on a session where no trade
    spends a negative amount: both calls return, the second adds no trade
    and exactly one row carries the signature, and every type of signal the
    second call triggers was triggered by the first. *)
Theorem C1_resubmission_one_trade_no_new_signal_type cfg now1 now2 ev s w :
  get_by_address s (ev_wallet_address ev) = Some w ->
  fk_ok s = true ->
  sol_nonneg s = true ->
  0 <= ev_sol_amount ev ->
  (1 <= cluster_min_wallets cfg)%Z ->
  now1 <= now2 ->
  (trades_with_signature (ev_tx_signature ev) s <= 1)%nat ->
  exists sigs1 s1 sigs2 s2,
    process cfg now1 ev s = (Ok sigs1, s1)
    /\ process cfg now2 ev s1 = (Ok sigs2, s2)
    /\ trades s2 = trades s1
    /\ trades_with_signature (ev_tx_signature ev) s2 = 1%nat
    /\ incl (signal_types sigs2) (signal_types sigs1).
Proof.
  intros Hw Hfk Hnn Hsol Hmw Hnow Hone.
  destruct (process_known cfg now1 ev s w Hw Hfk Hmw)
    as (sigs1 & s1 & Hp1 & Hty1 & _ & Ft1 & Fw1 & Fk1 & _).
  destruct (wallet_still_known now1 ev w s Hw) as [w2 Hw2].
  assert (Hw2' : get_by_address s1 (ev_wallet_address ev) = Some w2).
  { unfold get_by_address in *. now rewrite Fw1. }
  assert (Hfk1 : fk_ok s1 = true).
  { rewrite (fk_ok_ext _ _ Ft1 Fw1). now apply fk_ok_recorded. }
  destruct (process_known cfg now2 ev s1 w2 Hw2' Hfk1 Hmw)
    as (sigs2 & s2 & Hp2 & Hty2 & _ & Ft2 & _).
  destruct (recorded_again now1 now2 ev w w2 s s1 Ft1 Fk1) as (Rtok & Rtr & _).
  exists sigs1, s1, sigs2, s2.
  split; [exact Hp1|]. split; [exact Hp2|].
  assert (Htr : trades s2 = trades s1) by (now rewrite Ft2, Rtr).
  split; [exact Htr|]. split.
  - unfold trades_with_signature. rewrite Htr, Ft1.
    apply (one_row_recorded now1 ev w s Hone).
  - intros ty. rewrite Hty1, Hty2, !in_signal_types_app. rewrite Rtok.
    destruct ty.
    + trivial.
    + apply cluster_triggered_earlier; [now rewrite Rtr, Ft1 | exact Hnow].
    + apply volume_triggered_earlier; [now rewrite Rtr, Ft1 | exact Hnow |].
      now apply sol_nonneg_recorded.
Qed.

Lemma C1_resubmission_witness :
  exists sigs1 s1 sigs2 s2,
    process settings 1000 example_event example_session = (Ok sigs1, s1)
    /\ process settings 1060 example_event s1 = (Ok sigs2, s2)
    /\ trades s2 = trades s1
    /\ trades_with_signature (ev_tx_signature example_event) s2 = 1%nat
    /\ incl (signal_types sigs2) (signal_types sigs1).
Proof.
  apply (C1_resubmission_one_trade_no_new_signal_type settings 1000 1060
           example_event example_session example_wallet).
  - reflexivity.
  - reflexivity.
  - reflexivity.
  - vm_compute. discriminate.
  - vm_compute. discriminate.
  - vm_compute. discriminate.
  - vm_compute. lia.
Defined.

(** C1, as stated, fails: the re-submitted event triggers HIGH_CONVICTION a
    second time.  The first call returns the high-conviction signal, and so
    does the second call, a minute later, on the session the first has left. *)
Lemma C1_resubmission_repeats_trigger :
  exists sigs1 s1 sigs2 s2,
    process settings 1000 example_event example_session = (Ok sigs1, s1)
    /\ process settings 1060 example_event s1 = (Ok sigs2, s2)
    /\ signal_types sigs1 = [HIGH_CONVICTION]
    /\ signal_types sigs2 = [HIGH_CONVICTION]
    /\ ~ no_duplicate_triggers sigs1 sigs2.
Proof.
  do 4 eexists.
  split; [vm_compute; reflexivity|].
  split; [vm_compute; reflexivity|].
  split; [reflexivity|]. split; [reflexivity|].
  intros H. apply (H HIGH_CONVICTION); cbn; auto.
Qed.

(** *** Scenarios *)

(** A wallet with a win rate of 70 buys 0.8% of a supply of 1,000,000 for
    1.5 SOL: the high-conviction signal triggers, with [supply_pct] 0.8. *)
Example scenario_high_conviction :
  exists sg s',
    process_buy_event settings 1000 "W1" "T1" (3 # 2) 8000 "sig1" 1000
      (Some 100) (Some 1000000) example_session = (Ok [sg], s')
    /\ signal_type sg = HIGH_CONVICTION
    /\ max_supply_pct sg == 8 # 10
    /\ List.length (trades s') = 1%nat.
Proof.
  do 2 eexists. split; [vm_compute; reflexivity|].
  repeat split; reflexivity.
Qed.

(** Two wallets buy the same token for 0.6 SOL each, three minutes apart:
    the second buy triggers the cluster signal, and the cluster event
    counts two wallets. *)
Example scenario_cluster_buy :
  let s1 := after (process settings 1000 (small_buy "W1" "sig1" 1000)
                     two_wallet_session) in
  exists sg s2 c,
    process settings 1180 (small_buy "W2" "sig2" 1180) s1 = (Ok [sg], s2)
    /\ signal_type sg = CLUSTER_BUY
    /\ cluster_events s2 = [c]
    /\ ce_wallet_count c = 2%Z
    /\ ce_window_seconds c = 180%Z.
Proof.
  cbv zeta. do 3 eexists. split; [vm_compute; reflexivity|].
  repeat split; reflexivity.
Qed.

(** The same wallet buying twice within the window is no cluster. *)
Example scenario_same_wallet_is_no_cluster :
  let s1 := after (process settings 1000 (small_buy "W1" "sig1" 1000)
                     two_wallet_session) in
  exists s2,
    process settings 1180 (small_buy "W1" "sig2" 1180) s1 = (Ok [], s2)
    /\ List.length (trades s2) = 2%nat
    /\ cluster_events s2 = [].
Proof.
  cbv zeta. eexists. split; [vm_compute; reflexivity|].
  split; reflexivity.
Qed.

(** A token of 45 minutes with 12 SOL bought in five minutes for a market
    cap of 100 SOL: the volume spike triggers, at a ratio of 0.12. *)
Example scenario_volume_spike :
  exists sg,
    _check_volume_spike settings 2700 young_token spike_session = (Ok sg, spike_session)
    /\ triggered sg = true
    /\ total_sol sg == 12
    /\ age_minutes 2700 young_token == 45.
Proof.
  eexists. split; [vm_compute; reflexivity|].
  repeat split; reflexivity.
Qed.

(** The second buy of the cluster scenario, delivered twice: the second
    delivery adds no trade, returns the cluster signal again and persists a
    second cluster event. *)
Example scenario_cluster_resubmitted :
  let s1 := after (process settings 1000 (small_buy "W1" "sig1" 1000)
                     two_wallet_session) in
  let s2 := after (process settings 1180 (small_buy "W2" "sig2" 1180) s1) in
  exists sg s3,
    process settings 1200 (small_buy "W2" "sig2" 1180) s2 = (Ok [sg], s3)
    /\ signal_type sg = CLUSTER_BUY
    /\ trades s3 = trades s2
    /\ List.length (cluster_events s2) = 1%nat
    /\ List.length (cluster_events s3) = 2%nat.
Proof.
  cbv zeta. do 2 eexists. split; [vm_compute; reflexivity|].
  repeat split; reflexivity.
Qed.

End SignalProcessorFacts.

(** ** The conviction calculator *)

Module ConvictionCalculatorFacts.

Import ConvictionCalculator.

Lemma Qdiv_10 (x : Q) : x / 10 == x * (1 # 10).
Proof. reflexivity. Qed.
Lemma Qdiv_50 (x : Q) : x / 50 == x * (1 # 50).
Proof. reflexivity. Qed.
Lemma Qdiv_100 (x : Q) : x / 100 == x * (1 # 100).
Proof. reflexivity. Qed.

(** Bounds of the six component scores. *)
Lemma score_win_rate_bounds (w : Q) :
  0 <= _score_win_rate w /\ (w <= 100 -> _score_win_rate w <= WEIGHT_WIN_RATE).
Proof.
  unfold _score_win_rate, WEIGHT_WIN_RATE. case_cmp.
  - split; [lra | intros _; lra].
  - rewrite Qdiv_50. split; [lra | intros H; lra].
Qed.

Lemma score_consistency_bounds (m : WalletMetrics) :
  0 <= consistency_score m <= 100 ->
  0 <= _score_consistency m <= WEIGHT_CONSISTENCY.
Proof.
  unfold _score_consistency, WEIGHT_CONSISTENCY. rewrite Qdiv_100. intros H. lra.
Qed.

Lemma score_frequency_bounds (n m : Z) :
  (0 <= n)%Z -> 0 <= _score_frequency n m <= WEIGHT_FREQUENCY.
Proof.
  intros Hn. unfold _score_frequency, WEIGHT_FREQUENCY.
  assert (H0 : 0 <= inject_Z n) by (unfold Qle; cbn; lia).
  pose proof (py_min_le_l 1 (inject_Z n / 10)) as H1.
  assert (H2 : 0 <= Py.min 1 (inject_Z n / 10)).
  { apply py_min_glb; [lra|]. rewrite Qdiv_10. lra. }
  lra.
Qed.

Lemma score_pnl_bounds (p q : Q) : 0 <= _score_pnl p q <= WEIGHT_PNL.
Proof.
  unfold _score_pnl, WEIGHT_PNL. case_cmp; [lra|].
  pose proof (py_min_le_l 1 (p / 100)) as H1.
  assert (H2 : 0 <= Py.min 1 (p / 100)).
  { apply py_min_glb; [lra|]. rewrite Qdiv_100. lra. }
  lra.
Qed.

Lemma score_early_entry_bounds (r : Q) :
  0 <= r -> 0 <= _score_early_entry r <= WEIGHT_EARLY_ENTRY.
Proof.
  intros Hr. unfold _score_early_entry, WEIGHT_EARLY_ENTRY.
  pose proof (py_min_le_l 1 (r / 50)) as H1.
  assert (H2 : 0 <= Py.min 1 (r / 50)).
  { apply py_min_glb; [lra|]. rewrite Qdiv_50. lra. }
  lra.
Qed.

Lemma score_rug_avoidance_bounds (r : Q) :
  r <= 100 -> 0 <= _score_rug_avoidance r <= WEIGHT_RUG_AVOIDANCE.
Proof.
  intros Hr. unfold _score_rug_avoidance, WEIGHT_RUG_AVOIDANCE. case_cmp; [lra|].
  rewrite Qdiv_50. lra.
Qed.

(** The PnL component is zero exactly for a total PnL that is not positive. *)
Lemma score_pnl_zero_iff (p q : Q) : _score_pnl p q == 0 <-> p <= 0.
Proof.
  unfold _score_pnl, WEIGHT_PNL. case_cmp.
  - split; [intros _; exact E | reflexivity].
  - split; [|lra]. intros H. exfalso.
    unfold Py.min in H. revert H. case_cmp; [rewrite Qdiv_100|]; lra.
Qed.

Section WithPowHalf.

Variable pow_half : Q -> Q.

(** [_calculate_consistency] never raises and stays within 0 and 100. *)
Lemma calculate_consistency_ok s wallet :
  exists c, _calculate_consistency pow_half s wallet = Ok c /\ 0 <= c <= 100.
Proof.
  unfold _calculate_consistency.
  set (pnls := map _ (trades_by_token _)).
  destruct (Nat.ltb (List.length pnls) 3) eqn:El.
  - exists 50. split; [reflexivity | lra].
  - apply Nat.ltb_ge in El.
    destruct pnls as [|p pnls]; [cbn in El; lia|].
    rewrite (div_ok _ _ (len_nonzero p pnls)). cbn [rbind].
    set (avg := sum (p :: pnls) / len (p :: pnls)).
    destruct (Qeq_bool avg 0) eqn:Ea.
    + exists 50. split; [reflexivity | lra].
    + rewrite (div_ok _ _ (len_nonzero p pnls)). cbn [rbind negb].
      apply Qeq_bool_false_iff in Ea. rewrite (div_ok _ _ Ea). cbn [rbind].
      eexists. split; [reflexivity|].
      set (cv := Qabs _).
      assert (Hcv : 0 <= cv) by apply Qabs_nonneg.
      split; [apply py_max_ge_l | apply py_max_lub; lra].
Qed.

Lemma inject_nat_nonneg (n : nat) : 0 <= inject_Z (Z.of_nat n).
Proof. unfold Qle. cbn. lia. Qed.

Lemma filter_count_le_len {A : Type} (f : A -> bool) (l : list A) :
  inject_Z (Z.of_nat (List.length (filter f l))) <= len l.
Proof.
  unfold len. rewrite <- Zle_Qle. apply Nat2Z.inj_le, filter_length_le.
Qed.

(** [_gather_metrics] never raises; the rates it computes are percentages. *)
Lemma gather_metrics_ok now s wallet :
  exists m,
    _gather_metrics pow_half now s wallet = Ok m
    /\ win_rate m = sw_win_rate wallet
    /\ pnl_total_sol m = sw_pnl_total_sol wallet
    /\ (0 <= trades_7d m)%Z
    /\ 0 <= consistency_score m <= 100
    /\ 0 <= early_entry_rate m <= 100
    /\ rug_avoidance_rate m <= 100.
Proof.
  unfold _gather_metrics.
  set (all_trades := filter _ (trades s)).
  set (buy_trades := filter _ all_trades).
  set (t7 := filter _ all_trades). set (t30 := filter _ all_trades).
  assert (He : exists e,
             match buy_trades with
             | [] => Ok 0
             | _ :: _ =>
                 let? r := div (inject_Z (early_entries s buy_trades)) (len buy_trades)
                 in Ok (r * 100)
             end = Ok e /\ 0 <= e <= 100).
  { destruct buy_trades as [|b bt] eqn:Eb.
    - exists 0. split; [reflexivity | lra].
    - rewrite (div_ok _ _ (len_nonzero b bt)). cbn [rbind].
      eexists. split; [reflexivity|].
      pose proof (len_pos b bt) as Hpos.
      assert (H0 : 0 <= inject_Z (early_entries s (b :: bt)) / len (b :: bt)).
      { apply Qle_shift_div_l; [exact Hpos|]. rewrite Qmult_0_l.
        apply inject_nat_nonneg. }
      assert (H1 : inject_Z (early_entries s (b :: bt)) / len (b :: bt) <= 1).
      { apply Qle_shift_div_r; [exact Hpos|]. rewrite Qmult_1_l.
        apply filter_count_le_len. }
      lra. }
  destruct He as (e & -> & Hebounds). cbn [rbind].
  set (tokens_traded := set_Z _).
  assert (Hr : exists r,
             match tokens_traded with
             | [] => Ok 100
             | _ :: _ =>
                 let? r := div (len tokens_traded
                                - inject_Z (rugged_tokens s tokens_traded))
                               (len tokens_traded)
                 in Ok (r * 100)
             end = Ok r /\ r <= 100).
  { destruct tokens_traded as [|k ks] eqn:Ek.
    - exists 100. split; [reflexivity | lra].
    - rewrite (div_ok _ _ (len_nonzero k ks)). cbn [rbind].
      eexists. split; [reflexivity|].
      pose proof (len_pos k ks) as Hpos.
      assert (H1 : (len (k :: ks) - inject_Z (rugged_tokens s (k :: ks)))
                   / len (k :: ks) <= 1).
      { apply Qle_shift_div_r; [exact Hpos|]. rewrite Qmult_1_l.
        pose proof (inject_nat_nonneg
                      (List.length (filter (fun t =>
                         mem_Z (tr_token_id t) (k :: ks)
                         && match token_of s t with
                            | Some token => tk_is_rugged token
                            | None => false
                            end) (trades s)))) as Hn.
        unfold rugged_tokens. lra. }
      lra. }
  destruct Hr as (r & -> & Hrbound). cbn [rbind].
  set (entry_mcaps := flat_map _ buy_trades).
  assert (Ha : exists a,
             match entry_mcaps with
             | [] => Ok 0
             | _ :: _ => div (sum entry_mcaps) (len entry_mcaps)
             end = Ok a).
  { destruct entry_mcaps as [|x xs]; [eauto|].
    rewrite (div_ok _ _ (len_nonzero x xs)). eauto. }
  destruct Ha as (a & ->). cbn [rbind].
  destruct (calculate_consistency_ok s wallet) as (c & -> & Hc). cbn [rbind].
  eexists. split; [reflexivity|].
  cbn [win_rate pnl_total_sol trades_7d consistency_score early_entry_rate
       rug_avoidance_rate].
  repeat split; try lra. lia.
Qed.

(** The metrics of a wallet without any trade row. *)
Lemma gather_metrics_no_trades now s wallet :
  filter (fun t => Z.eqb (tr_wallet_id t) (sw_id wallet)) (trades s) = [] ->
  exists m,
    _gather_metrics pow_half now s wallet = Ok m
    /\ trades_7d m = 0%Z
    /\ early_entry_rate m = 0
    /\ rug_avoidance_rate m = 100
    /\ consistency_score m = 50.
Proof.
  intros H. unfold _gather_metrics, _calculate_consistency. rewrite H. cbn.
  eexists. split; [reflexivity|]. cbn. auto.
Qed.

(** [calculate_score] never raises: it returns the clamped sum of the
    components of the gathered metrics. *)
Lemma calculate_score_ok now s wallet :
  exists m,
    _gather_metrics pow_half now s wallet = Ok m
    /\ calculate_score pow_half now s wallet
       = Ok (Py.min 100 (Py.max 0 (total_score (components m)))).
Proof.
  destruct (gather_metrics_ok now s wallet) as (m & Hm & _).
  exists m. split; [exact Hm|]. unfold calculate_score. now rewrite Hm.
Qed.

(** For every wallet and session, five of the six components lie between 0
    and their weight; the win-rate component is not negative, and is at most
    its weight when the stored win rate is at most 100. *)
Lemma components_bounds now s wallet :
  exists m,
    _gather_metrics pow_half now s wallet = Ok m
    /\ 0 <= win_rate_score (components m)
    /\ (sw_win_rate wallet <= 100 -> win_rate_score (components m) <= WEIGHT_WIN_RATE)
    /\ 0 <= consistency_component (components m) <= WEIGHT_CONSISTENCY
    /\ 0 <= frequency_score (components m) <= WEIGHT_FREQUENCY
    /\ 0 <= pnl_score (components m) <= WEIGHT_PNL
    /\ 0 <= early_entry_score (components m) <= WEIGHT_EARLY_ENTRY
    /\ 0 <= rug_avoidance_score (components m) <= WEIGHT_RUG_AVOIDANCE.
Proof.
  destruct (gather_metrics_ok now s wallet)
    as (m & Hm & Hw & Hp & H7 & Hc & He & Hr).
  exists m. split; [exact Hm|]. unfold components.
  cbn [win_rate_score consistency_component frequency_score pnl_score
       early_entry_score rug_avoidance_score].
  rewrite Hw.
  split; [apply score_win_rate_bounds|].
  split; [apply score_win_rate_bounds|].
  split; [now apply score_consistency_bounds|].
  split; [now apply score_frequency_bounds|].
  split; [apply score_pnl_bounds|].
  split; [apply score_early_entry_bounds; lra|].
  now apply score_rug_avoidance_bounds.
Qed.

End WithPowHalf.

(** C6 (as amended).  For every wallet and every session [calculate_score]
    returns, without raising, a value between 0 and 100.  The PnL component
    is computed from the wallet's stored [pnl_total_sol] alone: it is 0
    exactly when that figure is not positive.  For a wallet without trade
    rows the trade count of the last seven days and the frequency component
    are 0, the early-entry rate is 0 and the rug-avoidance rate 100 (no
    division takes place), and the consistency is the default 50. *)
Theorem C6_score_in_range_zero_trades_degrade pow_half now s wallet :
  (exists v, calculate_score pow_half now s wallet = Ok v /\ 0 <= v <= 100)
  /\ (exists m, _gather_metrics pow_half now s wallet = Ok m
                /\ (pnl_score (components m) == 0 <-> sw_pnl_total_sol wallet <= 0))
  /\ (trades_of s wallet = [] ->
      exists m, _gather_metrics pow_half now s wallet = Ok m
                /\ trades_7d m = 0%Z
                /\ frequency_score (components m) == 0
                /\ early_entry_rate m = 0
                /\ early_entry_score (components m) == 0
                /\ rug_avoidance_rate m = 100
                /\ consistency_score m = 50).
Proof.
  split; [|split].
  - destruct (calculate_score_ok pow_half now s wallet) as (m & _ & ->).
    eexists. split; [reflexivity|].
    split; [apply py_min_glb; [lra | apply py_max_ge_l] | apply py_min_le_l].
  - destruct (gather_metrics_ok pow_half now s wallet) as (m & Hm & _ & Hp & _).
    exists m. split; [exact Hm|].
    unfold components. cbn [pnl_score]. rewrite Hp. apply score_pnl_zero_iff.
  - intros H.
    destruct (gather_metrics_no_trades pow_half now s wallet H)
      as (m & Hm & H7 & He & Hr & Hc).
    exists m. split; [exact Hm|].
    unfold components. cbn [frequency_score early_entry_score].
    rewrite H7, He. repeat split; try assumption; reflexivity.
Qed.

Lemma C6_score_witness :
  trades_of example_session example_wallet = []
  /\ exists m, _gather_metrics (fun x => x) 1000 example_session example_wallet = Ok m
               /\ trades_7d m = 0%Z
               /\ frequency_score (components m) == 0
               /\ early_entry_rate m = 0
               /\ early_entry_score (components m) == 0
               /\ rug_avoidance_rate m = 100
               /\ consistency_score m = 50.
Proof.
  split; [reflexivity|].
  apply (C6_score_in_range_zero_trades_degrade (fun x => x) 1000 example_session
           example_wallet).
  reflexivity.
Defined.

(** C6, as stated, fails for the PnL component: a wallet without any trade
    row whose stored [pnl_total_sol] is 100 gets the full 15 points.  (The
    function standing for [x ** 0.5] is not called on this input.) *)
Lemma C6_zero_trades_pnl_component_not_zero :
  trades_of example_session example_wallet = []
  /\ exists m, _gather_metrics (fun x => x) 1000 example_session example_wallet = Ok m
               /\ pnl_score (components m) == 15
               /\ ~ pnl_score (components m) == 0.
Proof.
  split; [reflexivity|].
  eexists. split; [vm_compute; reflexivity|].
  split; [reflexivity | discriminate].
Qed.

(** C8, at the failing input.  The win-rate component is not clamped to its
    weight: for a wallet whose stored win rate is 150 it is 60, twice the
    weight of 30. *)
Theorem C8_win_rate_component_exceeds_weight :
  exists m, _gather_metrics (fun x => x) 1000 overrated_session overrated_wallet = Ok m
            /\ win_rate_score (components m) == 60
            /\ ~ win_rate_score (components m) <= WEIGHT_WIN_RATE.
Proof.
  eexists. split; [vm_compute; reflexivity|].
  split; [reflexivity|]. vm_compute. intros H. apply H. reflexivity.
Qed.

End ConvictionCalculatorFacts.

(** ** The outcome tracker *)

Module OutcomeTrackerFacts.

Import OutcomeTracker.

(** The status chain, case by case. *)
Lemma determine_status_young (age ret : Q) :
  age < 30 -> determine_status age ret = PENDING.
Proof.
  intros H. unfold determine_status. apply Qltb_iff in H. now rewrite H.
Qed.

Lemma determine_status_old (age ret : Q) :
  30 <= age ->
  determine_status age ret =
    if Qleb ret (-80) then RUGGED
    else if Qgeb ret 20 then WINNER
    else if Qleb ret (-30) then LOSER
    else PENDING.
Proof.
  intros H. unfold determine_status. apply Qltb_false_iff in H. now rewrite H.
Qed.

Lemma determine_status_cases (age ret : Q) :
  30 <= age ->
  (determine_status age ret = RUGGED <-> ret <= -80)
  /\ (determine_status age ret = WINNER <-> 20 <= ret)
  /\ (determine_status age ret = LOSER <-> -80 < ret /\ ret <= -30)
  /\ (determine_status age ret = PENDING <-> -30 < ret /\ ret < 20)
  /\ determine_status age ret <> UNKNOWN.
Proof.
  intros H. rewrite (determine_status_old age ret H).
  unfold RUG_THRESHOLD_PCT, WIN_THRESHOLD_PCT, LOSS_THRESHOLD_PCT.
  destruct (Qleb ret (-80)) eqn:E1;
    [apply Qleb_iff in E1 | apply Qleb_false_iff in E1].
  { repeat split; try discriminate; try tauto; intros; lra. }
  destruct (Qgeb ret 20) eqn:E2;
    [apply Qgeb_iff in E2 | apply Qgeb_false_iff in E2].
  { repeat split; try discriminate; try tauto; intros; lra. }
  destruct (Qleb ret (-30)) eqn:E3;
    [apply Qleb_iff in E3 | apply Qleb_false_iff in E3].
  { repeat split; try discriminate; try tauto; intros; lra. }
  repeat split; try discriminate; try tauto; intros; lra.
Qed.

(** Updating rows in place, keeping their key, commutes with the lookup of
    a row by its key. *)
Lemma first_map_keep_key {A : Type} (key : A -> Z) (f : A -> A) (k : Z) (l : list A) :
  (forall r, key (f r) = key r) ->
  first (fun r => Z.eqb (key r) k) (map f l)
  = option_map f (first (fun r => Z.eqb (key r) k) l).
Proof.
  intros Hf. induction l as [|x l IH]; cbn; [reflexivity|].
  rewrite Hf. destruct (Z.eqb (key x) k); [reflexivity | exact IH].
Qed.

Section WithService.

Variable get_token_metadata : string -> result TokenMetadata.

(** [check_alert_outcome] returns when the token of the alert exists and the
    token service answers; the status is the one of the chain, and a rugged
    outcome flags the token. *)
Lemma check_alert_outcome_ok now alert s token md :
  alert_token s alert = Some token ->
  get_token_metadata (tk_contract_address token) = Ok md ->
  exists o s',
    check_alert_outcome get_token_metadata now alert s = (Ok o, s')
    /\ alert_age_mins o = alert_age now alert
    /\ status o = determine_status (alert_age now alert) (return_pct o)
    /\ alerts s' = alerts (write_outcome alert (return_pct o) now s)
    /\ tokens s' = match status o with
                   | RUGGED => tokens (flag_rugged token s)
                   | _ => tokens s
                   end.
Proof.
  intros Htok Hmd. unfold check_alert_outcome, bind at 1, get at 1.
  rewrite Htok. unfold bind at 1, lift at 1. rewrite Hmd.
  set (pa := match filter _ (trades s) with [] => _ | _ => _ end).
  assert (Hpa : exists p, pa = Ok p).
  { unfold pa. destruct (filter _ (trades s)) as [|t0 ?]; [eauto|].
    destruct (truthy (tr_mcap_at_trade t0)); [|eauto].
    rewrite div_ok; [eauto|]. cbn [or_else].
    destruct (Qeq_bool (md_total_supply md) 0) eqn:E.
    - discriminate.
    - now apply Qeq_bool_false_iff. }
  destruct Hpa as [p ->].
  unfold bind at 1, lift at 1.
  set (rp := if Qgtb p 0 then _ else Ok 0).
  assert (Hrp : exists r, rp = Ok r).
  { unfold rp. destruct (Qgtb p 0) eqn:E; [|eauto].
    apply Qgtb_iff in E. rewrite div_ok by lra. cbn [rbind]. eauto. }
  destruct Hrp as [r ->].
  unfold bind at 1, lift at 1.
  set (ar := if Qgtb p 0 then _ else Ok 0).
  assert (Har : exists a, ar = Ok a).
  { unfold ar. destruct (Qgtb p 0) eqn:E; [|eauto].
    apply Qgtb_iff in E. rewrite div_ok by lra. cbn [rbind]. eauto. }
  destruct Har as [a ->].
  unfold bind at 1, lift at 1.
  fold (alert_age now alert).
  destruct (determine_status (alert_age now alert) r) eqn:Es;
    unfold bind, put, get, ret;
    do 2 eexists; (split; [reflexivity|]);
    cbn [alert_age_mins status return_pct]; rewrite ?Es; auto.
Qed.

(** Whatever happens, [check_alert_outcome] touches the alert rows only by
    writing the outcome of the alert it was given. *)
Lemma check_alert_outcome_alerts now alert s :
  let s' := snd (check_alert_outcome get_token_metadata now alert s) in
  alerts s' = alerts s
  \/ exists p, alerts s' = alerts (write_outcome alert p now s).
Proof.
  cbv zeta.
  destruct (alert_token s alert) as [token|] eqn:Htok.
  - destruct (get_token_metadata (tk_contract_address token)) as [md|e] eqn:Hmd.
    + destruct (check_alert_outcome_ok now alert s token md Htok Hmd)
        as (o & s' & -> & _ & _ & Ha & _).
      right. exists (return_pct o). exact Ha.
    + left. unfold check_alert_outcome, bind at 1, get at 1.
      rewrite Htok. unfold bind at 1, lift at 1. rewrite Hmd. reflexivity.
  - left. unfold check_alert_outcome, bind at 1, get at 1.
    rewrite Htok. reflexivity.
Qed.

Lemma alert_age_old (now : datetime) (a : Alert) :
  al_created_at a <= now - 1800 <-> 30 <= alert_age now a.
Proof.
  unfold alert_age, datetime in *. split; intros H.
  - apply Qle_shift_div_l; [reflexivity | lra].
  - assert (H' : 30 * 60 <= (now - al_created_at a) / 60 * 60).
    { apply Qmult_le_compat_r; [exact H | discriminate]. }
    unfold Qdiv in H'. rewrite <- Qmult_assoc in H'.
    setoid_replace (/ 60 * 60) with 1 in H' by reflexivity. lra.
Qed.

Lemma same_key_same_row (l : list Alert) (a b : Alert) :
  NoDup (map al_id l) -> In a l -> In b l -> al_id a = al_id b -> a = b.
Proof.
  induction l as [|x l IH]; cbn; [tauto|].
  intros Hnd Ha Hb Hid. inversion Hnd as [|? ? Hx Hl]; subst.
  destruct Ha as [->|Ha], Hb as [->|Hb]; auto.
  - exfalso. apply Hx. rewrite Hid. now apply in_map.
  - exfalso. apply Hx. rewrite <- Hid. now apply in_map.
Qed.

Lemma untouched_or_old_key now a a' :
  untouched_or_old now a a' -> al_id a' = al_id a.
Proof. intros [->|(_ & p & ->)]; reflexivity. Qed.

(** Writing the outcome of an old alert keeps every row untouched or old. *)
Lemma write_outcome_keeps_part now alert p (l0 : list Alert) :
  NoDup (map al_id l0) -> In alert l0 -> 30 <= alert_age now alert ->
  forall l1 l,
    incl l1 l0 ->
    Forall2 (untouched_or_old now) l1 l ->
    Forall2 (untouched_or_old now) l1
      (map (fun r => if Z.eqb (al_id r) (al_id alert) then set_outcome p now r else r) l).
Proof.
  intros Hnd Hin Hold l1 l Hall HF.
  induction HF as [|a a' l1 l HR HF IH]; cbn; constructor.
  - destruct (Z.eqb (al_id a') (al_id alert)) eqn:E; [|exact HR].
    apply Z.eqb_eq in E. rewrite (untouched_or_old_key _ _ _ HR) in E.
    assert (a = alert).
    { apply (same_key_same_row l0); auto. apply Hall. now left. }
    subst a. right. split; [exact Hold|]. exists p.
    destruct HR as [->|(_ & p0 & ->)]; reflexivity.
  - apply IH. intros x Hx. apply Hall. now right.
Qed.

Lemma write_outcome_keeps now alert p (l0 l : list Alert) :
  NoDup (map al_id l0) -> In alert l0 -> 30 <= alert_age now alert ->
  Forall2 (untouched_or_old now) l0 l ->
  Forall2 (untouched_or_old now) l0
    (map (fun r => if Z.eqb (al_id r) (al_id alert) then set_outcome p now r else r) l).
Proof.
  intros Hnd Hin Hold.
  apply (write_outcome_keeps_part now alert p l0 Hnd Hin Hold l0 l), incl_refl.
Qed.

Lemma Forall2_refl_untouched now (l : list Alert) :
  Forall2 (untouched_or_old now) l l.
Proof. induction l; constructor; [now left | assumption]. Qed.

Lemma In_firstn {A : Type} (n : nat) (l : list A) (x : A) :
  In x (firstn n l) -> In x l.
Proof.
  intros H. rewrite <- (firstn_skipn n l). apply in_or_app. now left.
Qed.

(** The loop of [check_pending_alerts] completes, and keeps every alert row
    untouched or old, when it runs over old alerts. *)
Lemma check_each_keeps now s0 l :
  NoDup (map al_id (alerts s0)) ->
  (forall a, In a l -> In a (alerts s0) /\ 30 <= alert_age now a) ->
  forall outs s,
    Forall2 (untouched_or_old now) (alerts s0) (alerts s) ->
    exists outs' s',
      check_each get_token_metadata now l outs s = (Ok outs', s')
      /\ Forall2 (untouched_or_old now) (alerts s0) (alerts s').
Proof.
  intros Hnd. induction l as [|alert l IH]; intros Hl outs s HF; cbn [check_each].
  - unfold ret. eauto.
  - assert (Hstep : Forall2 (untouched_or_old now) (alerts s0)
                      (alerts (snd (check_alert_outcome get_token_metadata now alert s)))).
    { destruct (check_alert_outcome_alerts now alert s) as [->|[p ->]]; [exact HF|].
      destruct (Hl alert (or_introl eq_refl)) as [Hin Hold].
      unfold write_outcome. cbn [alerts].
      now apply write_outcome_keeps. }
    destruct (check_alert_outcome get_token_metadata now alert s) as [[o|e] s1];
      cbn [snd] in Hstep; apply IH; auto; intros a Ha; apply Hl; now right.
Qed.

End WithService.

(** C4.  [check_alert_outcome], when it returns, assigns exactly one
    status: PENDING to an alert younger than 30 minutes; for an alert of
    30 minutes or more, RUGGED when the return is at most -80, else WINNER
    when it is at least +20, else LOSER when it is at most -30, else
    PENDING; a RUGGED outcome sets [is_rugged] on the token of the alert.
    It returns whenever the alert has its token and the token service
    answers. *)
Theorem C4_outcome_classification get_token_metadata now alert s token md :
  alert_token s alert = Some token ->
  get_token_metadata (tk_contract_address token) = Ok md ->
  (exists o s',
     check_alert_outcome get_token_metadata now alert s = (Ok o, s')
     /\ (alert_age now alert < 30 -> status o = PENDING)
     /\ (30 <= alert_age now alert ->
         (status o = RUGGED <-> return_pct o <= -80)
         /\ (status o = WINNER <-> 20 <= return_pct o)
         /\ (status o = LOSER <-> -80 < return_pct o /\ return_pct o <= -30)
         /\ (status o = PENDING <-> -30 < return_pct o /\ return_pct o < 20))
     /\ status o <> UNKNOWN
     /\ (status o = RUGGED ->
         exists token', alert_token s' alert = Some token'
                        /\ tk_is_rugged token' = true))
  /\ (forall age ret,
        (age < 30 -> determine_status age ret = PENDING)
        /\ (30 <= age ->
            (determine_status age ret = RUGGED <-> ret <= -80)
            /\ (determine_status age ret = WINNER <-> 20 <= ret)
            /\ (determine_status age ret = LOSER <-> -80 < ret /\ ret <= -30)
            /\ (determine_status age ret = PENDING <-> -30 < ret /\ ret < 20))).
Proof.
  intros Htok Hmd. split.
  - destruct (check_alert_outcome_ok get_token_metadata now alert s token md Htok Hmd)
      as (o & s' & Heq & _ & Hst & _ & Htk).
    exists o, s'. split; [exact Heq|].
    split; [intros H; rewrite Hst; now apply determine_status_young|].
    split; [intros H; rewrite Hst;
            destruct (determine_status_cases (alert_age now alert) (return_pct o) H)
              as (H1 & H2 & H3 & H4 & _); auto|].
    split.
    + rewrite Hst. destruct (Qlt_le_dec (alert_age now alert) 30) as [Hy|Ho].
      * rewrite determine_status_young by exact Hy. discriminate.
      * apply determine_status_cases, Ho.
    + intros Hr. rewrite Hr in Htk.
      exists (set_is_rugged true token). split; [|reflexivity].
      unfold alert_token in *. rewrite Htk. unfold flag_rugged. cbn [tokens].
      rewrite first_map_keep_key.
      * rewrite Htok. cbn [option_map]. now rewrite Z.eqb_refl.
      * intros r. destruct (Z.eqb (tk_id r) (tk_id token)); reflexivity.
  - intros age ret. split; [apply determine_status_young|].
    intros H. destruct (determine_status_cases age ret H) as (H1 & H2 & H3 & H4 & _).
    auto.
Qed.

Lemma C4_outcome_classification_witness :
  exists o s',
    check_alert_outcome crashed_metadata 3400 (alert_at 1 HIGH_CONVICTION 1000 None)
      tracked_session = (Ok o, s')
    /\ return_pct o == -85
    /\ status o = RUGGED
    /\ exists token', alert_token s' (alert_at 1 HIGH_CONVICTION 1000 None) = Some token'
                      /\ tk_is_rugged token' = true.
Proof.
  destruct (C4_outcome_classification crashed_metadata 3400
              (alert_at 1 HIGH_CONVICTION 1000 None) tracked_session tracked_token
              {| md_price_usd := 15 # 1000000; md_total_supply := 1000000 |}
              eq_refl eq_refl)
    as ((o & s' & Heq & _ & Hold & _ & Hflag) & _).
  exists o, s'. split; [exact Heq|].
  assert (Hret : return_pct o == -85).
  { vm_compute in Heq. injection Heq as <- _. reflexivity. }
  assert (Hage : 30 <= alert_age 3400 (alert_at 1 HIGH_CONVICTION 1000 None)).
  { vm_compute. discriminate. }
  destruct (Hold Hage) as (Hr & _).
  assert (Hst : status o = RUGGED) by (apply Hr; rewrite Hret; discriminate).
  auto.
Defined.

(** C2 (as amended).  [check_pending_alerts] never raises and touches only
    alerts that are at least 30 minutes old: after a run every alert row is
    either as before, or is an alert created 30 minutes or more before the
    run, with its outcome fields written.  (Alert rows have distinct primary
    keys.) *)
Theorem C2_pending_check_writes_old_alerts_only get_token_metadata now s :
  NoDup (map al_id (alerts s)) ->
  exists outcomes s',
    check_pending_alerts get_token_metadata now s = (Ok outcomes, s')
    /\ Forall2 (untouched_or_old now) (alerts s) (alerts s').
Proof.
  intros Hnd. unfold check_pending_alerts, bind, get.
  apply (check_each_keeps get_token_metadata now s); auto.
  - intros a Ha. unfold alerts_to_check in Ha.
    apply In_firstn, filter_In in Ha. destruct Ha as [Hin Hf].
    split; [exact Hin|].
    apply andb_true_iff in Hf. destruct Hf as [Hf _].
    apply Qleb_iff in Hf. now apply alert_age_old.
  - apply Forall2_refl_untouched.
Qed.

Lemma C2_pending_check_witness :
  exists outcomes s',
    check_pending_alerts crashed_metadata 1600 tracked_session = (Ok outcomes, s')
    /\ Forall2 (untouched_or_old 1600) (alerts tracked_session) (alerts s').
Proof.
  apply (C2_pending_check_writes_old_alerts_only crashed_metadata 1600 tracked_session).
  cbn. constructor; [intros [] | constructor].
Defined.

(** C2, as stated, fails for [check_alert_outcome]: given an alert created
    ten minutes ago, with no outcome yet, it classifies the alert as PENDING
    and still writes [outcome_pnl] and [outcome_checked_at]. *)
Lemma C2_young_alert_outcome_written :
  alert_age 1600 (alert_at 1 HIGH_CONVICTION 1000 None) < 30
  /\ al_outcome_pnl (alert_at 1 HIGH_CONVICTION 1000 None) = None
  /\ exists o s' a' p,
       check_alert_outcome crashed_metadata 1600 (alert_at 1 HIGH_CONVICTION 1000 None)
         tracked_session = (Ok o, s')
       /\ status o = PENDING
       /\ alerts s' = [a']
       /\ al_outcome_pnl a' = Some p /\ p == -85
       /\ al_outcome_checked_at a' = Some 1600.
Proof.
  split; [reflexivity|]. split; [reflexivity|].
  do 4 eexists. split; [vm_compute; reflexivity|].
  split; [reflexivity|]. split; [reflexivity|].
  split; [reflexivity|]. split; reflexivity.
Qed.

(** *** Performance statistics *)

(** The filters of [get_performance_stats] in terms of the classes. *)
Lemma winner_filter (a : Alert) :
  Qgeb (pnl a) WIN_THRESHOLD_PCT = OutcomeStatus_eqb (classify a) WINNER.
Proof.
  unfold classify, determine_status, WIN_THRESHOLD_PCT, RUG_THRESHOLD_PCT,
    LOSS_THRESHOLD_PCT.
  change (Qltb 30 30) with false. cbv iota.
  destruct (Qleb (pnl a) (-80)) eqn:E1;
    [apply Qleb_iff in E1 | apply Qleb_false_iff in E1].
  - cbn. apply Qgeb_false_iff. lra.
  - destruct (Qgeb (pnl a) 20); [reflexivity|].
    destruct (Qleb (pnl a) (-30)); reflexivity.
Qed.

Lemma rugged_filter (a : Alert) :
  Qleb (pnl a) RUG_THRESHOLD_PCT = OutcomeStatus_eqb (classify a) RUGGED.
Proof.
  unfold classify, determine_status, WIN_THRESHOLD_PCT, RUG_THRESHOLD_PCT,
    LOSS_THRESHOLD_PCT.
  change (Qltb 30 30) with false. cbv iota.
  destruct (Qleb (pnl a) (-80)); [reflexivity|].
  destruct (Qgeb (pnl a) 20); [reflexivity|].
  destruct (Qleb (pnl a) (-30)); reflexivity.
Qed.

Lemma loser_filter (a : Alert) :
  Qleb (pnl a) LOSS_THRESHOLD_PCT
  = OutcomeStatus_eqb (classify a) LOSER || OutcomeStatus_eqb (classify a) RUGGED.
Proof.
  unfold classify, determine_status, WIN_THRESHOLD_PCT, RUG_THRESHOLD_PCT,
    LOSS_THRESHOLD_PCT.
  change (Qltb 30 30) with false. cbv iota.
  destruct (Qleb (pnl a) (-80)) eqn:E1;
    [apply Qleb_iff in E1 | apply Qleb_false_iff in E1].
  - cbn. apply Qleb_iff. lra.
  - destruct (Qgeb (pnl a) 20) eqn:E2;
      [apply Qgeb_iff in E2 | apply Qgeb_false_iff in E2].
    + cbn. apply Qleb_false_iff. lra.
    + destruct (Qleb (pnl a) (-30)); reflexivity.
Qed.

Lemma count_filter_or {A : Type} (p q r : A -> bool) (l : list A) :
  (forall x, p x = q x || r x) -> (forall x, q x && r x = false) ->
  count (filter p l) = (count (filter q l) + count (filter r l))%Z.
Proof.
  intros Hp Hd. unfold count.
  induction l as [|x l IH]; [reflexivity|].
  cbn [filter]. rewrite Hp. specialize (Hd x).
  destruct (q x), (r x); cbn [orb List.length] in *; try discriminate; lia.
Qed.

Lemma winners_count (l : list Alert) :
  count (filter (fun a => Qgeb (pnl a) WIN_THRESHOLD_PCT) l) = class_count WINNER l.
Proof.
  unfold count, class_count. f_equal. f_equal.
  apply filter_ext. intros a. apply winner_filter.
Qed.

Lemma rugged_count (l : list Alert) :
  count (filter (fun a => Qleb (pnl a) RUG_THRESHOLD_PCT) l) = class_count RUGGED l.
Proof.
  unfold count, class_count. f_equal. f_equal.
  apply filter_ext. intros a. apply rugged_filter.
Qed.

Lemma losers_count (l : list Alert) :
  count (filter (fun a => Qleb (pnl a) LOSS_THRESHOLD_PCT) l)
  = (class_count LOSER l + class_count RUGGED l)%Z.
Proof.
  unfold class_count. apply count_filter_or.
  - apply loser_filter.
  - intros a. destruct (classify a); reflexivity.
Qed.

Lemma rate_ok (n resolved : Z) : rate n resolved = Ok (percentage n resolved).
Proof.
  unfold rate, percentage. destruct (Z.ltb 0 resolved) eqn:E; [|reflexivity].
  apply Z.ltb_lt in E. rewrite div_ok; [reflexivity|].
  unfold Qeq. cbn. lia.
Qed.

Lemma average_ok (xs : list Q) : exists a, average xs = Ok a.
Proof.
  destruct xs as [|x xs]; unfold average; [eauto|].
  rewrite (div_ok _ _ (len_nonzero x xs)). eauto.
Qed.

Lemma win_rate_for_type_ok (l : list Alert) (ty : SignalType) :
  win_rate_for_type l ty = Ok (win_rate_with_rugged (of_type ty l)).
Proof.
  unfold win_rate_for_type, win_rate_with_rugged. fold (of_type ty l).
  rewrite rate_ok, winners_count, losers_count. do 2 f_equal. lia.
Qed.

(** C9 (as amended).  [get_performance_stats] never raises.  Over the
    alerts created within the trailing window that have an outcome, the
    overall win rate and the win rate of each signal type are the
    percentage of winners among the alerts that the outcome thresholds
    class as WINNER, LOSER or RUGGED: an alert at -80% or below counts as
    rugged and also among the losers. *)
Theorem C9_win_rate_counts_rugged_as_losers now s days :
  exists st,
    get_performance_stats now s days = Ok st
    /\ win_rate st = win_rate_with_rugged (reported_alerts now s days)
    /\ high_conviction_win_rate st
       = win_rate_with_rugged (of_type HIGH_CONVICTION (reported_alerts now s days))
    /\ cluster_buy_win_rate st
       = win_rate_with_rugged (of_type CLUSTER_BUY (reported_alerts now s days))
    /\ volume_spike_win_rate st
       = win_rate_with_rugged (of_type VOLUME_SPIKE (reported_alerts now s days))
    /\ winners st = class_count WINNER (reported_alerts now s days)
    /\ losers st = (class_count LOSER (reported_alerts now s days)
                    + class_count RUGGED (reported_alerts now s days))%Z
    /\ rugged st = class_count RUGGED (reported_alerts now s days).
Proof.
  unfold get_performance_stats. fold (reported_alerts now s days).
  destruct (reported_alerts now s days) as [|a l] eqn:E.
  - eexists. split; [reflexivity|]. cbn. repeat split; reflexivity.
  - rewrite rate_ok. cbn [rbind].
    destruct (average_ok (map pnl (filter (fun a => Qgeb (pnl a) WIN_THRESHOLD_PCT)
                                          (a :: l)))) as [ar ->].
    destruct (average_ok (map pnl (filter (fun a => Qleb (pnl a) LOSS_THRESHOLD_PCT)
                                          (a :: l)))) as [al ->].
    cbn [rbind]. rewrite !win_rate_for_type_ok. cbn [rbind].
    eexists. split; [reflexivity|].
    cbn [win_rate high_conviction_win_rate cluster_buy_win_rate volume_spike_win_rate
         winners losers rugged].
    rewrite winners_count, losers_count, rugged_count.
    unfold win_rate_with_rugged. repeat split; try reflexivity.
    f_equal. lia.
Qed.

(** C9, as stated, fails: with a winner at +25% and a rugged alert at -90%
    the reported win rate is 50, while the winners are all of the alerts
    classified WINNER or LOSER. *)
Lemma C9_rugged_alert_lowers_win_rate :
  exists st,
    get_performance_stats 3000 reported_session 7 = Ok st
    /\ win_rate st == 50
    /\ claimed_win_rate (reported_alerts 3000 reported_session 7) == 100
    /\ ~ win_rate st == claimed_win_rate (reported_alerts 3000 reported_session 7).
Proof.
  eexists. split; [vm_compute; reflexivity|].
  split; [reflexivity|]. split; [reflexivity|]. discriminate.
Qed.

End OutcomeTrackerFacts.

(** ** The backtester *)

Module BacktesterFacts.

Import Backtester.

(** The PnL in SOL that [_simulate_trade] computes is the position size
    times the hundredth of the PnL in percent. *)
Lemma calculate_pnl_relation config entry_price exit_price pct sol :
  calculate_pnl config entry_price exit_price = Ok (pct, sol) ->
  sol == cfg_position_size_sol config * (pct / 100).
Proof.
  unfold calculate_pnl.
  destruct (Qgtb entry_price 0) eqn:E.
  - apply Qgtb_iff in E. rewrite div_ok by lra. cbn [rbind].
    rewrite div_ok by discriminate. cbn [rbind]. intros [= <- <-]. reflexivity.
  - cbn [rbind]. rewrite div_ok by discriminate. cbn [rbind]. intros [= <- <-].
    reflexivity.
Qed.




Lemma count_nonzero {A : Type} (x : A) (l : list A) : ~ inject_Z (count (x :: l)) == 0.
Proof. exact (len_nonzero x l). Qed.

Lemma type_stats_ok (trades : list BacktestTrade) (ty : SignalType) :
  exists d, type_stats trades ty = Ok d.
Proof.
  unfold type_stats.
  destruct (filter _ trades) as [|x xs]; [eauto|].
  rewrite !(div_ok _ _ (len_nonzero x xs)). cbn [rbind]. eauto.
Qed.

(** [_calculate_stats] never raises, and sets the profit factor from the
    gross profit and the gross loss of the trades. *)
Lemma calculate_stats_ok (r : BacktestResult) :
  trades r <> [] ->
  exists r',
    _calculate_stats r = Ok r'
    /\ trades r' = trades r
    /\ losing_trades r' = count (filter (fun t => Qleb (pnl_pct t) 0) (trades r))
    /\ winning_trades r' = count (filter (fun t => Qgtb (pnl_pct t) 0) (trades r))
    /\ profit_factor r' =
         if Qgtb (gross_loss (trades r)) 0
         then Fin (gross_profit (trades r) / gross_loss (trades r))
         else Inf.
Proof.
  unfold _calculate_stats. destruct (trades r) as [|t ts] eqn:E; [congruence|].
  intros _.
  assert (Hpos : Z.ltb 0 (count (t :: ts)) = true).
  { apply Z.ltb_lt. unfold count. cbn [List.length]. lia. }
  rewrite Hpos. rewrite !(div_ok _ _ (count_nonzero t ts)). cbn [rbind map].
  cbn [max_list min_list rbind].
  set (gl := gross_loss (t :: ts)). set (gp := gross_profit (t :: ts)).
  destruct (type_stats_ok (t :: ts) HIGH_CONVICTION) as [d1 ->].
  destruct (type_stats_ok (t :: ts) CLUSTER_BUY) as [d2 ->].
  destruct (type_stats_ok (t :: ts) VOLUME_SPIKE) as [d3 ->].
  destruct (Qgtb gl 0) eqn:Eg.
  - apply Qgtb_iff in Eg. rewrite div_ok by lra. cbn [rbind].
    eexists. split; [reflexivity|]. cbn. auto.
  - cbn [rbind]. eexists. split; [reflexivity|]. cbn. auto.
Qed.








End BacktesterFacts.

(** * Queries *)

Module QueryFacts.

Import Query.

Lemma insert_by_perm {A : Type} (before : A -> A -> bool) (x : A) (l : list A) :
  Permutation (insert_by before x l) (x :: l).
Proof.
  induction l as [|y r IH]; cbn; [reflexivity|].
  destruct (before x y); [reflexivity|].
  rewrite IH. apply perm_swap.
Qed.

Lemma order_by_perm {A : Type} (before : A -> A -> bool) (l : list A) :
  Permutation (order_by before l) l.
Proof.
  induction l as [|x r IH]; cbn; [constructor|].
  fold (order_by before r). rewrite insert_by_perm. now constructor.
Qed.

Lemma order_by_In {A : Type} (before : A -> A -> bool) (l : list A) (x : A) :
  In x (order_by before l) <-> In x l.
Proof.
  split; apply Permutation_in; [|symmetry]; apply order_by_perm.
Qed.

Lemma order_by_length {A : Type} (before : A -> A -> bool) (l : list A) :
  List.length (order_by before l) = List.length l.
Proof. apply Permutation_length, order_by_perm. Qed.

Section Sorting.

Context {A : Type} (before : A -> A -> bool) (R : A -> A -> Prop).
Hypothesis before_R : forall a b, before a b = true -> R a b.
Hypothesis not_before_R : forall a b, before a b = false -> R b a.
Hypothesis R_trans : forall a b c, R a b -> R b c -> R a c.

Lemma insert_by_sorted (x : A) (l : list A) :
  StronglySorted R l -> StronglySorted R (insert_by before x l).
Proof.
  induction l as [|y r IH]; intros H; cbn.
  - constructor; constructor.
  - inversion H as [|? ? Hr Hy]; subst.
    destruct (before x y) eqn:E.
    + constructor; [exact H|]. constructor; [now apply before_R|].
      eapply Forall_impl; [|exact Hy]. intros z Hz.
      eapply R_trans; [apply before_R; exact E|exact Hz].
    + constructor; [now apply IH|].
      rewrite Forall_forall. intros z Hz.
      apply (Permutation_in _ (insert_by_perm before x r)) in Hz.
      destruct Hz as [<-|Hz]; [now apply not_before_R|].
      rewrite Forall_forall in Hy. now apply Hy.
Qed.

Lemma order_by_sorted (l : list A) : StronglySorted R (order_by before l).
Proof.
  induction l as [|x r IH]; cbn; [constructor|].
  now apply insert_by_sorted.
Qed.

End Sorting.

Lemma limit_In {A : Type} (n : nat) (l : list A) (x : A) :
  In x (limit n l) -> In x l.
Proof.
  unfold limit. revert l. induction n as [|n IH]; intros [|y r]; cbn; try tauto.
  intros [->|H]; [now left|right; now apply IH].
Qed.

Lemma limit_length {A : Type} (n : nat) (l : list A) :
  (List.length (limit n l) <= n)%nat.
Proof. apply firstn_le_length. Qed.

Lemma limit_sorted {A : Type} (R : A -> A -> Prop) (n : nat) (l : list A) :
  StronglySorted R l -> StronglySorted R (limit n l).
Proof.
  unfold limit. revert l. induction n as [|n IH]; intros [|y r] H; cbn;
    try constructor.
  - inversion H; subst. now apply IH.
  - inversion H as [|? ? _ Hy]; subst.
    rewrite Forall_forall in *. intros z Hz. apply Hy.
    now apply (limit_In n r z).
Qed.

(** What [LIMIT] leaves out comes after everything it keeps. *)
Lemma limit_first {A : Type} (R : A -> A -> Prop) (n : nat) (l : list A) (x : A) :
  StronglySorted R l -> In x l ->
  In x (limit n l) \/ Forall (fun y => R y x) (limit n l).
Proof.
  unfold limit. revert l. induction n as [|n IH]; intros l H Hx.
  - right. constructor.
  - destruct l as [|y r]; [destruct Hx|]. cbn.
    inversion H as [|? ? Hr Hy]; subst.
    destruct Hx as [->|Hx]; [left; now left|].
    destruct (IH r Hr Hx) as [Hin|Hall]; [left; now right|].
    right. constructor; [|exact Hall].
    rewrite Forall_forall in Hy. now apply Hy.
Qed.

Lemma Qle_sorting :
  (forall a b : Q, Qleb a b = true -> a <= b)
  /\ (forall a b : Q, Qleb a b = false -> b <= a)
  /\ (forall a b : Q, Qgeb a b = true -> b <= a)
  /\ (forall a b : Q, Qgeb a b = false -> a <= b).
Proof.
  repeat split; intros a b H.
  - now apply Qleb_iff.
  - apply Qleb_false_iff in H. lra.
  - now apply Qgeb_iff.
  - apply Qgeb_false_iff in H. lra.
Qed.

(** [ORDER BY key ASC] and [ORDER BY key DESC] on a numeric column. *)
Lemma order_by_asc {A : Type} (key : A -> Q) (l : list A) :
  StronglySorted (fun a b => key a <= key b)
    (order_by (fun a b => Qleb (key a) (key b)) l).
Proof.
  apply order_by_sorted.
  - intros a b. apply Qle_sorting.
  - intros a b. apply Qle_sorting.
  - intros a b c. apply Qle_trans.
Qed.

Lemma order_by_desc {A : Type} (key : A -> Q) (l : list A) :
  StronglySorted (fun a b => key b <= key a)
    (order_by (fun a b => Qgeb (key a) (key b)) l).
Proof.
  apply order_by_sorted.
  - intros a b. apply Qle_sorting.
  - intros a b. apply Qle_sorting.
  - intros a b c H1 H2. eapply Qle_trans; eassumption.
Qed.

End QueryFacts.

(** * The alert life cycle *)

Module AlertLifecycleFacts.

Import SignalProcessor.
Import AlertLifecycle.

Lemma fold_max_ge (l : list Z) (a : Z) :
  (a <= fold_left Z.max l a)%Z /\ Forall (fun x => (x <= fold_left Z.max l a)%Z) l.
Proof.
  revert a. induction l as [|x r IH]; intros a; cbn.
  - split; [lia|constructor].
  - destruct (IH (Z.max a x)) as [H1 H2]. split; [lia|].
    constructor; [lia|exact H2].
Qed.

Lemma next_id_fresh {A : Type} (id : A -> Z) (rows : list A) :
  Forall (fun r => (id r < next_id id rows)%Z) rows.
Proof.
  unfold next_id. destruct (fold_max_ge (map id rows) 0) as [_ H].
  rewrite Forall_map in H. eapply Forall_impl; [|exact H].
  intros r Hr. cbn beta in Hr. lia.
Qed.

(** The shape of a call of [create_alert] that creates an alert. *)
Lemma create_alert_created now signal skip s alert s' :
  create_alert now signal skip s = (Ok (Some alert), s') ->
  s' = add_alert alert s
  /\ al_id alert = next_id al_id (alerts s)
  /\ al_is_sent alert = false
  /\ al_outcome_pnl alert = None
  /\ al_outcome_checked_at alert = None
  /\ al_created_at alert = now
  /\ al_alert_type alert = signal_type signal
  /\ al_wallet_count alert = Z.of_nat (List.length (sr_wallets signal))
  /\ skip && rug_checked signal && negb (rug_passed signal) = false
  /\ exists token, sr_token signal = Some token /\ al_token_id alert = tk_id token.
Proof.
  unfold create_alert. destruct (sr_token signal) as [token|]; [|discriminate].
  destruct (skip && rug_checked signal && negb (rug_passed signal));
    [discriminate|].
  unfold bind, get, lift, put, ret.
  destruct (avg_win_rate_of signal) as [avg|e]; [|discriminate].
  intros [= <- <-]. cbn. eauto 12.
Qed.

Lemma pending_all (s : Session) :
  get_pending_alerts s (List.length (alerts s))
  = Query.order_by (fun a b => Qleb (al_created_at a) (al_created_at b))
      (filter (fun a => negb (al_is_sent a)) (alerts s)).
Proof.
  unfold get_pending_alerts, Query.limit. apply firstn_all2.
  rewrite QueryFacts.order_by_length. apply filter_length_le.
Qed.

Lemma pending_In (s : Session) (n : nat) (a : Alert) :
  In a (get_pending_alerts s n) -> In a (alerts s) /\ al_is_sent a = false.
Proof.
  unfold get_pending_alerts. intros H. apply QueryFacts.limit_In in H.
  apply QueryFacts.order_by_In in H. apply filter_In in H.
  destruct H as [H1 H2]. split; [exact H1|]. now apply negb_true_iff.
Qed.

(** X1.  For a signal that has a token, [create_alert] returns [None]
    exactly when it is asked to skip failed rug checks and the signal
    carries a rug check that did not pass; the session is then left as it
    was. *)
Theorem create_alert_skips_iff_rug_check_failed now signal skip s token :
  sr_token signal = Some token ->
  (fst (create_alert now signal skip s) = Ok None
   <-> skip = true /\ rug_checked signal = true /\ rug_passed signal = false)
  /\ (fst (create_alert now signal skip s) = Ok None ->
      snd (create_alert now signal skip s) = s).
Proof.
  intros Ht. unfold create_alert. rewrite Ht.
  destruct skip, (rug_checked signal), (rug_passed signal); cbn [andb negb];
    unfold bind, get, lift, put, ret;
    try (destruct (avg_win_rate_of signal); cbn [fst snd]);
    (split; [split; [try discriminate; auto | intros (A & B & C); try discriminate; auto]
            | try discriminate; auto]).
Qed.

Lemma create_alert_skips_witness :
  fst (create_alert 2000 (AlertLifecycle.with_rug_check no_detail
         {| RugDetector.contract_address := "T1"; RugDetector.risk_level := RugDetector.HIGH;
            RugDetector.risk_score := 55; RugDetector.passed := false;
            RugDetector.mintable := true; RugDetector.freezable := true;
            RugDetector.lp_unlocked := false; RugDetector.low_liquidity := false;
            RugDetector.high_concentration := false; RugDetector.honeypot_risk := false;
            RugDetector.copycat_name := false; RugDetector.warnings := [];
            RugDetector.detail_liquidity_usd := 9000;
            RugDetector.detail_top10_concentration := 10;
            RugDetector.detail_copycat_of := None |} example_signal)
         true tracked_session) = Ok None.
Proof.
  apply (create_alert_skips_iff_rug_check_failed 2000 _ true tracked_session tracked_token);
    [reflexivity|]. repeat split.
Defined.

(** X2.  An alert that [create_alert] returns is a new last row of the
    alert table under an id no other row has, unsent and without outcome;
    the other tables are as before, and the alert is among the pending
    alerts. *)
Theorem create_alert_appends_pending_alert now signal skip s alert s' :
  create_alert now signal skip s = (Ok (Some alert), s') ->
  alerts s' = alerts s ++ [alert]
  /\ wallets s' = wallets s /\ tokens s' = tokens s /\ trades s' = trades s
  /\ cluster_events s' = cluster_events s
  /\ Forall (fun a => al_id a <> al_id alert) (alerts s)
  /\ al_is_sent alert = false
  /\ al_outcome_pnl alert = None /\ al_outcome_checked_at alert = None
  /\ (exists token, sr_token signal = Some token /\ al_token_id alert = tk_id token)
  /\ In alert (get_pending_alerts s' (List.length (alerts s'))).
Proof.
  intros H. apply create_alert_created in H.
  destruct H as (-> & Hid & Hsent & Hp & Hc & _ & _ & _ & _ & Htok).
  cbn [add_alert alerts wallets tokens trades cluster_events].
  repeat (split; [first [reflexivity | assumption]|]).
  split.
  { eapply Forall_impl; [|apply (next_id_fresh al_id (alerts s))].
    intros a Ha. cbn beta in Ha. rewrite Hid. lia. }
  repeat (split; [assumption|]).
  rewrite pending_all. apply QueryFacts.order_by_In. apply filter_In.
  cbn [alerts add_alert]. split; [apply in_or_app; right; now left|].
  now rewrite Hsent.
Qed.

Lemma create_alert_appends_witness :
  exists alert s',
    create_alert 2000 example_signal true tracked_session = (Ok (Some alert), s')
    /\ alerts s' = alerts tracked_session ++ [alert]
    /\ In alert (get_pending_alerts s' (List.length (alerts s'))).
Proof.
  eexists. eexists. split; [vm_compute; reflexivity|].
  split;
    apply (create_alert_appends_pending_alert 2000 example_signal true tracked_session);
    vm_compute; reflexivity.
Defined.

(** X3.  [get_pending_alerts] returns at most [limit] alerts, all of them
    unsent rows of the alert table, the oldest first; every unsent alert it
    leaves out was created no earlier than each alert it returns. *)
Theorem get_pending_alerts_oldest_unsent_first (s : Session) (limit : nat) :
  (List.length (get_pending_alerts s limit) <= limit)%nat
  /\ Forall (fun a => In a (alerts s) /\ al_is_sent a = false)
            (get_pending_alerts s limit)
  /\ StronglySorted (fun a b => al_created_at a <= al_created_at b)
                    (get_pending_alerts s limit)
  /\ Forall (fun a => al_is_sent a = true
                      \/ In a (get_pending_alerts s limit)
                      \/ Forall (fun b => al_created_at b <= al_created_at a)
                                (get_pending_alerts s limit))
            (alerts s).
Proof.
  split; [apply QueryFacts.limit_length|].
  split; [rewrite Forall_forall; intros a; apply pending_In|].
  split.
  { apply QueryFacts.limit_sorted. apply (QueryFacts.order_by_asc al_created_at). }
  rewrite Forall_forall. intros a Ha.
  destruct (al_is_sent a) eqn:E; [now left|right].
  apply (QueryFacts.limit_first (fun a b => al_created_at a <= al_created_at b)).
  - apply (QueryFacts.order_by_asc al_created_at).
  - apply QueryFacts.order_by_In. apply filter_In. split; [exact Ha|now rewrite E].
Qed.

Lemma mark_alert_sent_rows now alert (l : list Alert) :
  Forall (fun a => al_id a <> al_id alert) l ->
  map (fun r => if Z.eqb (al_id r) (al_id alert) then set_sent now r else r) l = l.
Proof.
  induction 1 as [|a l Ha _ IH]; cbn; [reflexivity|].
  rewrite IH. apply Z.eqb_neq in Ha. now rewrite Ha.
Qed.

(** X4.  After [mark_alert_sent] no alert with the id of the marked alert
    is pending, whatever the limit; the rows with another id are as
    before, and so are the ids of the table. *)
Theorem mark_alert_sent_leaves_queue now alert s (limit : nat) :
  Forall (fun a => al_id a <> al_id alert)
         (get_pending_alerts (mark_alert_sent now alert s) limit)
  /\ filter (fun a => negb (Z.eqb (al_id a) (al_id alert)))
            (alerts (mark_alert_sent now alert s))
     = filter (fun a => negb (Z.eqb (al_id a) (al_id alert))) (alerts s)
  /\ map al_id (alerts (mark_alert_sent now alert s)) = map al_id (alerts s).
Proof.
  split; [|split].
  - rewrite Forall_forall. intros a Ha. apply pending_In in Ha.
    destruct Ha as [Hin Hsent]. cbn [mark_alert_sent alerts] in Hin.
    apply in_map_iff in Hin. destruct Hin as (r & Hr & _).
    destruct (Z.eqb (al_id r) (al_id alert)) eqn:E.
    + subst a. discriminate Hsent.
    + subst a. now apply Z.eqb_neq.
  - cbn [mark_alert_sent alerts]. induction (alerts s) as [|r l IH]; cbn; [reflexivity|].
    destruct (Z.eqb (al_id r) (al_id alert)) eqn:E; cbn; rewrite ?E; cbn;
      now rewrite IH.
  - cbn [mark_alert_sent alerts]. rewrite map_map. apply map_ext.
    intros r. now destruct (Z.eqb (al_id r) (al_id alert)).
Qed.

(** X5.  Creating an alert and marking it as sent leaves the pending
    alerts as they were before the alert was created. *)
Theorem create_then_mark_sent_restores_queue now sent_at signal skip s alert s' (limit : nat) :
  create_alert now signal skip s = (Ok (Some alert), s') ->
  get_pending_alerts (mark_alert_sent sent_at alert s') limit
  = get_pending_alerts s limit.
Proof.
  intros H. apply create_alert_created in H.
  destruct H as (-> & Hid & _).
  unfold get_pending_alerts. cbn [mark_alert_sent add_alert alerts].
  rewrite map_app, mark_alert_sent_rows.
  - cbn [map]. rewrite Z.eqb_refl, filter_app. cbn [filter set_sent al_is_sent negb].
    now rewrite app_nil_r.
  - eapply Forall_impl; [|apply (next_id_fresh al_id (alerts s))].
    intros a Ha. cbn beta in Ha. rewrite Hid. lia.
Qed.

Lemma create_then_mark_sent_witness :
  exists alert s',
    create_alert 2000 example_signal true tracked_session = (Ok (Some alert), s')
    /\ get_pending_alerts (mark_alert_sent 2100 alert s') 10
       = get_pending_alerts tracked_session 10.
Proof.
  eexists. eexists. split; [vm_compute; reflexivity|].
  apply (create_then_mark_sent_restores_queue 2000 2100 example_signal true
           tracked_session).
  vm_compute; reflexivity.
Defined.

End AlertLifecycleFacts.

(** * Enrichment and the risk gate in front of the alerts *)

Module EnrichmentFacts.

Import SignalProcessor.
Import AlertLifecycle.

Lemma apply_metadata_keys metadata (t : Token) :
  tk_id (apply_metadata metadata t) = tk_id t
  /\ tk_contract_address (apply_metadata metadata t) = tk_contract_address t
  /\ tk_is_rugged (apply_metadata metadata t) = tk_is_rugged t.
Proof.
  unfold apply_metadata.
  destruct (RugDetector.is_blank (TokenMetadataService.name metadata)),
           (RugDetector.is_blank (TokenMetadataService.symbol metadata)),
           (Qgtb (TokenMetadataService.market_cap_sol metadata) 0),
           (Qgtb (TokenMetadataService.liquidity_sol metadata) 0),
           (Qgtb (TokenMetadataService.total_supply metadata) 0);
    cbn; auto.
Qed.

Lemma enrich_token_keys metadata token (s : Session) :
  map tk_id (tokens (enrich_token metadata token s)) = map tk_id (tokens s)
  /\ map tk_contract_address (tokens (enrich_token metadata token s))
     = map tk_contract_address (tokens s)
  /\ map tk_is_rugged (tokens (enrich_token metadata token s))
     = map tk_is_rugged (tokens s).
Proof.
  cbn [enrich_token tokens]. rewrite !map_map.
  repeat split; apply map_ext; intros r;
    destruct (Z.eqb (tk_id r) (tk_id token)); try reflexivity;
    apply apply_metadata_keys.
Qed.

Lemma detail_get_set_other (k key : string) (v : DetailValue)
    (d : list (string * DetailValue)) :
  String.eqb key k = false ->
  detail_get k (detail_set key v d) = detail_get k d.
Proof.
  intros Hk. unfold detail_get.
  induction d as [|[k' v'] r IH]; cbn.
  - now rewrite Hk.
  - destruct (String.eqb k' key) eqn:E; cbn.
    + apply String.eqb_eq in E. subst k'. now rewrite Hk.
    + destruct (String.eqb k' k); [reflexivity|exact IH].
Qed.

Section WithServices.

Variable get_token_metadata : string -> result TokenMetadataService.TokenMetadata.
Variable check_token : string -> result RugDetector.RugCheckResult.
Variable rug_check_detail : bool -> Z -> string -> list string -> DetailValue.

(** The four ways through [enrich_and_validate_signal]. *)
Lemma enrich_cases (signal : SignalResult) (s : Session) :
  (enrich_and_validate_signal get_token_metadata check_token
       rug_check_detail signal s = (signal, s)
   /\ (triggered signal = false \/ sr_token signal = None
       \/ exists token e, sr_token signal = Some token
            /\ get_token_metadata (tk_contract_address token) = Raise e))
  \/ (exists token metadata,
        sr_token signal = Some token /\ triggered signal = true
        /\ get_token_metadata (tk_contract_address token) = Ok metadata
        /\ ((exists e, check_token (tk_contract_address token) = Raise e
               /\ enrich_and_validate_signal get_token_metadata check_token
       rug_check_detail signal s
                  = (with_token (apply_metadata metadata token) signal,
                     enrich_token metadata (apply_metadata metadata token) s))
            \/ (exists r, check_token (tk_contract_address token) = Ok r
                  /\ enrich_and_validate_signal get_token_metadata check_token
       rug_check_detail signal s
                     = (with_rug_check rug_check_detail r
                          (with_token (apply_metadata metadata token) signal),
                        enrich_token metadata (apply_metadata metadata token) s)))).
Proof.
  unfold enrich_and_validate_signal.
  destruct (triggered signal) eqn:Et; cbn [negb]; [|left; auto].
  destruct (sr_token signal) as [token|] eqn:Ek; [|left; auto].
  destruct (get_token_metadata (tk_contract_address token)) as [metadata|e] eqn:Em;
    [|left; split; [reflexivity|]; right; right; eauto].
  right. exists token, metadata. repeat (split; [reflexivity || assumption|]).
  destruct (apply_metadata_keys metadata token) as (_ & Ha & _). rewrite Ha.
  destruct (check_token (tk_contract_address token)) as [r|e]; [right|left]; eauto.
Qed.

(** X6.  [enrich_and_validate_signal] changes neither what triggered nor who
    took part: the trigger flag, the signal type, the trades, the wallets,
    the volume, the supply share and the average win rate an alert would
    store are as before, and the token keeps its id and its address.  In
    the session only token rows change, and these keep their id, their
    address and their rug flag. *)
Theorem enrich_keeps_signal_and_rows (signal : SignalResult) (s : Session) :
  triggered (fst (enrich_and_validate_signal get_token_metadata check_token
          rug_check_detail signal s)) = triggered signal
  /\ signal_type (fst (enrich_and_validate_signal get_token_metadata check_token
          rug_check_detail signal s)) = signal_type signal
  /\ sr_trades (fst (enrich_and_validate_signal get_token_metadata check_token
          rug_check_detail signal s)) = sr_trades signal
  /\ sr_wallets (fst (enrich_and_validate_signal get_token_metadata check_token
          rug_check_detail signal s)) = sr_wallets signal
  /\ total_sol (fst (enrich_and_validate_signal get_token_metadata check_token
          rug_check_detail signal s)) = total_sol signal
  /\ max_supply_pct (fst (enrich_and_validate_signal get_token_metadata check_token
          rug_check_detail signal s)) = max_supply_pct signal
  /\ avg_win_rate_of (fst (enrich_and_validate_signal get_token_metadata check_token
          rug_check_detail signal s)) = avg_win_rate_of signal
  /\ option_map tk_id (sr_token (fst (enrich_and_validate_signal get_token_metadata check_token
          rug_check_detail signal s)))
     = option_map tk_id (sr_token signal)
  /\ option_map tk_contract_address (sr_token (fst (enrich_and_validate_signal get_token_metadata check_token
          rug_check_detail signal s)))
     = option_map tk_contract_address (sr_token signal)
  /\ wallets (snd (enrich_and_validate_signal get_token_metadata check_token
          rug_check_detail signal s)) = wallets s
  /\ trades (snd (enrich_and_validate_signal get_token_metadata check_token
          rug_check_detail signal s)) = trades s
  /\ alerts (snd (enrich_and_validate_signal get_token_metadata check_token
          rug_check_detail signal s)) = alerts s
  /\ cluster_events (snd (enrich_and_validate_signal get_token_metadata check_token
          rug_check_detail signal s)) = cluster_events s
  /\ map tk_id (tokens (snd (enrich_and_validate_signal get_token_metadata check_token
          rug_check_detail signal s))) = map tk_id (tokens s)
  /\ map tk_contract_address (tokens (snd (enrich_and_validate_signal get_token_metadata check_token
          rug_check_detail signal s)))
     = map tk_contract_address (tokens s)
  /\ map tk_is_rugged (tokens (snd (enrich_and_validate_signal get_token_metadata check_token
          rug_check_detail signal s))) = map tk_is_rugged (tokens s).
Proof.
  destruct (enrich_cases signal s)
    as [[-> _] | (token & metadata & Ek & _ & _ & [(e & _ & ->) | (r & _ & ->)])].
  - cbn [fst snd]. repeat split.
  - cbn [fst snd]. rewrite Ek.
    destruct (apply_metadata_keys metadata token) as (Hi & Ha & _).
    destruct (enrich_token_keys metadata (apply_metadata metadata token) s)
      as (K1 & K2 & K3).
    cbn [with_token triggered signal_type sr_trades sr_wallets total_sol max_supply_pct
         sr_token option_map].
    rewrite Hi, Ha, K1, K2, K3.
    repeat split.
  - cbn [fst snd]. rewrite Ek.
    destruct (apply_metadata_keys metadata token) as (Hi & Ha & _).
    destruct (enrich_token_keys metadata (apply_metadata metadata token) s)
      as (K1 & K2 & K3).
    cbn [with_rug_check with_token triggered signal_type sr_trades sr_wallets total_sol
         max_supply_pct sr_token option_map].
    rewrite Hi, Ha, K1, K2, K3.
    repeat split.
    unfold avg_win_rate_of.
    cbn [with_rug_check with_token details sr_wallets].
    now rewrite detail_get_set_other.
Qed.

(** X7.  For a signal that has a token and no rug check yet, the alert of
    the enriched signal is withheld exactly when the signal triggered, both
    services answered and the rug check did not pass: a failure of the
    metadata service or of the rug detector never withholds an alert. *)
Theorem enriched_alert_withheld_iff_check_failed now (signal : SignalResult)
    (s s1 : Session) (token : Token) :
  sr_token signal = Some token ->
  rug_checked signal = false ->
  fst (create_alert now (fst (enrich_and_validate_signal get_token_metadata check_token
          rug_check_detail signal s)) true s1) = Ok None
  <-> triggered signal = true
      /\ exists metadata r,
           get_token_metadata (tk_contract_address token) = Ok metadata
           /\ check_token (tk_contract_address token) = Ok r
           /\ RugDetector.passed r = false.
Proof.
  intros Ek Hc.
  assert (Hplain : forall g tok, sr_token g = Some tok -> rug_checked g = false ->
            fst (create_alert now g true s1) <> Ok None).
  { intros g tok Hg Hr. unfold create_alert. rewrite Hg, Hr. cbn [andb].
    unfold bind, get, lift, put, ret.
    destruct (avg_win_rate_of g); cbn [fst]; discriminate. }
  destruct (enrich_cases signal s)
    as [[-> Hwhy] | (token' & metadata & Ek' & Et & Em & [(e & Hct & ->) | (r & Hct & ->)])].
  - cbn [fst]. split.
    + intros H. now apply (Hplain signal token Ek Hc) in H.
    + intros (Et & metadata & r & Em & _).
      destruct Hwhy as [Hf | [Hn | (token' & e & Ek' & He)]]; congruence.
  - rewrite Ek in Ek'. injection Ek' as <-. cbn [fst]. split.
    + intros H. exfalso. revert H. eapply Hplain; cbn; [reflexivity|exact Hc].
    + intros (_ & md & r & _ & Hr & _). congruence.
  - rewrite Ek in Ek'. injection Ek' as <-. cbn [fst].
    unfold create_alert.
    cbn [with_rug_check with_token sr_token rug_checked rug_passed andb].
    destruct (RugDetector.passed r) eqn:Ep; cbn [negb].
    + unfold bind, get, lift, put, ret.
      split.
      * destruct (avg_win_rate_of _); cbn [fst]; discriminate.
      * intros (_ & md & r' & _ & Hr & Hp). congruence.
    + unfold ret. cbn [fst]. split; [|reflexivity].
      intros _. split; [exact Et|]. eauto.
Qed.

End WithServices.

Lemma enriched_alert_withheld_witness :
  fst (create_alert 2000
         (fst (enrich_and_validate_signal risky_service risky_check no_detail
                 example_signal tracked_session))
         true tracked_session) = Ok None.
Proof.
  apply (enriched_alert_withheld_iff_check_failed risky_service risky_check no_detail
           2000 example_signal tracked_session tracked_session tracked_token);
    [reflexivity|reflexivity|].
  split; [reflexivity|].
  eexists. eexists. split; [reflexivity|]. split; [vm_compute; reflexivity|reflexivity].
Defined.

End EnrichmentFacts.

(** * Wallet queries and the batch update of the scores *)

Module WalletFacts.

Import ModelMethods.
Import ConvictionCalculator.
Import ConvictionBatch.

(** X8.  [get_active_wallets] returns exactly the active wallets for which
    [meets_threshold] holds with the same thresholds, the highest
    conviction score first. *)
Theorem get_active_wallets_meet_threshold (s : Session) (min_win_rate : Q) (min_trades : Z) :
  (forall w, In w (get_active_wallets s min_win_rate min_trades)
             <-> In w (wallets s) /\ sw_is_active w = true
                 /\ meets_threshold w min_win_rate min_trades = true)
  /\ StronglySorted (fun a b => sw_conviction_score b <= sw_conviction_score a)
       (get_active_wallets s min_win_rate min_trades)
  /\ Permutation (get_active_wallets s min_win_rate min_trades)
       (filter (fun w => sw_is_active w && meets_threshold w min_win_rate min_trades)
               (wallets s)).
Proof.
  assert (Hf : forall w,
            sw_is_active w && Qgeb (sw_win_rate w) min_win_rate
              && Z.geb (sw_trades_7d w) min_trades
            = sw_is_active w && meets_threshold w min_win_rate min_trades).
  { intros w. unfold meets_threshold. now rewrite andb_assoc. }
  split; [|split].
  - intros w. unfold get_active_wallets.
    rewrite QueryFacts.order_by_In, filter_In, Hf, andb_true_iff. tauto.
  - apply (QueryFacts.order_by_desc sw_conviction_score).
  - unfold get_active_wallets. rewrite QueryFacts.order_by_perm.
    rewrite (filter_ext _ _ Hf). reflexivity.
Qed.

(** X9.  The first time a transaction is recorded, the stored trade is a
    high-conviction trade in the sense of [Trade.is_high_conviction], at
    the configured thresholds, exactly when the high-conviction signal
    computed for it triggers. *)
Theorem recorded_trade_is_high_conviction_iff_signal cfg wallet token
    sol_amount token_amount total_supply tx_signature block_time market_cap s :
  first (fun t => String.eqb (tr_tx_signature t) tx_signature) (trades s) = None ->
  let supply_pct := SignalProcessor.supply_percentage token_amount total_supply in
  let r := SignalProcessor._record_trade wallet token sol_amount token_amount supply_pct
             tx_signature block_time market_cap s in
  In (fst (fst r)) (trades (snd r))
  /\ is_high_conviction (fst (fst r)) (high_conviction_min_sol cfg)
       (high_conviction_min_supply_pct cfg)
     = SignalProcessor.triggered
         (SignalProcessor._check_high_conviction cfg (snd (fst r)) (fst (fst r)) token
            supply_pct sol_amount).
Proof.
  intros Hnew supply_pct r. subst r.
  unfold SignalProcessor._record_trade. rewrite Hnew. cbn [fst snd].
  split.
  - cbn. apply in_or_app. right. now left.
  - unfold is_high_conviction, SignalProcessor._check_high_conviction.
    cbn [tr_sol_amount tr_supply_percentage SignalProcessor.triggered].
    f_equal. unfold or_else.
    destruct (Qeq_bool supply_pct 0) eqn:E; [|reflexivity].
    apply Qeq_bool_iff in E. unfold Qgeb, Qleb.
    destruct (Qle_bool (high_conviction_min_supply_pct cfg) 0) eqn:A,
             (Qle_bool (high_conviction_min_supply_pct cfg) supply_pct) eqn:B;
      try reflexivity.
    + apply Qle_bool_iff in A. rewrite <- E in A. apply Qle_bool_iff in A. congruence.
    + apply Qle_bool_iff in B. rewrite E in B. apply Qle_bool_iff in B. congruence.
Qed.

Lemma recorded_trade_is_high_conviction_witness :
  let r := SignalProcessor._record_trade example_wallet tracked_token 2 10000
             (SignalProcessor.supply_percentage 10000 (Some 1000000))
             "sig9" 1500 (Some 100) tracked_session in
  is_high_conviction (fst (fst r)) (high_conviction_min_sol settings)
    (high_conviction_min_supply_pct settings) = true.
Proof.
  intros r.
  destruct (recorded_trade_is_high_conviction_iff_signal settings example_wallet
              tracked_token 2 10000 (Some 1000000) "sig9" 1500 (Some 100)
              tracked_session) as [_ H]; [reflexivity|].
  fold r in H. rewrite H. vm_compute. reflexivity.
Defined.

Section WithPowHalf.

Variable pow_half : Q -> Q.

(** [calculate_score] reads the trade and the token rows, and of the wallet
    everything but its score. *)
Lemma calculate_score_frame now (s : Session) (rows : list SmartWallet) (w : SmartWallet)
    (q : Q) :
  calculate_score pow_half now (with_wallets rows s) (set_conviction_score q w)
  = calculate_score pow_half now s w.
Proof. reflexivity. Qed.

Lemma calculate_score_rows now (s : Session) (rows : list SmartWallet) (w : SmartWallet) :
  calculate_score pow_half now (with_wallets rows s) w = calculate_score pow_half now s w.
Proof. reflexivity. Qed.

Lemma calculate_score_range now (s : Session) (w : SmartWallet) :
  exists q, calculate_score pow_half now s w = Ok q /\ 0 <= q <= 100.
Proof.
  destruct (ConvictionCalculatorFacts.calculate_score_ok pow_half now s w)
    as (m & _ & ->).
  eexists. split; [reflexivity|]. split.
  - apply py_min_glb; [lra|apply py_max_ge_l].
  - apply py_min_le_l.
Qed.

Lemma score_rows_spec now (s : Session) (rest done : list SmartWallet) (updated : Z) :
  score_rows pow_half now s done rest updated
  = ((updated + Z.of_nat (List.length (filter sw_is_active rest)))%Z,
     with_wallets (done ++ map (rescored pow_half now s) rest) s).
Proof.
  revert done updated. induction rest as [|w rest IH]; intros done updated.
  - cbn. now rewrite Z.add_0_r, app_nil_r.
  - cbn [score_rows map filter]. unfold rescored at 1.
    destruct (sw_is_active w) eqn:Ea.
    + rewrite calculate_score_rows.
      destruct (calculate_score_range now s w) as (q & -> & _).
      rewrite IH. rewrite <- app_assoc. cbn [app List.length].
      f_equal. lia.
    + rewrite IH. rewrite <- app_assoc. reflexivity.
Qed.

Lemma update_all_scores_spec now (s : Session) :
  update_all_scores pow_half now s
  = (Z.of_nat (List.length (filter sw_is_active (wallets s))),
     with_wallets (map (rescored pow_half now s) (wallets s)) s).
Proof. unfold update_all_scores. now rewrite score_rows_spec. Qed.

(** X10.  [update_all_scores] returns the number of active wallets.  It
    gives every active wallet the score that [calculate_score] computes
    for it on the session as the call found it, a score between 0 and 100;
    it leaves the inactive wallets, the other columns and the other tables
    as they were. *)
Theorem update_all_scores_rescores_active_wallets now (s : Session) :
  fst (update_all_scores pow_half now s)
  = Z.of_nat (List.length (filter sw_is_active (wallets s)))
  /\ Forall2 (fun w w' =>
                if sw_is_active w
                then exists q, calculate_score pow_half now s w = Ok q
                               /\ 0 <= q <= 100
                               /\ w' = set_conviction_score q w
                else w' = w)
             (wallets s) (wallets (snd (update_all_scores pow_half now s)))
  /\ tokens (snd (update_all_scores pow_half now s)) = tokens s
  /\ trades (snd (update_all_scores pow_half now s)) = trades s
  /\ alerts (snd (update_all_scores pow_half now s)) = alerts s
  /\ cluster_events (snd (update_all_scores pow_half now s)) = cluster_events s.
Proof.
  rewrite update_all_scores_spec. cbn [fst snd with_wallets wallets tokens trades alerts
                                       cluster_events].
  split; [reflexivity|]. split; [|auto].
  induction (wallets s) as [|w l IH]; cbn [map]; constructor; [|exact IH].
  unfold rescored. destruct (sw_is_active w); [|reflexivity].
  destruct (calculate_score_range now s w) as (q & Hq & Hr). rewrite Hq. eauto.
Qed.

Lemma rescored_again now (s : Session) (rows : list SmartWallet) (w : SmartWallet) :
  rescored pow_half now (with_wallets rows s) (rescored pow_half now s w)
  = rescored pow_half now s w.
Proof.
  unfold rescored. destruct (sw_is_active w) eqn:Ea; [|now rewrite Ea].
  destruct (calculate_score_range now s w) as (q & Hq & _). rewrite Hq.
  cbn [set_conviction_score sw_is_active]. rewrite Ea.
  rewrite calculate_score_frame, Hq. reflexivity.
Qed.

(** X11.  Running [update_all_scores] a second time at the same instant
    changes nothing and reports the same number of wallets. *)
Theorem update_all_scores_idempotent now (s : Session) :
  update_all_scores pow_half now (snd (update_all_scores pow_half now s))
  = update_all_scores pow_half now s.
Proof.
  rewrite (update_all_scores_spec now s). cbn [snd].
  rewrite update_all_scores_spec. cbn [with_wallets wallets].
  f_equal.
  - f_equal. induction (wallets s) as [|w l IH]; cbn [map filter]; [reflexivity|].
    assert (Ha : sw_is_active (rescored pow_half now s w) = sw_is_active w).
    { unfold rescored. destruct (sw_is_active w) eqn:E; [|exact E].
      destruct (calculate_score pow_half now s w); [cbn|]; exact E. }
    rewrite Ha. destruct (sw_is_active w); cbn [List.length]; now rewrite IH.
  - unfold with_wallets. cbn [tokens trades alerts cluster_events]. f_equal.
    rewrite map_map. apply map_ext. intros w. apply rescored_again.
Qed.

(** X12.  After [update_all_scores], [get_top_wallets] returns only active
    wallets whose score lies between the minimum asked for and 100: for a
    minimum above 100 it returns nothing. *)
Theorem top_wallets_after_update_in_range now (s : Session) (limit : nat) (min_score : Q) :
  Forall (fun w => sw_is_active w = true
                   /\ min_score <= sw_conviction_score w <= 100)
         (get_top_wallets (snd (update_all_scores pow_half now s)) limit min_score)
  /\ (100 < min_score ->
      get_top_wallets (snd (update_all_scores pow_half now s)) limit min_score = []).
Proof.
  assert (H : Forall (fun w => sw_is_active w = true
                   /\ min_score <= sw_conviction_score w <= 100)
         (get_top_wallets (snd (update_all_scores pow_half now s)) limit min_score)).
  { rewrite Forall_forall. intros w Hw. unfold get_top_wallets in Hw.
    apply QueryFacts.limit_In, QueryFacts.order_by_In, filter_In in Hw.
    destruct Hw as [Hin Hf]. apply andb_true_iff in Hf. destruct Hf as [Ha Hs].
    apply Qgeb_iff in Hs.
    rewrite update_all_scores_spec in Hin. cbn [snd with_wallets wallets] in Hin.
    apply in_map_iff in Hin. destruct Hin as (w0 & <- & _).
    split; [exact Ha|]. split; [exact Hs|].
    unfold rescored in *. destruct (sw_is_active w0) eqn:E; [|congruence].
    destruct (calculate_score_range now s w0) as (q & Hq & Hr). rewrite Hq.
    cbn [set_conviction_score sw_conviction_score]. tauto. }
  split; [exact H|]. intros E.
  destruct (get_top_wallets _ limit min_score) as [|w l]; [reflexivity|].
  inversion H as [|? ? [_ Hw] _]; subst. lra.
Qed.

End WithPowHalf.

Lemma top_wallets_after_update_witness :
  get_top_wallets (snd (update_all_scores (fun x => x) 2000 example_session)) 20 101 = [].
Proof.
  apply (top_wallets_after_update_in_range (fun x => x) 2000 example_session 20 101).
  reflexivity.
Defined.

(** X13.  [get_top_wallets] returns at most [limit] wallets, all of them
    active rows with a score of at least [min_score], the highest score
    first; every such wallet it leaves out scores no higher than each
    wallet it returns. *)
Theorem get_top_wallets_highest_first (s : Session) (limit : nat) (min_score : Q) :
  (List.length (get_top_wallets s limit min_score) <= limit)%nat
  /\ Forall (fun w => In w (wallets s) /\ sw_is_active w = true
                      /\ min_score <= sw_conviction_score w)
            (get_top_wallets s limit min_score)
  /\ StronglySorted (fun a b => sw_conviction_score b <= sw_conviction_score a)
                    (get_top_wallets s limit min_score)
  /\ Forall (fun w => sw_is_active w = false
                      \/ sw_conviction_score w < min_score
                      \/ In w (get_top_wallets s limit min_score)
                      \/ Forall (fun b => sw_conviction_score w <= sw_conviction_score b)
                                (get_top_wallets s limit min_score))
            (wallets s).
Proof.
  split; [apply QueryFacts.limit_length|].
  split.
  { rewrite Forall_forall. intros w Hw. unfold get_top_wallets in Hw.
    apply QueryFacts.limit_In, QueryFacts.order_by_In, filter_In in Hw.
    destruct Hw as [Hin Hf]. apply andb_true_iff in Hf. destruct Hf as [Ha Hs].
    apply Qgeb_iff in Hs. auto. }
  split.
  { apply QueryFacts.limit_sorted. apply (QueryFacts.order_by_desc sw_conviction_score). }
  rewrite Forall_forall. intros w Hw.
  destruct (sw_is_active w) eqn:Ea; [|now left]. right.
  destruct (Qgeb (sw_conviction_score w) min_score) eqn:Es;
    [|left; now apply Qgeb_false_iff]. right.
  apply (QueryFacts.limit_first
           (fun a b => sw_conviction_score b <= sw_conviction_score a)).
  - apply (QueryFacts.order_by_desc sw_conviction_score).
  - apply QueryFacts.order_by_In. apply filter_In. split; [exact Hw|].
    now rewrite Ea, Es.
Qed.

End WalletFacts.

(** * The risk gate *)

Module RugDetectorFacts.

Import TokenMetadataService.
Import RugDetector.

(** The flags of a result, in the order of the checks, with their weights. *)
Lemma flag_fst (raised : bool) (points : Z) (warning : string) (acc : Z * list string) :
  fst (flag raised points warning acc) = (fst acc + points * Z.b2z raised)%Z.
Proof. destruct raised; cbn; lia. Qed.

Lemma flag_snd_length (raised : bool) (points : Z) (warning : string)
    (acc : Z * list string) :
  List.length (snd (flag raised points warning acc))
  = (List.length (snd acc) + Nat.b2n raised)%nat.
Proof.
  destruct raised; cbn [flag snd Nat.b2n]; [|lia].
  rewrite length_app. cbn. lia.
Qed.

Section WithServices.

Variable upper : string -> string.
Variable format_float : nat -> Q -> string.
Variable get_token_metadata : string -> result TokenMetadata.
Variable get_holder_distribution : string -> result (option Q).
Variable _check_lp_unlocked : string -> bool.
Variable _check_honeypot : string -> bool.

(** What a returned result records: the score is the sum of the weights of
    its flags, with one warning for each flag. *)
Lemma check_token_result (ca : string) (r : RugCheckResult) :
  check_token upper format_float get_token_metadata get_holder_distribution
    _check_lp_unlocked _check_honeypot ca = Ok r ->
  risk_score r
  = (25 * Z.b2z (mintable r) + 30 * Z.b2z (freezable r) + 20 * Z.b2z (lp_unlocked r)
     + 10 * Z.b2z (low_liquidity r) + 15 * Z.b2z (high_concentration r)
     + 40 * Z.b2z (honeypot_risk r) + 10 * Z.b2z (copycat_name r))%Z
  /\ List.length (warnings r)
     = (Nat.b2n (mintable r) + Nat.b2n (freezable r) + Nat.b2n (lp_unlocked r)
        + Nat.b2n (low_liquidity r) + Nat.b2n (high_concentration r)
        + Nat.b2n (honeypot_risk r) + Nat.b2n (copycat_name r))%nat
  /\ risk_level r = level_of (risk_score r)
  /\ passed r = match risk_level r with CRITICAL | HIGH => false | _ => true end
  /\ contract_address r = ca.
Proof.
  unfold check_token.
  destruct (get_token_metadata ca) as [metadata|]; [|discriminate].
  destruct (get_holder_distribution ca) as [holder_dist|]; [|discriminate].
  cbn [rbind]. intros [= <-].
  cbn [risk_score warnings risk_level passed contract_address mintable freezable
       lp_unlocked low_liquidity high_concentration honeypot_risk copycat_name].
  rewrite !flag_fst, !flag_snd_length. cbn [fst snd List.length].
  repeat split; lia.
Qed.

(** X14.  In a result of [check_token] the risk score is the sum of the
    weights of the raised flags, between 0 and 150, with one warning for
    each raised flag; the token passes exactly when the score is below
    50. *)
Theorem check_token_score_decides (ca : string) (r : RugCheckResult) :
  check_token upper format_float get_token_metadata get_holder_distribution
    _check_lp_unlocked _check_honeypot ca = Ok r ->
  risk_score r
  = (25 * Z.b2z (mintable r) + 30 * Z.b2z (freezable r) + 20 * Z.b2z (lp_unlocked r)
     + 10 * Z.b2z (low_liquidity r) + 15 * Z.b2z (high_concentration r)
     + 40 * Z.b2z (honeypot_risk r) + 10 * Z.b2z (copycat_name r))%Z
  /\ (0 <= risk_score r <= 150)%Z
  /\ List.length (warnings r)
     = (Nat.b2n (mintable r) + Nat.b2n (freezable r) + Nat.b2n (lp_unlocked r)
        + Nat.b2n (low_liquidity r) + Nat.b2n (high_concentration r)
        + Nat.b2n (honeypot_risk r) + Nat.b2n (copycat_name r))%nat
  /\ passed r = Z.ltb (risk_score r) 50.
Proof.
  intros H. apply check_token_result in H.
  destruct H as (Hs & Hw & Hl & Hp & _).
  split; [exact Hs|]. split.
  { rewrite Hs.
    destruct (mintable r), (freezable r), (lp_unlocked r), (low_liquidity r),
             (high_concentration r), (honeypot_risk r), (copycat_name r);
      cbn; lia. }
  split; [exact Hw|].
  rewrite Hp, Hl. unfold level_of.
  destruct (Z.geb (risk_score r) 70) eqn:E70.
  - apply Z.geb_le in E70. symmetry. apply Z.ltb_ge. lia.
  - destruct (Z.geb (risk_score r) 50) eqn:E50.
    + apply Z.geb_le in E50. symmetry. apply Z.ltb_ge. lia.
    + assert (risk_score r < 50)%Z.
      { destruct (Z.geb_spec (risk_score r) 50); [discriminate|lia]. }
      destruct (Z.geb (risk_score r) 25); symmetry; now apply Z.ltb_lt.
Qed.

(** X15.  No single flag fails a token: a result of [check_token] that did
    not pass has at least two flags raised, and so at least two
    warnings. *)
Theorem check_token_fails_on_two_flags_only (ca : string) (r : RugCheckResult) :
  check_token upper format_float get_token_metadata get_holder_distribution
    _check_lp_unlocked _check_honeypot ca = Ok r ->
  passed r = false ->
  (2 <= List.length (warnings r))%nat.
Proof.
  intros H Hf. apply check_token_result in H.
  destruct H as (Hs & Hw & Hl & Hp & _).
  rewrite Hw. rewrite Hl in Hp. rewrite Hp in Hf. unfold level_of in Hf.
  destruct (Z.geb_spec (risk_score r) 70) as [G|G].
  - rewrite Hs in G.
    destruct (mintable r), (freezable r), (lp_unlocked r), (low_liquidity r),
             (high_concentration r), (honeypot_risk r), (copycat_name r);
      cbn in *; lia.
  - destruct (Z.geb_spec (risk_score r) 50) as [G'|G'].
    + rewrite Hs in G'.
      destruct (mintable r), (freezable r), (lp_unlocked r), (low_liquidity r),
               (high_concentration r), (honeypot_risk r), (copycat_name r);
        cbn in *; lia.
    + destruct (Z.geb (risk_score r) 25); discriminate.
Qed.

(** [check_token] raises exactly when one of the two calls of the token
    service raises, with the exception of that call. *)
Lemma check_token_raises_iff_service_raises (ca : string) (e : exn) :
  check_token upper format_float get_token_metadata get_holder_distribution
    _check_lp_unlocked _check_honeypot ca = Raise e
  <-> get_token_metadata ca = Raise e
      \/ (exists metadata, get_token_metadata ca = Ok metadata)
         /\ get_holder_distribution ca = Raise e.
Proof.
  unfold check_token.
  destruct (get_token_metadata ca) as [metadata|e1]; cbn [rbind].
  - destruct (get_holder_distribution ca) as [holder_dist|e2]; cbn [rbind].
    + split; [discriminate|]. intros [H|[_ H]]; discriminate.
    + split.
      * intros [= ->]. right. eauto.
      * intros [H|[_ H]]; [discriminate|]. injection H as ->. reflexivity.
  - split.
    + intros [= ->]. now left.
    + intros [H|[[metadata H] _]]; [|discriminate]. injection H as ->. reflexivity.
Qed.

(** X17.  [_check_copycat] names only tokens of its list, and names none
    when symbol and name are both empty; a token whose symbol is itself a
    name of the list is reported as a copycat. *)
Theorem check_copycat_reports_known_names (symbol name : option string) :
  match _check_copycat upper symbol name with
  | Some known =>
      In known COPYCAT_PATTERNS /\ is_blank symbol && is_blank name = false
  | None => True
  end
  /\ (is_blank symbol && is_blank name = true -> _check_copycat upper symbol name = None)
  /\ (is_blank symbol = false -> In (upper (or_empty symbol)) COPYCAT_PATTERNS ->
      _check_copycat upper symbol name <> None).
Proof.
  unfold _check_copycat.
  destruct (is_blank symbol && is_blank name) eqn:Eb.
  - split; [exact I|]. split; [reflexivity|].
    intros Hs. rewrite Hs in Eb. discriminate.
  - split; [|split; [discriminate|]].
    + destruct (first _ COPYCAT_PATTERNS) as [known|] eqn:Ef; [|exact I].
      apply first_some in Ef. split; [apply Ef|reflexivity].
    + intros _ Hin Hnone.
      pose proof (proj1 (first_none _ _) Hnone (upper (or_empty symbol)) Hin) as Hc.
      unfold copies in Hc. now rewrite String.eqb_refl in Hc.
Qed.

End WithServices.

Lemma check_token_score_witness :
  exists r, risky_check "T1" = Ok r /\ risk_score r = 75%Z /\ passed r = false.
Proof.
  eexists. split; [vm_compute; reflexivity|].
  destruct (check_token_score_decides same_case no_format risky_service no_holders
              never never "T1" _ eq_refl) as (Hs & _ & _ & Hp).
  split; [exact Hs|exact Hp].
Defined.

Lemma check_token_fails_on_two_flags_witness :
  exists r, risky_check "T1" = Ok r /\ (2 <= List.length (warnings r))%nat.
Proof.
  eexists. split; [vm_compute; reflexivity|].
  apply (check_token_fails_on_two_flags_only same_case no_format risky_service no_holders
           never never "T1"); reflexivity.
Defined.

Lemma check_copycat_witness :
  _check_copycat same_case (Some "BONK"%string) None <> None.
Proof.
  apply (check_copycat_reports_known_names same_case (Some "BONK"%string) None).
  - reflexivity.
  - cbn. auto.
Defined.

End RugDetectorFacts.

(** * The rate limiter *)

Module RateLimiterFacts.

Import RateLimiter.

Lemma get_list_store_same (identifier : string) (l : list Q) (d : Requests) :
  get_list identifier (store identifier l d) = l.
Proof.
  unfold get_list, lookup.
  induction d as [|[k l'] r IH]; cbn.
  - now rewrite String.eqb_refl.
  - destruct (String.eqb k identifier) eqn:E; cbn; rewrite E; [reflexivity|exact IH].
Qed.

Lemma get_list_store_other (identifier other : string) (l : list Q) (d : Requests) :
  String.eqb identifier other = false ->
  get_list other (store identifier l d) = get_list other d.
Proof.
  intros Hne. unfold get_list, lookup.
  induction d as [|[k l'] r IH]; cbn.
  - now rewrite Hne.
  - destruct (String.eqb k identifier) eqn:E; cbn.
    + apply String.eqb_eq in E. subst k. now rewrite Hne.
    + destruct (String.eqb k other); [reflexivity|exact IH].
Qed.

Lemma recent_recent (a b : Q) (l : list Q) :
  a <= b -> recent b (recent a l) = recent b l.
Proof.
  intros Hab. unfold recent. induction l as [|x r IH]; cbn; [reflexivity|].
  destruct (Qgtb x a) eqn:Ea; cbn; rewrite IH; [reflexivity|].
  destruct (Qgtb x b) eqn:Eb; [|reflexivity].
  apply Qgtb_iff in Eb. apply Qgtb_false_iff in Ea. lra.
Qed.

(** The list [is_allowed] works on, whether or not the key was there. *)
Lemma is_allowed_spec (now : Q) (identifier : string) (rl : t) :
  let kept := recent (now - inject_Z (window_seconds rl))
                (get_list identifier (_requests rl)) in
  fst (is_allowed now identifier rl)
  = Z.ltb (Z.of_nat (List.length kept)) (max_requests rl)
  /\ get_list identifier (_requests (snd (is_allowed now identifier rl)))
     = (if fst (is_allowed now identifier rl) then kept ++ [now] else kept)
  /\ (forall other, String.eqb identifier other = false ->
        get_list other (_requests (snd (is_allowed now identifier rl)))
        = get_list other (_requests rl))
  /\ max_requests (snd (is_allowed now identifier rl)) = max_requests rl
  /\ window_seconds (snd (is_allowed now identifier rl)) = window_seconds rl.
Proof.
  intros kept. unfold is_allowed.
  assert (Hsame : get_list identifier
            (match lookup identifier (_requests rl) with
             | Some _ => _requests rl
             | None => store identifier [] (_requests rl)
             end) = get_list identifier (_requests rl)).
  { destruct (lookup identifier (_requests rl)) eqn:E; [reflexivity|].
    rewrite get_list_store_same. unfold get_list. now rewrite E. }
  assert (Hother : forall other, String.eqb identifier other = false ->
            get_list other
              (match lookup identifier (_requests rl) with
               | Some _ => _requests rl
               | None => store identifier [] (_requests rl)
               end) = get_list other (_requests rl)).
  { intros other Hne. destruct (lookup identifier (_requests rl)); [reflexivity|].
    now apply get_list_store_other. }
  rewrite Hsame. fold kept.
  rewrite Z.geb_leb, Z.ltb_antisym.
  destruct (Z.leb (max_requests rl) (Z.of_nat (List.length kept)));
    cbn [negb fst snd _requests max_requests window_seconds].
  - rewrite get_list_store_same. repeat split.
    intros other Hne. rewrite get_list_store_other by exact Hne. now apply Hother.
  - rewrite get_list_store_same. repeat split.
    intros other Hne. rewrite !get_list_store_other by exact Hne. now apply Hother.
Qed.

(** The timestamps of the requests of [identifier] among [granted]. *)
Lemma in_window_app (w : Z) (now : Q) (identifier : string) (a b : list (Q * string)) :
  in_window w now identifier (a ++ b)
  = in_window w now identifier a ++ in_window w now identifier b.
Proof. apply filter_app. Qed.

Lemma is_allowed_remembers (now : Q) (identifier : string) (rl : t)
    (granted : list (Q * string)) (last : Q) :
  remembers rl granted last -> last <= now ->
  remembers (snd (is_allowed now identifier rl))
    (if fst (is_allowed now identifier rl) then granted ++ [(now, identifier)]
     else granted) now.
Proof.
  intros Hinv Hle other T HT.
  destruct (is_allowed_spec now identifier rl) as (_ & Hl & Ho & _ & Hw).
  cbv zeta in Hl. rewrite Hw.
  destruct (String.eqb identifier other) eqn:E.
  - apply String.eqb_eq in E. subst other. rewrite Hl.
    assert (Hk : recent (T - inject_Z (window_seconds rl))
                   (recent (now - inject_Z (window_seconds rl))
                      (get_list identifier (_requests rl)))
                 = map fst (in_window (window_seconds rl) T identifier granted)).
    { rewrite recent_recent by lra. apply Hinv. lra. }
    destruct (fst (is_allowed now identifier rl)); [|exact Hk].
    unfold recent in *. rewrite filter_app, Hk, in_window_app, map_app.
    f_equal. cbn. rewrite String.eqb_refl. cbn.
    destruct (Qgtb now (T - inject_Z (window_seconds rl))); reflexivity.
  - rewrite (Ho other E).
    assert (Hg : in_window (window_seconds rl) T other
                   (if fst (is_allowed now identifier rl)
                    then granted ++ [(now, identifier)] else granted)
                 = in_window (window_seconds rl) T other granted).
    { destruct (fst (is_allowed now identifier rl)); [|reflexivity].
      rewrite in_window_app. cbn. rewrite E. cbn. apply app_nil_r. }
    rewrite Hg. apply Hinv. lra.
Qed.

Lemma serve_remembers (calls : list (Q * string)) (rl : t) (granted : list (Q * string))
    (last now : Q) :
  remembers rl granted last ->
  StronglySorted Qle (last :: map fst calls ++ [now]) ->
  remembers (snd (serve calls rl granted)) (fst (serve calls rl granted)) now
  /\ max_requests (snd (serve calls rl granted)) = max_requests rl
  /\ window_seconds (snd (serve calls rl granted)) = window_seconds rl.
Proof.
  revert rl granted last. induction calls as [|[t identifier] rest IH];
    intros rl granted last Hinv Hs.
  - cbn in *. split; [|auto]. intros identifier T HT. apply Hinv.
    inversion Hs as [|? ? _ Hall]; subst. inversion Hall; subst. lra.
  - cbn [serve]. destruct (is_allowed t identifier rl) as [allowed rl'] eqn:Ea.
    cbn [map app] in Hs. inversion Hs as [|? ? Hs' Hall]; subst.
    assert (Hlt : last <= t) by (inversion Hall; assumption).
    pose proof (is_allowed_remembers t identifier rl granted last Hinv Hlt) as Hstep.
    destruct (is_allowed_spec t identifier rl) as (_ & _ & _ & Hm & Hw).
    rewrite Ea in Hstep, Hm, Hw. cbn [fst snd] in Hstep, Hm, Hw.
    destruct (IH rl' _ t Hstep Hs') as (H1 & H2 & H3).
    split; [exact H1|]. split; congruence.
Qed.

Lemma new_remembers (max_requests window_seconds : Z) (last : Q) :
  remembers (new max_requests window_seconds) [] last.
Proof. intros identifier now _. reflexivity. Qed.

(** X18.  Whatever was asked before, in the order of the clock, a fresh
    rate limiter allows a request exactly when the requests it has allowed
    to the same identifier within the last [window_seconds] seconds are
    fewer than [max_requests]. *)
Theorem is_allowed_iff_fewer_granted_in_window (max_requests window_seconds : Z)
    (calls : list (Q * string)) (now : Q) (identifier : string) :
  StronglySorted Qle (map fst calls ++ [now]) ->
  let run := serve calls (new max_requests window_seconds) [] in
  fst (is_allowed now identifier (snd run))
  = Z.ltb (Z.of_nat (List.length (in_window window_seconds now identifier (fst run))))
          max_requests.
Proof.
  intros Hs run.
  assert (Hs' : StronglySorted Qle
                  (match map fst calls ++ [now] with x :: _ => x | [] => now end
                   :: map fst calls ++ [now])).
  { destruct (map fst calls ++ [now]) as [|x l] eqn:E; [destruct calls; discriminate|].
    constructor; [exact Hs|]. inversion Hs as [|? ? _ Hall]; subst.
    constructor; [apply Qle_refl|exact Hall]. }
  destruct (serve_remembers calls (new max_requests window_seconds) [] _ now
              (new_remembers _ _ _) Hs') as (Hinv & Hm & Hw).
  fold run in Hinv, Hm, Hw. cbn [new RateLimiter.max_requests RateLimiter.window_seconds]
    in Hm, Hw.
  destruct (is_allowed_spec now identifier (snd run)) as (Hd & _).
  cbv zeta in Hd. rewrite Hd, Hm.
  rewrite (Hinv identifier now (Qle_refl now)), Hw, length_map. reflexivity.
Qed.

Lemma is_allowed_window_witness :
  fst (is_allowed 70 "10.0.0.1"
         (snd (serve example_calls (new 2 60) [])))
  = true.
Proof.
  rewrite (is_allowed_iff_fewer_granted_in_window 2 60 example_calls 70 "10.0.0.1").
  - vm_compute. reflexivity.
  - cbn. repeat constructor; unfold Qle; cbn; lia.
Defined.

Lemma in_window_mono (w : Z) (a b : Q) (identifier : string) (g : list (Q * string)) :
  a <= b ->
  (List.length (in_window w b identifier g) <= List.length (in_window w a identifier g))%nat.
Proof.
  intros Hab. unfold in_window. induction g as [|c g IH]; cbn; [lia|].
  destruct (String.eqb (snd c) identifier); cbn [andb]; [|exact IH].
  destruct (Qgtb (fst c) (b - inject_Z w)) eqn:Eb.
  - assert (Ea : Qgtb (fst c) (a - inject_Z w) = true).
    { apply Qgtb_iff in Eb. apply Qgtb_iff. lra. }
    rewrite Ea. cbn. lia.
  - destruct (Qgtb (fst c) (a - inject_Z w)); cbn; lia.
Qed.

Lemma is_allowed_bounded (now : Q) (identifier : string) (rl : t)
    (granted : list (Q * string)) (last : Q) :
  remembers rl granted last -> last <= now ->
  (forall i T, last <= T ->
     (Z.of_nat (List.length (in_window (window_seconds rl) T i granted))
      <= max_requests rl)%Z) ->
  forall i T, now <= T ->
    (Z.of_nat (List.length
       (in_window (window_seconds rl) T i
          (if fst (is_allowed now identifier rl) then granted ++ [(now, identifier)]
           else granted)))
     <= max_requests rl)%Z.
Proof.
  intros Hinv Hle Hb i T HT.
  destruct (is_allowed_spec now identifier rl) as (Hd & _).
  cbv zeta in Hd. rewrite (Hinv identifier now Hle), length_map in Hd.
  destruct (fst (is_allowed now identifier rl)); [|apply Hb; lra].
  symmetry in Hd. apply Z.ltb_lt in Hd.
  rewrite in_window_app, length_app. cbn [in_window filter fst snd].
  destruct (String.eqb identifier i) eqn:E; cbn [andb List.length].
  - apply String.eqb_eq in E. subst i.
    pose proof (in_window_mono (window_seconds rl) now T identifier granted HT).
    destruct (Qgtb now (T - inject_Z (window_seconds rl))); cbn [List.length]; lia.
  - specialize (Hb i T). rewrite Nat.add_0_r. apply Hb. lra.
Qed.

Lemma serve_bounded (calls : list (Q * string)) (rl : t) (granted : list (Q * string))
    (last now : Q) :
  remembers rl granted last ->
  (forall i T, last <= T ->
     (Z.of_nat (List.length (in_window (window_seconds rl) T i granted))
      <= max_requests rl)%Z) ->
  StronglySorted Qle (last :: map fst calls ++ [now]) ->
  forall i,
    (Z.of_nat (List.length
       (in_window (window_seconds rl) now i (fst (serve calls rl granted))))
     <= max_requests rl)%Z.
Proof.
  revert rl granted last. induction calls as [|[t identifier] rest IH];
    intros rl granted last Hinv Hb Hs i.
  - cbn in *. apply Hb.
    inversion Hs as [|? ? _ Hall]; subst. inversion Hall; subst. lra.
  - cbn [serve]. destruct (is_allowed t identifier rl) as [allowed rl'] eqn:Ea.
    cbn [map app] in Hs. inversion Hs as [|? ? Hs' Hall]; subst.
    assert (Hlt : last <= t) by (inversion Hall; assumption).
    pose proof (is_allowed_remembers t identifier rl granted last Hinv Hlt) as Hstep.
    pose proof (is_allowed_bounded t identifier rl granted last Hinv Hlt Hb) as Hstepb.
    destruct (is_allowed_spec t identifier rl) as (_ & _ & _ & Hm & Hw).
    rewrite Ea in Hstep, Hstepb, Hm, Hw. cbn [fst snd] in Hstep, Hstepb, Hm, Hw.
    rewrite <- Hm, <- Hw. apply (IH rl' _ t Hstep); [|exact Hs'].
    rewrite Hm, Hw. exact Hstepb.
Qed.

(** X19.  At any time after a run of requests that arrive in the order of
    the clock, the requests that a fresh rate limiter has allowed to one
    identifier within the last [window_seconds] seconds are at most
    [max_requests]. *)
Theorem never_more_than_max_in_window (max_requests window_seconds : Z)
    (calls : list (Q * string)) (now : Q) (identifier : string) :
  StronglySorted Qle (map fst calls ++ [now]) ->
  (0 <= max_requests)%Z ->
  (Z.of_nat (List.length
     (in_window window_seconds now identifier
        (fst (serve calls (new max_requests window_seconds) []))))
   <= max_requests)%Z.
Proof.
  intros Hs Hmax.
  assert (Hs' : StronglySorted Qle
                  (match map fst calls ++ [now] with x :: _ => x | [] => now end
                   :: map fst calls ++ [now])).
  { destruct (map fst calls ++ [now]) as [|x l] eqn:E; [destruct calls; discriminate|].
    constructor; [exact Hs|]. inversion Hs as [|? ? _ Hall]; subst.
    constructor; [apply Qle_refl|exact Hall]. }
  set (start := match map fst calls ++ [now] with x :: _ => x | [] => now end) in Hs'.
  apply (serve_bounded calls (new max_requests window_seconds) [] start now
           (new_remembers _ _ start)); [|exact Hs'].
  intros i T _. cbn. exact Hmax.
Qed.

Lemma never_more_than_max_witness :
  (Z.of_nat (List.length
     (in_window 60 40 "10.0.0.1" (fst (serve example_calls (new 2 60) []))))
   <= 2)%Z.
Proof.
  apply (never_more_than_max_in_window 2 60 example_calls 40 "10.0.0.1").
  - cbn. repeat constructor; unfold Qle; cbn; lia.
  - lia.
Defined.

Lemma store_keys (identifier : string) (l : list Q) (d : Requests) :
  map fst (store identifier l d)
  = if mem_str identifier (map fst d) then map fst d else map fst d ++ [identifier].
Proof.
  induction d as [|[k l'] r IH]; cbn [store map fst mem_str existsb]; [reflexivity|].
  rewrite (String.eqb_sym identifier k).
  destruct (String.eqb k identifier) eqn:E; cbn [orb map fst]; [reflexivity|].
  rewrite IH. unfold mem_str. now destruct (existsb (String.eqb identifier) (map fst r)).
Qed.

Lemma mem_str_iff (x : string) (l : list string) : mem_str x l = true <-> In x l.
Proof.
  induction l as [|y r IH]; cbn; [split; [discriminate|tauto]|].
  rewrite orb_true_iff, IH, String.eqb_eq. intuition congruence.
Qed.

Lemma store_unique (identifier : string) (l : list Q) (d : Requests) :
  NoDup (map fst d) -> NoDup (map fst (store identifier l d)).
Proof.
  intros Hd. rewrite store_keys.
  destruct (mem_str identifier (map fst d)) eqn:E; [exact Hd|].
  apply NoDup_app; [exact Hd|repeat constructor; cbn; tauto|].
  intros x Hx [<-|[]]. apply mem_str_iff in Hx. congruence.
Qed.

(** The dictionary of a limiter holds each identifier once, whatever
    calls it has served. *)
Lemma is_allowed_unique (now : Q) (identifier : string) (rl : t) :
  NoDup (map fst (_requests rl)) ->
  NoDup (map fst (_requests (snd (is_allowed now identifier rl)))).
Proof.
  intros Hd. unfold is_allowed.
  set (d := match lookup identifier (_requests rl) with
            | Some _ => _requests rl
            | None => store identifier [] (_requests rl)
            end).
  assert (Hd' : NoDup (map fst d)).
  { subst d. destruct (lookup identifier (_requests rl)); [exact Hd|].
    now apply store_unique. }
  destruct (Z.geb _ _); cbn [snd _requests]; repeat apply store_unique; exact Hd'.
Qed.

Lemma get_list_absent (identifier : string) (d : Requests) :
  ~ In identifier (map fst d) -> get_list identifier d = [].
Proof.
  unfold get_list, lookup. induction d as [|[k l] r IH]; cbn; [reflexivity|].
  intros Hn. destruct (String.eqb k identifier) eqn:E.
  - apply String.eqb_eq in E. tauto.
  - apply IH. tauto.
Qed.

Lemma cleanup_keys (now : Q) (rl : t) (k : string) :
  In k (map fst (_requests (cleanup now rl))) -> In k (map fst (_requests rl)).
Proof.
  cbn [cleanup _requests]. induction (_requests rl) as [|[k' l] r IH];
    cbn [flat_map map fst snd In]; [tauto|].
  destruct (recent (now - inject_Z (window_seconds rl)) l); cbn [app map fst In]; tauto.
Qed.

Lemma get_list_cleanup (now : Q) (rl : t) (identifier : string) :
  NoDup (map fst (_requests rl)) ->
  get_list identifier (_requests (cleanup now rl))
  = recent (now - inject_Z (window_seconds rl)) (get_list identifier (_requests rl)).
Proof.
  destruct rl as [m w d]. cbn [cleanup _requests window_seconds max_requests].
  induction d as [|[k l] r IH]; intros Hd; [reflexivity|].
  inversion Hd as [|? ? Hk Hr]; subst. cbn [flat_map fst snd].
  unfold get_list at 2, lookup. cbn [first fst].
  destruct (String.eqb k identifier) eqn:E.
  - apply String.eqb_eq in E. subst k. cbn [snd].
    destruct (recent (now - inject_Z w) l) as [|x l'] eqn:El.
    + cbn [app]. apply get_list_absent. intros Hin.
      apply Hk. now apply (cleanup_keys now {| max_requests := m; window_seconds := w;
                                              _requests := r |}).
    + cbn [app]. unfold get_list, lookup. cbn [first fst]. now rewrite String.eqb_refl.
  - fold (lookup identifier r). fold (get_list identifier r). rewrite <- (IH Hr).
    destruct (recent (now - inject_Z w) l) as [|x l']; cbn [app]; [reflexivity|].
    unfold get_list, lookup. cbn [first fst]. now rewrite E.
Qed.

(** X20.  [cleanup] changes no answer: on a limiter whose dictionary holds
    each identifier once, a request that comes no earlier than the cleanup
    is answered as without the cleanup, and leaves the same timestamps for
    its identifier; no identifier is left with an empty list. *)
Theorem cleanup_keeps_decisions (cleaned_at now : Q) (identifier : string) (rl : t) :
  NoDup (map fst (_requests rl)) ->
  cleaned_at <= now ->
  fst (is_allowed now identifier (cleanup cleaned_at rl))
  = fst (is_allowed now identifier rl)
  /\ get_list identifier
       (_requests (snd (is_allowed now identifier (cleanup cleaned_at rl))))
     = get_list identifier (_requests (snd (is_allowed now identifier rl)))
  /\ Forall (fun kv => snd kv <> []) (_requests (cleanup cleaned_at rl)).
Proof.
  intros Hd Hle.
  destruct (is_allowed_spec now identifier rl) as (D1 & L1 & _).
  destruct (is_allowed_spec now identifier (cleanup cleaned_at rl)) as (D2 & L2 & _).
  cbv zeta in *.
  rewrite (get_list_cleanup cleaned_at rl identifier Hd) in D2, L2.
  cbn [cleanup window_seconds max_requests] in D2, L2.
  rewrite recent_recent in D2, L2 by lra.
  split; [congruence|]. split.
  - rewrite L1, L2, D1, D2. reflexivity.
  - cbn [cleanup _requests]. clear. generalize (_requests rl). intros d.
    induction d as [|[k l] r IH]; cbn [flat_map fst snd]; [constructor|].
    destruct (recent (cleaned_at - inject_Z (window_seconds rl)) l) eqn:E; cbn [app];
      [exact IH|].
    constructor; [cbn; discriminate|exact IH].
Qed.

Lemma cleanup_keeps_decisions_witness :
  fst (is_allowed 70 "10.0.0.1" (cleanup 65 (snd (serve example_calls (new 2 60) []))))
  = fst (is_allowed 70 "10.0.0.1" (snd (serve example_calls (new 2 60) []))).
Proof.
  apply (cleanup_keeps_decisions 65 70 "10.0.0.1" (snd (serve example_calls (new 2 60) []))).
  - vm_compute. repeat constructor. cbn. tauto.
  - unfold Qle. cbn. lia.
Defined.

End RateLimiterFacts.

(** * The webhook entry point *)

Module HeliusHandlerFacts.

Import SignalProcessor.
Import AlertLifecycle.
Import HeliusHandler.

Lemma token_in_of_mint (fee_payer : string) (token_transfers : list TokenTransfer)
    (acc : Q * option string) :
  (forall m, snd acc = Some m -> String.eqb m SOL_MINT = false) ->
  forall m, snd (fold_left (fun (acc : Q * option string) tt =>
               let mint := get_or (tt_mint tt) ""%string in
               if String.eqb mint SOL_MINT then acc
               else if get_eqb (tt_toUserAccount tt) fee_payer
                    then (fst acc + get_or (tt_tokenAmount tt) 0, Some mint)
                    else acc) token_transfers acc) = Some m ->
            String.eqb m SOL_MINT = false.
Proof.
  revert acc. induction token_transfers as [|tt r IH]; intros acc Hacc; [exact Hacc|].
  cbn [fold_left]. apply IH. cbv zeta.
  destruct (String.eqb (get_or (tt_mint tt) ""%string) SOL_MINT) eqn:E; [exact Hacc|].
  destruct (get_eqb (tt_toUserAccount tt) fee_payer); [|exact Hacc].
  cbn [snd]. intros m [= <-]. exact E.
Qed.

Lemma token_in_of_not_sol (fee_payer : string) (token_transfers : list TokenTransfer)
    (m : string) :
  snd (token_in_of fee_payer token_transfers) = Some m -> String.eqb m SOL_MINT = false.
Proof.
  unfold token_in_of. apply token_in_of_mint. cbn [snd]. discriminate.
Qed.

Lemma platform_of_cases (instructions : list Instruction) :
  In (platform_of instructions) ["pump_fun"; "raydium"; "unknown"]%string.
Proof.
  induction instructions as [|inst r IH]; cbn [platform_of]; [cbn; tauto|].
  destruct (String.eqb _ PUMP_FUN_PROGRAM); [cbn; tauto|].
  destruct (String.eqb _ RAYDIUM_AMM_PROGRAM); [cbn; tauto|exact IH].
Qed.

Section WithSettings.

Variable cfg : Settings.
Variable upper : string -> string.

(** X21.  A swap that [_parse_transaction] returns is a buy by the fee
    payer of a transaction of type SWAP: SOL went out, tokens came in, and
    the token is named, by a mint that is not wrapped SOL; the platform is
    one of the three the handler knows. *)
Theorem parse_transaction_returns_buys_only now (tx : Transaction) (p : ParsedSwap) :
  _parse_transaction upper now tx = Some p ->
  upper (get_or (tx_type tx) ""%string) = "SWAP"%string
  /\ is_buy p = true
  /\ wallet_address p = get_or (tx_feePayer tx) ""%string
  /\ 0 < sol_amount p /\ 0 < token_amount p
  /\ token_address p <> ""%string /\ token_address p <> SOL_MINT
  /\ In (platform p) ["pump_fun"; "raydium"; "unknown"]%string.
Proof.
  unfold _parse_transaction.
  destruct (String.eqb (upper (get_or (tx_type tx) ""%string)) "SWAP"%string) eqn:Et;
    cbn [negb]; [|discriminate].
  apply String.eqb_eq in Et.
  pose proof (token_in_of_not_sol (get_or (tx_feePayer tx) ""%string)
                (get_or (tx_tokenTransfers tx) [])) as Hmint.
  destruct (token_in_of _ _) as [token_in token_address] eqn:Ein.
  cbn [snd] in Hmint.
  destruct (Qgtb (sol_out_of _ _) 0) eqn:Es; cbn [andb negb]; [|discriminate].
  destruct (Qgtb token_in 0) eqn:Ei; cbn [andb negb]; [|discriminate].
  destruct token_address as [a|]; cbn [RugDetector.is_blank negb]; [|discriminate].
  destruct (String.eqb a ""%string) eqn:Ea; cbn [negb]; [discriminate|].
  intros [= <-]. cbn [is_buy wallet_address sol_amount token_amount token_address platform
                      get_or].
  apply Qgtb_iff in Es. apply Qgtb_iff in Ei. apply String.eqb_neq in Ea.
  repeat (split; [first [assumption | reflexivity]|]).
  split.
  - apply String.eqb_neq. now apply Hmint.
  - apply platform_of_cases.
Qed.

(** The call [handle_webhook] makes for a parsed swap. *)
Lemma record_cluster_event_alerts token trades (s : Session) :
  alerts (snd (_record_cluster_event token trades s)) = alerts s
  /\ wallets (snd (_record_cluster_event token trades s)) = wallets s.
Proof.
  unfold _record_cluster_event, bind, get, lift, put, ret.
  destruct (trade_addresses s trades); [|split; reflexivity].
  destruct (min_list _); [|split; reflexivity].
  destruct (max_list _); split; reflexivity.
Qed.

Lemma check_cluster_buying_any now token (s : Session) res s' :
  _check_cluster_buying cfg now token s = (res, s') ->
  alerts s' = alerts s
  /\ forall r, res = Ok r -> signal_type r = CLUSTER_BUY.
Proof.
  unfold _check_cluster_buying.
  unfold bind at 1, get at 1.
  destruct (check_cluster_condition _ _ _ _ _ _) as [is_cluster q].
  destruct is_cluster; cbn [negb].
  - unfold bind at 1, lift at 1.
    destruct (gather_cluster s q [] [] 0 0) as [[[[ws addrs] tot] mx]|];
      [|intros [= <- <-]; split; [reflexivity|discriminate]].
    unfold bind at 1.
    destruct (record_cluster_event_alerts token q s) as [Ha _].
    destruct (_record_cluster_event token q s) as [[c|] s1]; cbn [snd] in Ha;
      [|intros [= <- <-]; split; [exact Ha|discriminate]].
    unfold bind, lift. destruct (div _ _);
      [|intros [= <- <-]; split; [exact Ha|discriminate]].
    unfold ret. intros [= <- <-]. split; [exact Ha|]. now intros r [= <-].
  - unfold ret. intros [= <- <-]. split; [reflexivity|]. now intros r [= <-].
Qed.

Lemma process_any now (ev : BuyEvent) (s : Session) res s' :
  process cfg now ev s = (res, s') ->
  alerts s' = alerts s
  /\ forall sigs, res = Ok sigs ->
       Forall (fun g => signal_type g = HIGH_CONVICTION -> hc_triggered cfg ev = true)
              sigs.
Proof.
  unfold process, process_buy_event. unfold bind at 1, get at 1.
  destruct (get_by_address s (ev_wallet_address ev)) as [wallet|].
  2:{ unfold ret. intros [= <- <-]. split; [reflexivity|]. intros sigs [= <-].
      constructor. }
  unfold bind at 1, step at 1.
  pose proof (SignalProcessorFacts.get_or_create_token_frame now (ev_token_ca ev)
                (ev_market_cap ev) (ev_total_supply ev) s) as F1.
  destruct (_get_or_create_token _ _ _ _ s) as [token s1]. cbn [snd] in F1.
  destruct F1 as (_ & _ & F1 & _).
  unfold bind at 1, step at 1.
  pose proof (SignalProcessorFacts.record_trade_frame wallet token (ev_sol_amount ev)
                (ev_token_amount ev)
                (supply_percentage (ev_token_amount ev) (ev_total_supply ev))
                (ev_tx_signature ev) (ev_block_time ev) (ev_market_cap ev) s1) as F2.
  destruct (_record_trade _ _ _ _ _ _ _ _ s1) as [[trade w'] s2]. cbn [snd] in F2.
  destruct F2 as (_ & F2 & _).
  assert (Hhc : triggered (_check_high_conviction cfg w' trade token
                  (supply_percentage (ev_token_amount ev) (ev_total_supply ev))
                  (ev_sol_amount ev)) = hc_triggered cfg ev) by reflexivity.
  set (hc := _check_high_conviction _ _ _ _ _ _) in *. clearbody hc.
  unfold bind at 1.
  destruct (_check_cluster_buying cfg now token s2) as [[cl|e] s2'] eqn:Ecl;
    apply check_cluster_buying_any in Ecl; destruct Ecl as [F3 Hcl].
  2:{ intros [= <- <-]. split; [congruence|discriminate]. }
  specialize (Hcl cl eq_refl).
  destruct (SignalProcessorFacts.check_volume_spike_ok cfg now token s2')
    as (vs & Hvs & Hvty & _).
  assert (H0 : Forall (fun g => signal_type g = HIGH_CONVICTION ->
                                hc_triggered cfg ev = true)
                 (if triggered hc then [] ++ [hc] else [])).
  { destruct (triggered hc) eqn:Eh; [|constructor].
    constructor; [|constructor]. intros _. now rewrite <- Hhc. }
  assert (H1 : Forall (fun g => signal_type g = HIGH_CONVICTION ->
                                hc_triggered cfg ev = true)
                 (if triggered cl
                  then (if triggered hc then [] ++ [hc] else []) ++ [cl]
                  else (if triggered hc then [] ++ [hc] else []))).
  { destruct (triggered cl); [|exact H0]. apply Forall_app. split; [exact H0|].
    constructor; [|constructor]. rewrite Hcl. discriminate. }
  destruct (Qleb (age_minutes now token) _).
  - unfold bind. rewrite Hvs. unfold ret. intros [= <- <-].
    split; [congruence|]. intros sigs [= <-].
    destruct (triggered vs); [|exact H1]. apply Forall_app. split; [exact H1|].
    constructor; [|constructor]. rewrite Hvty. discriminate.
  - unfold ret. intros [= <- <-]. split; [congruence|]. intros sigs [= <-]. exact H1.
Qed.

Lemma create_alert_state now signal skip (s : Session) :
  (exists alert, create_alert now signal skip s = (Ok (Some alert), add_alert alert s))
  \/ (snd (create_alert now signal skip s) = s
      /\ forall alert, fst (create_alert now signal skip s) <> Ok (Some alert)).
Proof.
  unfold create_alert. destruct (sr_token signal) as [token|];
    [|right; split; [reflexivity|discriminate]].
  destruct (skip && rug_checked signal && negb (rug_passed signal));
    [right; split; [reflexivity|discriminate]|].
  unfold bind, get, lift, put, ret.
  destruct (avg_win_rate_of signal); [left; eauto|right; split; [reflexivity|discriminate]].
Qed.

(** What one pass of the inner loop adds: for each entry of the returned
    list one new alert row, in the same order. *)
Lemma create_alerts_spec now token (signals : list SignalResult) (infos : list AlertInfo)
    (s : Session) :
  exists new_infos new,
    fst (create_alerts now token signals infos s) = infos ++ new_infos
    /\ alerts (snd (create_alerts now token signals infos s)) = alerts s ++ new
    /\ wallets (snd (create_alerts now token signals infos s)) = wallets s
    /\ tokens (snd (create_alerts now token signals infos s)) = tokens s
    /\ trades (snd (create_alerts now token signals infos s)) = trades s
    /\ cluster_events (snd (create_alerts now token signals infos s)) = cluster_events s
    /\ map al_id new = map ai_alert_id new_infos
    /\ map al_alert_type new = map ai_type new_infos
    /\ Forall (fun a => al_is_sent a = false /\ al_created_at a = now
                        /\ al_outcome_pnl a = None) new
    /\ incl (map ai_type new_infos) (map signal_type signals)
    /\ Forall (fun i => ai_token i = token) new_infos.
Proof.
  revert infos s. induction signals as [|signal rest IH]; intros infos s.
  - exists [], []. cbn. rewrite !app_nil_r. repeat split; auto. intros x [].
  - cbn [create_alerts]. destruct (triggered signal).
    + destruct (create_alert_state now signal true s) as [[alert Ha]|[Hs Hn]].
      * rewrite Ha. pose proof (AlertLifecycleFacts.create_alert_created _ _ _ _ _ _ Ha)
          as (_ & _ & Hsent & Hp & _ & Hc & Hty & _).
        destruct (IH (infos ++ [{| ai_alert_id := al_id alert;
                                   ai_type := signal_type signal;
                                   ai_token := token |}]) (add_alert alert s))
          as (ni & new & E1 & E2 & E3 & E4 & E5 & E6 & E7 & E8 & E9 & E10 & E11).
        exists ({| ai_alert_id := al_id alert; ai_type := signal_type signal;
                   ai_token := token |} :: ni), (alert :: new).
        rewrite E1, E2, E3, E4, E5, E6. cbn [add_alert alerts wallets tokens trades
                                            cluster_events map].
        rewrite <- !app_assoc. cbn [app]. rewrite E7, E8, Hty.
        repeat (split; [reflexivity|]).
        split; [constructor; auto|].
        split; [|constructor; [reflexivity|exact E11]].
        intros x [<-|Hx]; [now left|right; now apply E10].
      * exists [], [].
        destruct (create_alert now signal true s) as [[[alert|]|e] s'];
          cbn [fst snd] in *; subst s'; try (now exfalso; apply (Hn alert));
          rewrite !app_nil_r; repeat split; auto; intros x [].
    + destruct (IH infos s)
        as (ni & new & E1 & E2 & E3 & E4 & E5 & E6 & E7 & E8 & E9 & E10 & E11).
      exists ni, new. repeat (split; [assumption|]).
      split; [|exact E11]. intros x Hx. right. now apply E10.
Qed.

Lemma handle_transaction_spec now tracked (tx : Transaction) (infos : list AlertInfo)
    (s : Session) :
  exists new_infos new,
    fst (handle_transaction cfg upper now tracked tx infos s) = infos ++ new_infos
    /\ alerts (snd (handle_transaction cfg upper now tracked tx infos s)) = alerts s ++ new
    /\ map al_id new = map ai_alert_id new_infos
    /\ map al_alert_type new = map ai_type new_infos
    /\ Forall (fun a => al_is_sent a = false /\ al_created_at a = now
                        /\ al_outcome_pnl a = None) new
    /\ Forall (fun i => ai_type i = HIGH_CONVICTION ->
                        high_conviction_min_supply_pct cfg <= 0) new_infos.
Proof.
  unfold handle_transaction.
  destruct (_parse_transaction upper now tx) as [parsed|];
    [|exists [], []; cbn; rewrite !app_nil_r; auto 10].
  destruct (is_buy parsed && mem_str (wallet_address parsed) tracked);
    [|exists [], []; cbn; rewrite !app_nil_r; auto 10].
  change (process_buy_event cfg now (wallet_address parsed) (token_address parsed)
            (sol_amount parsed) (token_amount parsed) (tx_signature_of parsed)
            (block_time parsed) None None s)
    with (process cfg now (webhook_event parsed) s).
  destruct (process cfg now (webhook_event parsed) s) as [[signals|e] s'] eqn:Ep;
    apply process_any in Ep; destruct Ep as [Fa Hsig].
  2:{ exists [], []. cbn [fst snd]. rewrite !app_nil_r, Fa. auto 10. }
  specialize (Hsig signals eq_refl).
  destruct (create_alerts_spec now (token_address parsed) signals infos s')
    as (ni & new & E1 & E2 & _ & _ & _ & _ & E7 & E8 & E9 & E10 & _).
  exists ni, new. rewrite E1, E2, Fa. repeat (split; [first [reflexivity|assumption]|]).
  rewrite Forall_forall. intros i Hi Hty.
  assert (Hin : In (ai_type i) (map signal_type signals)).
  { apply E10. now apply in_map. }
  apply in_map_iff in Hin. destruct Hin as (g & Hg & Hgin).
  rewrite Forall_forall in Hsig. specialize (Hsig g Hgin).
  rewrite Hg, Hty in Hsig. specialize (Hsig eq_refl).
  unfold hc_triggered in Hsig. apply andb_true_iff in Hsig. destruct Hsig as [_ Hsig].
  cbn in Hsig. now apply Qgeb_iff in Hsig.
Qed.

Lemma handle_webhook_spec now tracked (payload : list Transaction)
    (infos : list AlertInfo) (s : Session) :
  exists new_infos new,
    fst (fold_left (fun acc tx =>
           handle_transaction cfg upper now tracked tx (fst acc) (snd acc))
           payload (infos, s)) = infos ++ new_infos
    /\ alerts (snd (fold_left (fun acc tx =>
           handle_transaction cfg upper now tracked tx (fst acc) (snd acc))
           payload (infos, s))) = alerts s ++ new
    /\ map al_id new = map ai_alert_id new_infos
    /\ map al_alert_type new = map ai_type new_infos
    /\ Forall (fun a => al_is_sent a = false /\ al_created_at a = now
                        /\ al_outcome_pnl a = None) new
    /\ Forall (fun i => ai_type i = HIGH_CONVICTION ->
                        high_conviction_min_supply_pct cfg <= 0) new_infos.
Proof.
  revert infos s. induction payload as [|tx rest IH]; intros infos s.
  - exists [], []. cbn. rewrite !app_nil_r. auto 10.
  - cbn [fold_left fst snd].
    destruct (handle_transaction_spec now tracked tx infos s)
      as (n1 & a1 & E1 & E2 & E3 & E4 & E5 & E6).
    destruct (handle_transaction cfg upper now tracked tx infos s) as [infos1 s1].
    cbn [fst snd] in E1, E2.
    destruct (IH infos1 s1) as (n2 & a2 & G1 & G2 & G3 & G4 & G5 & G6).
    exists (n1 ++ n2), (a1 ++ a2).
    rewrite G1, G2, E1, E2, <- !app_assoc, !map_app, E3, E4, G3, G4.
    repeat (split; [reflexivity|]).
    split; apply Forall_app; auto.
Qed.

(** X22.  [handle_webhook] only appends to the alert table: one new row
    for each entry of the list it returns, in the same order, with the id
    and the type of the entry, unsent, without outcome and created at the
    time of the call.  This holds also when the processing of some
    transaction raises. *)
Theorem handle_webhook_appends_one_alert_per_entry now tracked
    (payload : list Transaction) (s : Session) :
  exists new,
    alerts (snd (handle_webhook cfg upper now tracked payload s)) = alerts s ++ new
    /\ map al_id new
       = map ai_alert_id (fst (handle_webhook cfg upper now tracked payload s))
    /\ map al_alert_type new
       = map ai_type (fst (handle_webhook cfg upper now tracked payload s))
    /\ Forall (fun a => al_is_sent a = false /\ al_created_at a = now
                        /\ al_outcome_pnl a = None) new.
Proof.
  unfold handle_webhook.
  destruct (handle_webhook_spec now tracked payload [] s)
    as (ni & new & E1 & E2 & E3 & E4 & E5 & _).
  exists new. rewrite E1, E2. cbn [app]. auto.
Qed.

(** X23.  The webhook passes no total supply to [process_buy_event], so
    the share of the supply a buy takes is 0 there: with a positive
    minimum share (the default is 0.5) [handle_webhook] returns no
    high-conviction entry and adds no high-conviction alert. *)
Theorem handle_webhook_never_high_conviction now tracked
    (payload : list Transaction) (s : Session) :
  0 < high_conviction_min_supply_pct cfg ->
  Forall (fun i => ai_type i <> HIGH_CONVICTION)
         (fst (handle_webhook cfg upper now tracked payload s))
  /\ exists new,
       alerts (snd (handle_webhook cfg upper now tracked payload s)) = alerts s ++ new
       /\ Forall (fun a => al_alert_type a <> HIGH_CONVICTION) new.
Proof.
  intros Hpos. unfold handle_webhook.
  destruct (handle_webhook_spec now tracked payload [] s)
    as (ni & new & E1 & E2 & _ & E4 & _ & E6).
  rewrite E1, E2. cbn [app].
  assert (Hni : Forall (fun i => ai_type i <> HIGH_CONVICTION) ni).
  { eapply Forall_impl; [|exact E6]. cbn beta. intros i Hi Hty.
    specialize (Hi Hty). lra. }
  split; [exact Hni|]. exists new. split; [reflexivity|].
  rewrite Forall_forall. intros a Ha Hty.
  assert (Hin : In (al_alert_type a) (map ai_type ni)).
  { rewrite <- E4. now apply in_map. }
  apply in_map_iff in Hin. destruct Hin as (i & Hi & Hiin).
  rewrite Forall_forall in Hni. apply (Hni i Hiin). congruence.
Qed.

(** X24.  A payload in which no transaction parses as a buy of a tracked
    wallet changes nothing and returns no entry. *)
Theorem handle_webhook_ignores_other_transactions now tracked
    (payload : list Transaction) (s : Session) :
  Forall (fun tx => match _parse_transaction upper now tx with
                    | Some p => mem_str (wallet_address p) tracked = false
                    | None => True
                    end) payload ->
  handle_webhook cfg upper now tracked payload s = ([], s).
Proof.
  unfold handle_webhook. generalize (@nil AlertInfo).
  induction 1 as [|tx rest Htx _ IH]; [reflexivity|].
  cbn [fold_left fst snd].
  assert (Hstep : handle_transaction cfg upper now tracked tx l s = (l, s)).
  { unfold handle_transaction.
    destruct (_parse_transaction upper now tx) as [p|]; [|reflexivity].
    now rewrite Htx, andb_false_r. }
  rewrite Hstep. exact IH.
Qed.

End WithSettings.

Lemma parse_transaction_witness :
  exists p, _parse_transaction same_case 2000 (swap_of "W1" "sig9") = Some p
            /\ 0 < sol_amount p /\ token_address p <> SOL_MINT.
Proof.
  eexists. split; [vm_compute; reflexivity|].
  destruct (parse_transaction_returns_buys_only same_case 2000 (swap_of "W1" "sig9") _
              eq_refl) as (_ & _ & _ & H1 & _ & _ & H2 & _).
  split; assumption.
Defined.

Lemma handle_webhook_never_high_conviction_witness :
  Forall (fun i => ai_type i <> HIGH_CONVICTION)
         (fst (handle_webhook settings same_case 2000 ["W1"%string]
                 [swap_of "W1" "sig9"] example_session)).
Proof.
  apply (handle_webhook_never_high_conviction settings same_case 2000 ["W1"%string]
           [swap_of "W1" "sig9"] example_session).
  reflexivity.
Defined.

Lemma handle_webhook_ignores_witness :
  handle_webhook settings same_case 2000 ["W1"%string] [swap_of "W9" "sig9"]
    example_session = ([], example_session).
Proof.
  apply (handle_webhook_ignores_other_transactions settings same_case 2000 ["W1"%string]
           [swap_of "W9" "sig9"] example_session).
  repeat constructor.
Defined.

(** A buy of 2 SOL by a tracked wallet meets the SOL threshold of a
    high-conviction buy, and is recorded; through the webhook it raises no
    alert. *)
Example scenario_webhook_buy_raises_no_alert :
  let r := handle_webhook settings same_case 2000 ["W1"%string]
             [swap_of "W1" "sig9"] example_session in
  fst r = [] /\ List.length (trades (snd r)) = 1%nat /\ alerts (snd r) = [].
Proof. vm_compute. repeat split. Qed.

End HeliusHandlerFacts.

(** * The summary of a backtest *)

Module BacktestStatsFacts.

Import Backtester.

Lemma fold_max_spec (l : list Q) (m : Q) :
  m <= fold_left (fun m y => if Qgtb y m then y else m) l m
  /\ Forall (fun y => y <= fold_left (fun m y => if Qgtb y m then y else m) l m) l.
Proof.
  revert m. induction l as [|x r IH]; intros m; cbn [fold_left].
  - split; [lra|constructor].
  - destruct (Qgtb x m) eqn:E.
    + apply Qgtb_iff in E. destruct (IH x) as [H1 H2].
      split; [lra|]. constructor; [exact H1|exact H2].
    + apply Qgtb_false_iff in E. destruct (IH m) as [H1 H2].
      split; [exact H1|]. constructor; [lra|exact H2].
Qed.

Lemma fold_min_spec (l : list Q) (m : Q) :
  fold_left (fun m y => if Qltb y m then y else m) l m <= m
  /\ Forall (fun y => fold_left (fun m y => if Qltb y m then y else m) l m <= y) l.
Proof.
  revert m. induction l as [|x r IH]; intros m; cbn [fold_left].
  - split; [lra|constructor].
  - destruct (Qltb x m) eqn:E.
    + apply Qltb_iff in E. destruct (IH x) as [H1 H2].
      split; [lra|]. constructor; [exact H1|exact H2].
    + apply Qltb_false_iff in E. destruct (IH m) as [H1 H2].
      split; [exact H1|]. constructor; [lra|exact H2].
Qed.

Lemma fold_max_In (l : list Q) (m : Q) :
  In (fold_left (fun m y => if Qgtb y m then y else m) l m) (m :: l).
Proof.
  revert m. induction l as [|x r IH]; intros m; cbn [fold_left]; [now left|].
  destruct (Qgtb x m).
  - right. apply IH.
  - destruct (IH m) as [H|H]; [now left|right; now right].
Qed.

Lemma fold_min_In (l : list Q) (m : Q) :
  In (fold_left (fun m y => if Qltb y m then y else m) l m) (m :: l).
Proof.
  revert m. induction l as [|x r IH]; intros m; cbn [fold_left]; [now left|].
  destruct (Qltb x m).
  - right. apply IH.
  - destruct (IH m) as [H|H]; [now left|right; now right].
Qed.

Lemma count_partition (l : list BacktestTrade) :
  (count (filter (fun t => Qgtb (pnl_pct t) 0) l)
   + count (filter (fun t => Qleb (pnl_pct t) 0) l) = count l)%Z.
Proof.
  unfold count. induction l as [|t l IH]; cbn [filter List.length]; [reflexivity|].
  unfold Qgtb, Qleb in *. destruct (Qle_bool (pnl_pct t) 0); cbn [negb List.length]; lia.
Qed.

(** The fields [_calculate_stats] sets on a result with trades. *)
Lemma calculate_stats_fields (r : BacktestResult) :
  trades r <> [] ->
  exists r' best worst hc cb vs,
    _calculate_stats r = Ok r'
    /\ trades r' = trades r
    /\ total_trades r' = count (trades r)
    /\ winning_trades r' = count (filter (fun t => Qgtb (pnl_pct t) 0) (trades r))
    /\ losing_trades r' = count (filter (fun t => Qleb (pnl_pct t) 0) (trades r))
    /\ win_rate r'
       = inject_Z (count (filter (fun t => Qgtb (pnl_pct t) 0) (trades r)))
         / inject_Z (count (trades r)) * 100
    /\ avg_pnl_pct r' = sum (map pnl_pct (trades r)) / inject_Z (count (trades r))
    /\ max_list (map pnl_pct (trades r)) = Ok best /\ best_trade_pct r' = best
    /\ min_list (map pnl_pct (trades r)) = Ok worst /\ worst_trade_pct r' = worst
    /\ max_drawdown_pct r' = max_drawdown (trades r)
    /\ type_stats (trades r) HIGH_CONVICTION = Ok hc
    /\ type_stats (trades r) CLUSTER_BUY = Ok cb
    /\ type_stats (trades r) VOLUME_SPIKE = Ok vs
    /\ stats_by_type r'
       = fold_left (fun d kv => dict_set (fst kv) (snd kv) d) (hc ++ cb ++ vs)
           (stats_by_type r).
Proof.
  unfold _calculate_stats. destruct (trades r) as [|t ts] eqn:E; [congruence|].
  intros _.
  assert (Hpos : Z.ltb 0 (count (t :: ts)) = true).
  { apply Z.ltb_lt. unfold count. cbn [List.length]. lia. }
  rewrite Hpos. rewrite !(div_ok _ _ (BacktesterFacts.count_nonzero t ts)).
  cbn [rbind map]. cbn [max_list min_list rbind].
  set (gl := gross_loss (t :: ts)). set (gp := gross_profit (t :: ts)).
  destruct (BacktesterFacts.type_stats_ok (t :: ts) HIGH_CONVICTION) as [d1 H1].
  destruct (BacktesterFacts.type_stats_ok (t :: ts) CLUSTER_BUY) as [d2 H2].
  destruct (BacktesterFacts.type_stats_ok (t :: ts) VOLUME_SPIKE) as [d3 H3].
  rewrite H1, H2, H3.
  destruct (Qgtb gl 0) eqn:Eg.
  - apply Qgtb_iff in Eg. rewrite div_ok by lra. cbn [rbind].
    do 6 eexists. split; [reflexivity|]. cbn. auto 20.
  - cbn [rbind]. do 6 eexists. split; [reflexivity|]. cbn. auto 20.
Qed.

(** X25.  On a result with trades, [_calculate_stats] counts every trade
    once, as a winner or as a loser; the win rate lies between 0 and 100;
    the best and the worst trade it reports are the PnL of trades of the
    run, and the PnL of every trade lies between the two.  (The average is
    left out: it is a quotient of a sum, which rounds.) *)
Theorem calculate_stats_summary_consistent (r r' : BacktestResult) :
  trades r <> [] ->
  _calculate_stats r = Ok r' ->
  total_trades r' = Z.of_nat (List.length (trades r))
  /\ (winning_trades r' + losing_trades r' = total_trades r')%Z
  /\ 0 <= win_rate r' <= 100
  /\ In (best_trade_pct r') (map pnl_pct (trades r))
  /\ In (worst_trade_pct r') (map pnl_pct (trades r))
  /\ Forall (fun t => worst_trade_pct r' <= pnl_pct t <= best_trade_pct r') (trades r).
Proof.
  intros Hne Hr.
  destruct (calculate_stats_fields r Hne)
    as (r0 & best & worst & hc & cb & vs & Hr0 & _ & Ht & Hw & Hl & Hwr & _
        & Hmax & Hb & Hmin & Hwo & _).
  rewrite Hr in Hr0. injection Hr0 as <-.
  rewrite Ht, Hw, Hl, Hwr, Hb, Hwo. clear Ht Hw Hl Hwr Hb Hwo Hr.
  pose proof (count_partition (trades r)) as Hpart.
  assert (Hn : 0 < inject_Z (count (trades r))).
  { destruct (trades r) as [|t ts]; [congruence|]. exact (len_pos t ts). }
  assert (Hbounds : In best (map pnl_pct (trades r))
                    /\ In worst (map pnl_pct (trades r))
                    /\ Forall (fun x => worst <= x <= best) (map pnl_pct (trades r))).
  { destruct (map pnl_pct (trades r)) as [|x l] eqn:El.
    - destruct (trades r); [congruence|discriminate].
    - cbn [max_list min_list] in Hmax, Hmin.
      injection Hmax as <-. injection Hmin as <-.
      destruct (fold_max_spec l x) as [A1 A2]. destruct (fold_min_spec l x) as [B1 B2].
      split; [apply fold_max_In|]. split; [apply fold_min_In|].
      constructor; [split; assumption|].
      rewrite Forall_forall in *. intros y Hy. split; [now apply B2|now apply A2]. }
  destruct Hbounds as (Hbin & Hwin & Hbounds).
  split; [reflexivity|]. split; [exact Hpart|].
  split.
  { set (w := count (filter (fun t => Qgtb (pnl_pct t) 0) (trades r))) in *.
    set (n := count (trades r)) in *.
    assert (Hw0 : 0 <= inject_Z w).
    { unfold w, count. apply ConvictionCalculatorFacts.inject_nat_nonneg. }
    assert (Hwn : inject_Z w <= inject_Z n).
    { rewrite <- Zle_Qle.
      assert (0 <= count (filter (fun t => Qleb (pnl_pct t) 0) (trades r)))%Z
        by (unfold count; lia).
      lia. }
    assert (H0 : 0 <= inject_Z w / inject_Z n).
    { apply Qle_shift_div_l; [exact Hn|]. lra. }
    assert (H1 : inject_Z w / inject_Z n <= 1).
    { apply Qle_shift_div_r; [exact Hn|]. lra. }
    lra. }
  split; [exact Hbin|]. split; [exact Hwin|].
  rewrite Forall_map in Hbounds. exact Hbounds.
Qed.

Lemma calculate_stats_summary_witness :
  exists r', _calculate_stats winning_run = Ok r'
             /\ (winning_trades r' + losing_trades r' = total_trades r')%Z
             /\ 0 <= win_rate r' <= 100.
Proof.
  eexists. split; [vm_compute; reflexivity|].
  destruct (calculate_stats_summary_consistent winning_run _ ltac:(discriminate) eq_refl)
    as (_ & H1 & H2 & _).
  split; assumption.
Defined.

Lemma drawdown_fold (l : list BacktestTrade) (c p m : Q) :
  c <= p -> 0 <= m ->
  fst (fst (fold_left drawdown_step l (c, p, m)))
    <= snd (fst (fold_left drawdown_step l (c, p, m)))
  /\ m <= snd (fold_left drawdown_step l (c, p, m))
  /\ Forall (fun t => - pnl_pct t <= snd (fold_left drawdown_step l (c, p, m))) l.
Proof.
  revert c p m. induction l as [|t l IH]; intros c p m Hcp Hm; cbn [fold_left].
  - cbn. split; [exact Hcp|]. split; [lra|constructor].
  - set (c' := c + pnl_pct t). set (p' := Py.max p c').
    set (m' := Py.max m (p' - c')).
    change (drawdown_step (c, p, m) t) with (c', p', m').
    assert (Hp' : c' <= p') by apply py_max_ge_r.
    assert (Hpp : p <= p') by apply py_max_ge_l.
    assert (Hm' : m <= m') by apply py_max_ge_l.
    assert (Hd : p' - c' <= m') by apply py_max_ge_r.
    destruct (IH c' p' m' Hp' ltac:(lra)) as (H1 & H2 & H3).
    split; [exact H1|]. split; [lra|].
    constructor; [|exact H3]. unfold c' in *. unfold datetime in *. lra.
Qed.

Lemma drawdown_fold_zero (l : list BacktestTrade) (c p m : Q) :
  Forall (fun t => 0 <= pnl_pct t) l -> p == c -> m == 0 ->
  snd (fold_left drawdown_step l (c, p, m)) == 0.
Proof.
  intros Hl. revert c p m. induction Hl as [|t l Ht _ IH]; intros c p m Hpc Hm;
    cbn [fold_left].
  - exact Hm.
  - set (c' := c + pnl_pct t). set (p' := Py.max p c').
    change (drawdown_step (c, p, m) t) with (c', p', Py.max m (p' - c')).
    assert (Hp' : p' == c').
    { apply Qle_antisym; [apply py_max_lub; unfold c'; lra|apply py_max_ge_r]. }
    apply IH; [exact Hp'|].
    apply Qle_antisym; [apply py_max_lub; lra|].
    assert (m <= Py.max m (p' - c')) by apply py_max_ge_l. lra.
Qed.

(** X26.  The maximal drawdown that [_calculate_stats] reports is never
    negative, is at least the loss of the first trade (the peak starts at
    0), and is 0 when no trade has lost.  (A later loss is measured against
    a running sum, which rounds.) *)
Theorem calculate_stats_drawdown (r r' : BacktestResult) :
  trades r <> [] ->
  _calculate_stats r = Ok r' ->
  0 <= max_drawdown_pct r'
  /\ match trades r with
     | t :: _ => - pnl_pct t <= max_drawdown_pct r'
     | [] => True
     end
  /\ (Forall (fun t => 0 <= pnl_pct t) (trades r) -> max_drawdown_pct r' == 0).
Proof.
  intros Hne Hr.
  destruct (calculate_stats_fields r Hne)
    as (r0 & best & worst & hc & cb & vs & Hr0 & _ & _ & _ & _ & _ & _ & _ & _ & _ & _
        & Hdd & _).
  rewrite Hr in Hr0. injection Hr0 as <-. rewrite Hdd. unfold max_drawdown.
  destruct (drawdown_fold (trades r) 0 0 0 ltac:(lra) ltac:(lra)) as (_ & H1 & H2).
  split; [exact H1|]. split.
  - destruct (trades r) as [|t l]; [exact I|]. now inversion H2.
  - intros Hall. apply drawdown_fold_zero; [exact Hall|reflexivity|reflexivity].
Qed.

Lemma calculate_stats_drawdown_witness :
  exists r', _calculate_stats winning_run = Ok r' /\ max_drawdown_pct r' == 0.
Proof.
  eexists. split; [vm_compute; reflexivity|].
  destruct (calculate_stats_drawdown winning_run _ ltac:(discriminate) eq_refl)
    as (_ & _ & H).
  apply H. repeat constructor; cbn; lra.
Defined.

Lemma type_stats_shape (trades : list BacktestTrade) (ty : SignalType) :
  (filter (fun t => SignalType_eqb (signal_type t) ty) trades = []
   /\ type_stats trades ty = Ok [])
  \/ exists st x xs,
       filter (fun t => SignalType_eqb (signal_type t) ty) trades = x :: xs
       /\ type_stats trades ty = Ok [(ty, st)]
       /\ ts_trades st = count (x :: xs).
Proof.
  unfold type_stats.
  destruct (filter _ trades) as [|x xs]; [left; auto|right].
  rewrite !(div_ok _ _ (len_nonzero x xs)). cbn [rbind].
  eexists. exists x, xs. split; [reflexivity|]. split; reflexivity.
Qed.

Lemma count_by_type (l : list BacktestTrade) :
  (count (filter (fun t => SignalType_eqb (signal_type t) HIGH_CONVICTION) l)
   + count (filter (fun t => SignalType_eqb (signal_type t) CLUSTER_BUY) l)
   + count (filter (fun t => SignalType_eqb (signal_type t) VOLUME_SPIKE) l)
   = count l)%Z.
Proof.
  unfold count. induction l as [|t l IH]; cbn [filter List.length]; [reflexivity|].
  destruct (signal_type t); cbn [SignalType_eqb List.length]; lia.
Qed.

Lemma existsb_filter {A : Type} (p : A -> bool) (l : list A) :
  existsb p l = match filter p l with [] => false | _ => true end.
Proof.
  induction l as [|x l IH]; cbn [existsb filter]; [reflexivity|].
  destruct (p x); [reflexivity|exact IH].
Qed.

(** X27.  In a result that starts without per-type entries,
    [_calculate_stats] leaves one entry for each signal type that has
    trades, in the order of the enumeration, none of them empty, and the
    trades of the entries add up to the total. *)
Theorem calculate_stats_by_type_partition (r r' : BacktestResult) :
  trades r <> [] ->
  stats_by_type r = [] ->
  _calculate_stats r = Ok r' ->
  map fst (stats_by_type r')
  = filter (fun ty => existsb (fun t => SignalType_eqb (signal_type t) ty) (trades r))
           [HIGH_CONVICTION; CLUSTER_BUY; VOLUME_SPIKE]
  /\ Forall (fun kv => (0 < ts_trades (snd kv))%Z) (stats_by_type r')
  /\ fold_right Z.add 0%Z (map (fun kv => ts_trades (snd kv)) (stats_by_type r'))
     = total_trades r'.
Proof.
  intros Hne Hs Hr.
  destruct (calculate_stats_fields r Hne)
    as (r0 & best & worst & hc & cb & vs & Hr0 & _ & Ht & _ & _ & _ & _ & _ & _ & _ & _
        & _ & H1 & H2 & H3 & Hst).
  rewrite Hr in Hr0. injection Hr0 as <-. rewrite Hst, Hs, Ht, <- count_by_type.
  cbn [filter]. rewrite !existsb_filter. clear Hst Hs Ht Hr.
  destruct (type_stats_shape (trades r) HIGH_CONVICTION)
    as [[F1 T1]|(s1 & x1 & l1 & F1 & T1 & C1)];
    rewrite T1 in H1; injection H1 as <-;
  destruct (type_stats_shape (trades r) CLUSTER_BUY)
    as [[F2 T2]|(s2 & x2 & l2 & F2 & T2 & C2)];
    rewrite T2 in H2; injection H2 as <-;
  destruct (type_stats_shape (trades r) VOLUME_SPIKE)
    as [[F3 T3]|(s3 & x3 & l3 & F3 & T3 & C3)];
    rewrite T3 in H3; injection H3 as <-;
  rewrite F1, F2, F3; cbn [app fold_left dict_set fst snd SignalType_eqb map fold_right];
  rewrite ?C1, ?C2, ?C3;
  (split; [reflexivity|]);
  (split; [repeat constructor; cbn [snd]; rewrite ?C1, ?C2, ?C3;
           unfold count; cbn [List.length]; lia|]);
  unfold count; cbn [List.length]; lia.
Qed.

Lemma calculate_stats_by_type_witness :
  exists r', _calculate_stats winning_run = Ok r'
             /\ map fst (stats_by_type r') = [HIGH_CONVICTION].
Proof.
  eexists. split; [vm_compute; reflexivity|].
  destruct (calculate_stats_by_type_partition winning_run _ ltac:(discriminate) eq_refl
              eq_refl) as (H & _).
  exact H.
Defined.

End BacktestStatsFacts.

(** * The replay of the alerts *)

Module BacktestReplayFacts.

Import Backtester.
Import AlertLifecycle.
Import BacktestReplay.

(** What a simulated trade records. *)
Lemma simulate_trade_inv alert config stored uniform gauss (s : Session)
    (trade : BacktestTrade) :
  _simulate_trade alert config stored uniform gauss s = Some trade ->
  exists token exit_time' exit_price' exit_reason' max_pnl,
    alert_token s alert = Some token
    /\ skip_rugged_tokens config && tk_is_rugged token = false
    /\ min_wallet_win_rate config <= wallet_win_rate trade
    /\ 0 < entry_mcap trade
    /\ _simulate_exit s token (al_created_at alert) (entry_price trade) config
         uniform gauss = Ok (exit_time', exit_price', exit_reason', max_pnl)
    /\ calculate_pnl config (entry_price trade) exit_price'
       = Ok (pnl_pct trade, pnl_sol trade)
    /\ signal_type trade = al_alert_type alert
    /\ entry_time trade = al_created_at alert
    /\ exit_time trade = Some exit_time'
    /\ exit_price trade = Some exit_price'
    /\ exit_reason trade = Some exit_reason'
    /\ max_pnl_pct trade = max_pnl
    /\ position_size_sol trade = cfg_position_size_sol config
    /\ token_address trade = tk_contract_address token.
Proof.
  unfold _simulate_trade, simulate.
  destruct (alert_token s alert) as [token|]; [|discriminate].
  destruct (skip_rugged_tokens config && tk_is_rugged token) eqn:Eskip; [discriminate|].
  destruct stored as [trigger_data|]; cbn [rbind]; [|discriminate].
  set (wallets := match trigger_data with Some d => td_wallets d | None => [] end).
  set (details := match trigger_data with Some d => td_details d | None => [] end).
  destruct (match wallets with
            | [] => Ok 0
            | _ :: _ => div (sum (map we_win_rate wallets)) (len wallets)
            end) as [avg_wr|]; cbn [rbind]; [|discriminate].
  destruct (Qltb avg_wr (min_wallet_win_rate config)) eqn:Ewr; [discriminate|].
  destruct (if truthy (tk_market_cap_sol token)
            then Ok (or_else (tk_market_cap_sol token) 0)
            else details_mcap details) as [mcap|]; cbn [rbind]; [|discriminate].
  destruct (Qleb mcap 0) eqn:Emc; [discriminate|].
  destruct (div mcap (or_else (tk_total_supply token) 1)) as [price|]; cbn [rbind];
    [|discriminate].
  destruct (_simulate_exit s token (al_created_at alert) price config uniform gauss)
    as [[[[et ep] er] mp]|] eqn:Eexit; cbn [rbind]; [|discriminate].
  destruct (calculate_pnl config price ep) as [[pct sol]|] eqn:Epnl; cbn [rbind];
    [|discriminate].
  intros [= <-]. cbn.
  apply Qltb_false_iff in Ewr. apply Qleb_false_iff in Emc.
  exists token, et, ep, er, mp. auto 20.
Qed.

Lemma calculate_pnl_value config entry_price' exit_price' pct sol :
  calculate_pnl config entry_price' exit_price' = Ok (pct, sol) ->
  (0 < entry_price' /\ pct = (exit_price' - entry_price') / entry_price' * 100
   \/ entry_price' <= 0 /\ pct = 0)
  /\ sol = cfg_position_size_sol config * (pct / 100).
Proof.
  unfold calculate_pnl.
  destruct (Qgtb entry_price' 0) eqn:E.
  - apply Qgtb_iff in E. rewrite div_ok by lra. cbn [rbind].
    rewrite div_ok by discriminate. cbn [rbind]. intros [= <- <-]. auto.
  - apply Qgtb_false_iff in E. cbn [rbind]. rewrite div_ok by discriminate.
    cbn [rbind]. intros [= <- <-]. auto.
Qed.

Lemma or_else_nonzero (o : option Q) : ~ or_else o 1 == 0.
Proof.
  unfold or_else. destruct o as [q|]; [|discriminate].
  destruct (Qeq_bool q 0) eqn:E; [discriminate|].
  now apply Qeq_bool_false_iff.
Qed.

(** The two exits of the take-profit strategy. *)
Lemma simulate_exit_take_profit (s : Session) token entry_time' entry_price' config
    uniform gauss :
  exit_strategy config = TAKE_PROFIT ->
  _simulate_exit s token entry_time' entry_price' config uniform gauss
  = Ok (entry_time' + inject_Z (60 * exit_time_minutes config),
        entry_price' * (9 # 10), "timeout"%string, -10)
  \/ exists max_trade,
       In max_trade (Models.trades s)
       /\ tr_token_id max_trade = tk_id token
       /\ entry_time' < tr_block_time max_trade
       /\ _simulate_exit s token entry_time' entry_price' config uniform gauss
          = Ok (tr_block_time max_trade,
                entry_price' * (1 + take_profit_pct config / 100),
                "take_profit"%string, take_profit_pct config).
Proof.
  intros Hs. unfold _simulate_exit. rewrite Hs.
  rewrite div_ok by discriminate. cbn [rbind].
  destruct (first _ _) as [max_trade|] eqn:Ef; [|now left].
  destruct (truthy (tr_mcap_at_trade max_trade)); [|now left].
  rewrite (div_ok _ _ (or_else_nonzero (tk_total_supply token))). cbn [rbind].
  destruct (Qgeb _ _); [right|now left].
  apply first_some in Ef. destruct Ef as [Hin _].
  apply QueryFacts.order_by_In in Hin. apply filter_In in Hin.
  destruct Hin as [Hin Hc]. apply andb_true_iff in Hc. destruct Hc as [Hid Hbt].
  apply Z.eqb_eq in Hid. apply Qgtb_iff in Hbt.
  exists max_trade. auto.
Qed.

(** X28.  Under the take-profit strategy a simulated trade ends in one of
    two ways.  Either a trade of the token after the entry is taken as the
    exit, at the target price, with reason "take_profit" and the configured
    percentage as maximal PnL; or the exit is the timeout after the
    configured minutes, at nine tenths of the entry price, with reason
    "timeout" and a maximal PnL of -10.  (The PnL in percent of the trade
    is computed again from the two prices, and rounds.) *)
Theorem take_profit_trade_exits_at_target_or_timeout alert config stored uniform gauss
    (s : Session) (trade : BacktestTrade) :
  exit_strategy config = TAKE_PROFIT ->
  _simulate_trade alert config stored uniform gauss s = Some trade ->
  (exit_reason trade = Some "take_profit"%string
   /\ max_pnl_pct trade = take_profit_pct config
   /\ exit_price trade = Some (entry_price trade * (1 + take_profit_pct config / 100))
   /\ exists max_trade,
        In max_trade (Models.trades s)
        /\ tr_token_id max_trade = al_token_id alert
        /\ entry_time trade < tr_block_time max_trade
        /\ exit_time trade = Some (tr_block_time max_trade))
  \/ (exit_reason trade = Some "timeout"%string
      /\ max_pnl_pct trade = -10
      /\ exit_price trade = Some (entry_price trade * (9 # 10))
      /\ exit_time trade
         = Some (entry_time trade + inject_Z (60 * exit_time_minutes config))).
Proof.
  intros Hs Ht. apply simulate_trade_inv in Ht.
  destruct Ht as (token & et & ep & er & mp & Htok & _ & _ & _ & Hexit & _ & _ & Hent
                  & Het & Hep & Her & Hmp & _).
  assert (Hid : tk_id token = al_token_id alert).
  { unfold alert_token in Htok. apply first_some in Htok. destruct Htok as [_ H].
    now apply Z.eqb_eq in H. }
  destruct (simulate_exit_take_profit s token (al_created_at alert) (entry_price trade)
              config uniform gauss Hs) as [Hto | (max_trade & Hin & Hmt & Hafter & Htp)].
  - right. rewrite Hto in Hexit. injection Hexit as <- <- <- <-.
    rewrite Her, Hmp, Het, Hep, Hent. repeat split.
  - left. rewrite Htp in Hexit. injection Hexit as <- <- <- <-.
    rewrite Her, Hmp, Het, Hep, Hent. repeat (split; [reflexivity|]).
    exists max_trade. rewrite <- Hid. auto.
Qed.

Lemma take_profit_trade_witness :
  exists trade,
    _simulate_trade (alert_at 1 HIGH_CONVICTION 1000 None) (config_with TAKE_PROFIT)
      (stored_example (alert_at 1 HIGH_CONVICTION 1000 None)) (3 # 10) (6 # 5)
      tracked_session = Some trade
    /\ exit_reason trade = Some "timeout"%string
    /\ max_pnl_pct trade = -10.
Proof.
  eexists. split; [vm_compute; reflexivity|].
  destruct (take_profit_trade_exits_at_target_or_timeout
              (alert_at 1 HIGH_CONVICTION 1000 None) (config_with TAKE_PROFIT)
              (stored_example (alert_at 1 HIGH_CONVICTION 1000 None)) (3 # 10) (6 # 5)
              tracked_session _ eq_refl eq_refl)
    as [(Hr & _) | (Hr & Hp & _)]; [discriminate Hr|]. split; [exact Hr|exact Hp].
Defined.

Section WithStore.

Variable stored_trigger_data : Alert -> result (option TriggerData).
Variable random_uniform : Alert -> Q.
Variable random_gauss : Alert -> Q.

Lemma simulate_all_In config (s : Session) (l : list Alert) (trade : BacktestTrade) :
  In trade (simulate_all stored_trigger_data random_uniform random_gauss config s l) ->
  exists alert,
    In alert l
    /\ _simulate_trade alert config (stored_trigger_data alert) (random_uniform alert)
         (random_gauss alert) s = Some trade.
Proof.
  unfold simulate_all. intros H. apply in_flat_map in H.
  destruct H as (alert & Hin & Ht). exists alert. split; [exact Hin|].
  destruct (_simulate_trade _ _ _ _ _ _) as [t|]; [|destruct Ht].
  destruct Ht as [->|[]]. reflexivity.
Qed.

Lemma simulate_all_length config (s : Session) (l : list Alert) :
  (List.length (simulate_all stored_trigger_data random_uniform random_gauss config s l)
   <= List.length l)%nat.
Proof.
  unfold simulate_all. induction l as [|a l IH]; cbn [flat_map List.length]; [lia|].
  rewrite length_app. destruct (_simulate_trade _ _ _ _ _ _); cbn [List.length]; lia.
Qed.

Lemma simulate_all_sorted config (s : Session) (l : list Alert) :
  StronglySorted (fun a b => al_created_at a <= al_created_at b) l ->
  StronglySorted (fun a b => entry_time a <= entry_time b)
    (simulate_all stored_trigger_data random_uniform random_gauss config s l).
Proof.
  induction 1 as [|a l Hl IH Ha]; [constructor|].
  unfold simulate_all. cbn [flat_map].
  fold (simulate_all stored_trigger_data random_uniform random_gauss config s l).
  destruct (_simulate_trade a config _ _ _ s) as [t|] eqn:Et; [|exact IH].
  cbn [app]. constructor; [exact IH|].
  rewrite Forall_forall. intros t' Ht'.
  apply simulate_all_In in Ht'. destruct Ht' as (a' & Hin & Ht').
  apply simulate_trade_inv in Et. apply simulate_trade_inv in Ht'.
  destruct Et as (? & ? & ? & ? & ? & _ & _ & _ & _ & _ & _ & _ & E1 & _).
  destruct Ht' as (? & ? & ? & ? & ? & _ & _ & _ & _ & _ & _ & _ & E2 & _).
  rewrite E1, E2. rewrite Forall_forall in Ha. now apply Ha.
Qed.

(** [run_backtest] returns, with the simulated trades as its trades. *)
Lemma run_backtest_ok config (s : Session) :
  exists r,
    run_backtest stored_trigger_data random_uniform random_gauss config s = Ok r
    /\ trades r
       = simulate_all stored_trigger_data random_uniform random_gauss config s
           (alerts_in_range config s).
Proof.
  unfold run_backtest.
  set (l := simulate_all _ _ _ config s (alerts_in_range config s)).
  destruct l as [|t l'] eqn:El.
  - exists (new_result config []). split; reflexivity.
  - destruct (BacktesterFacts.calculate_stats_ok (new_result config (t :: l')))
      as (r & Hr & Htr & _); [discriminate|].
    exists r. split; [exact Hr|exact Htr].
Qed.

(** X29.  [run_backtest] returns for every configuration and session.
    Each trade of its result comes from an alert of a selected type
    created within the dates of the configuration, on a token of the
    session that is not flagged as rugged when rugged tokens are to be
    skipped; its wallets reach the minimum win rate, its entry market cap
    is positive, its position is the configured one and its PnL in SOL is
    the position times the hundredth of its PnL in percent.  The trades
    are in the order of their entry, and are no more than the alerts. *)
Theorem run_backtest_trades_meet_filters config (s : Session) :
  exists r,
    run_backtest stored_trigger_data random_uniform random_gauss config s = Ok r
    /\ Forall (fun t =>
                 existsb (SignalType_eqb (signal_type t)) (signal_types config) = true
                 /\ start_date config <= entry_time t <= end_date config
                 /\ min_wallet_win_rate config <= wallet_win_rate t
                 /\ 0 < entry_mcap t
                 /\ position_size_sol t = cfg_position_size_sol config
                 /\ pnl_sol t == position_size_sol t * (pnl_pct t / 100)
                 /\ exists token,
                      In token (tokens s)
                      /\ tk_contract_address token = token_address t
                      /\ skip_rugged_tokens config && tk_is_rugged token = false)
              (trades r)
    /\ StronglySorted (fun a b => entry_time a <= entry_time b) (trades r)
    /\ (List.length (trades r) <= List.length (alerts s))%nat.
Proof.
  destruct (run_backtest_ok config s) as (r & Hr & Htr).
  exists r. split; [exact Hr|]. rewrite Htr. split; [|split].
  - rewrite Forall_forall. intros t Ht.
    apply simulate_all_In in Ht. destruct Ht as (alert & Hin & Ht).
    unfold alerts_in_range in Hin. apply QueryFacts.order_by_In in Hin.
    apply filter_In in Hin. destruct Hin as [_ Hc].
    apply andb_true_iff in Hc. destruct Hc as [Hc Hty].
    apply andb_true_iff in Hc. destruct Hc as [Hge Hle].
    apply Qgeb_iff in Hge. apply Qleb_iff in Hle.
    apply simulate_trade_inv in Ht.
    destruct Ht as (token & et & ep & er & mp & Htok & Hskip & Hwr & Hmc & _ & Hpnl
                    & Hsig & Hent & _ & _ & _ & _ & Hpos & Haddr).
    rewrite Hsig, Hent, Hpos.
    split; [exact Hty|]. split; [split; assumption|].
    split; [exact Hwr|]. split; [exact Hmc|]. split; [reflexivity|].
    split.
    + apply calculate_pnl_value in Hpnl. destruct Hpnl as [_ ->]. reflexivity.
    + exists token. unfold alert_token in Htok. apply first_some in Htok.
      destruct Htok as [Hin _]. auto.
  - apply simulate_all_sorted. unfold alerts_in_range.
    apply (QueryFacts.order_by_asc al_created_at).
  - eapply Nat.le_trans; [apply simulate_all_length|].
    unfold alerts_in_range. rewrite QueryFacts.order_by_length. apply filter_length_le.
Qed.

(** X30.  Under the stop-loss and the trailing-stop strategies every
    simulated trade leaves at the entry price one hour after the entry,
    with reason "unknown" and a PnL of 0: the backtest counts no winning
    trade and reports a win rate of 0. *)
Theorem stop_strategies_yield_no_winner config (s : Session) (r : BacktestResult) :
  exit_strategy config = STOP_LOSS \/ exit_strategy config = TRAILING_STOP ->
  run_backtest stored_trigger_data random_uniform random_gauss config s = Ok r ->
  Forall (fun t => exit_reason t = Some "unknown"%string
                   /\ exit_price t = Some (entry_price t)
                   /\ exit_time t = Some (entry_time t + 3600)
                   /\ pnl_pct t == 0 /\ pnl_sol t == 0) (trades r)
  /\ winning_trades r = 0%Z
  /\ win_rate r == 0.
Proof.
  intros Hs Hr.
  destruct (run_backtest_ok config s) as (r0 & Hr0 & Htr).
  rewrite Hr in Hr0. injection Hr0 as <-.
  assert (Hall : Forall (fun t => exit_reason t = Some "unknown"%string
                   /\ exit_price t = Some (entry_price t)
                   /\ exit_time t = Some (entry_time t + 3600)
                   /\ pnl_pct t == 0 /\ pnl_sol t == 0) (trades r)).
  { rewrite Htr, Forall_forall. intros t Ht.
    apply simulate_all_In in Ht. destruct Ht as (alert & _ & Ht).
    apply simulate_trade_inv in Ht.
    destruct Ht as (token & et & ep & er & mp & _ & _ & _ & _ & Hexit & Hpnl & _ & Hent
                    & Het & Hep & Her & _).
    assert (Hx : _simulate_exit s token (al_created_at alert) (entry_price t) config
                   (random_uniform alert) (random_gauss alert)
                 = Ok (al_created_at alert + 3600, entry_price t, "unknown"%string, 0)).
    { unfold _simulate_exit. destruct Hs as [-> | ->]; reflexivity. }
    rewrite Hx in Hexit. injection Hexit as <- <- <- <-.
    rewrite Her, Hep, Het, Hent. repeat (split; [reflexivity|]).
    apply calculate_pnl_value in Hpnl. destruct Hpnl as [Hpct ->].
    assert (Hz : pnl_pct t == 0).
    { destruct Hpct as [[Hpos ->] | [_ ->]]; [|reflexivity].
      field. intros H0. rewrite H0 in Hpos. now apply Qlt_irrefl in Hpos. }
    split; [exact Hz|]. rewrite Hz. field. }
  split; [exact Hall|].
  assert (Hw : count (filter (fun t => Qgtb (pnl_pct t) 0) (trades r)) = 0%Z).
  { assert (Hf : filter (fun t => Qgtb (pnl_pct t) 0) (trades r) = []).
    { clear Hr Htr. induction Hall as [|t l (_ & _ & _ & Hz & _) _ IH]; [reflexivity|].
      cbn [filter]. assert (E : Qgtb (pnl_pct t) 0 = false).
      { apply Qgtb_false_iff. rewrite Hz. apply Qle_refl. }
      now rewrite E. }
    now rewrite Hf. }
  unfold run_backtest in Hr.
  destruct (simulate_all _ _ _ config s (alerts_in_range config s)) as [|t l] eqn:El.
  - cbn in Hr. injection Hr as <-. cbn. split; reflexivity.
  - destruct (BacktestStatsFacts.calculate_stats_fields (new_result config (t :: l)))
      as (r1 & best & worst & hc & cb & vs & Hr1 & Htr1 & _ & Hwin & _ & Hwr & _);
      [discriminate|].
    rewrite Hr in Hr1. injection Hr1 as <-.
    cbn [new_result trades] in Hwin, Hwr, Htr1.
    rewrite <- Htr1 in Hwin, Hwr. rewrite Hw in Hwin, Hwr.
    split; [exact Hwin|]. rewrite Hwr.
    unfold Qdiv. change (inject_Z 0) with 0. ring.
Qed.

End WithStore.

Lemma stop_strategies_witness :
  exists r,
    run_backtest stored_example draw_uniform draw_gauss (config_with STOP_LOSS)
      tracked_session = Ok r
    /\ List.length (trades r) = 1%nat
    /\ winning_trades r = 0%Z.
Proof.
  eexists. split; [vm_compute; reflexivity|]. split; [reflexivity|].
  apply (stop_strategies_yield_no_winner stored_example draw_uniform draw_gauss
           (config_with STOP_LOSS) tracked_session).
  - now left.
  - vm_compute. reflexivity.
Defined.

End BacktestReplayFacts.

(** * The outcome tracker between two runs *)

Module OutcomeRunFacts.

Import OutcomeTracker.

Section WithService.

Variable get_token_metadata : string -> result TokenMetadata.

(** A returned outcome carries the id of its alert, and the outcome is
    written to the rows with that id. *)
Lemma check_alert_outcome_written now alert (s : Session) o s' :
  check_alert_outcome get_token_metadata now alert s = (Ok o, s') ->
  alert_id o = al_id alert
  /\ exists p, alerts s' = alerts (write_outcome alert p now s).
Proof.
  unfold check_alert_outcome, bind at 1, get at 1.
  destruct (alert_token s alert) as [token|]; [|discriminate].
  unfold bind at 1, lift at 1.
  destruct (get_token_metadata (tk_contract_address token)) as [md|]; [|discriminate].
  unfold bind at 1, lift at 1.
  destruct (match filter _ (trades s) with [] => _ | _ => _ end) as [p|]; [|discriminate].
  unfold bind at 1, lift at 1.
  destruct (if Qgtb p 0 then _ else Ok 0) as [r|]; [|discriminate].
  unfold bind at 1, lift at 1.
  destruct (if Qgtb p 0 then _ else Ok 0) as [a|]; [|discriminate].
  destruct (determine_status ((now - al_created_at alert) / 60) r);
    unfold bind, put, get, ret; intros [= <- <-]; cbn [alert_id];
    (split; [reflexivity|]); exists r; reflexivity.
Qed.

Lemma write_outcome_checked now alert p (l : list Alert) (ids : list Z) :
  Forall (fun r => In (al_id r) ids -> al_outcome_checked_at r = Some now) l ->
  Forall (fun r => In (al_id r) (ids ++ [al_id alert]) ->
                   al_outcome_checked_at r = Some now)
         (map (fun r => if Z.eqb (al_id r) (al_id alert) then set_outcome p now r else r) l).
Proof.
  intros H. rewrite Forall_map. eapply Forall_impl; [|exact H].
  cbn beta. intros r Hr.
  destruct (Z.eqb (al_id r) (al_id alert)) eqn:E; [reflexivity|].
  intros Hin. apply in_app_or in Hin. destruct Hin as [Hin|[Hin|[]]]; [now apply Hr|].
  apply Z.eqb_neq in E. congruence.
Qed.

Lemma write_outcome_checked_same now alert p (l : list Alert) (ids : list Z) :
  Forall (fun r => In (al_id r) ids -> al_outcome_checked_at r = Some now) l ->
  Forall (fun r => In (al_id r) ids -> al_outcome_checked_at r = Some now)
         (map (fun r => if Z.eqb (al_id r) (al_id alert) then set_outcome p now r else r) l).
Proof.
  intros H. rewrite Forall_map. eapply Forall_impl; [|exact H].
  cbn beta. intros r Hr.
  destruct (Z.eqb (al_id r) (al_id alert)); [reflexivity|exact Hr].
Qed.

(** The loop never raises, returns at most one outcome for each alert it
    is given, and leaves the time of the run on every row for which it
    returns an outcome. *)
Lemma check_each_checked now (l : list Alert) (outs : list AlertOutcome) (s : Session) :
  Forall (fun r => In (al_id r) (map alert_id outs) ->
                   al_outcome_checked_at r = Some now) (alerts s) ->
  exists outs' s',
    check_each get_token_metadata now l outs s = (Ok outs', s')
    /\ (List.length outs' <= List.length outs + List.length l)%nat
    /\ Forall (fun r => In (al_id r) (map alert_id outs') ->
                        al_outcome_checked_at r = Some now) (alerts s').
Proof.
  revert outs s. induction l as [|alert l IH]; intros outs s Hinv; cbn [check_each].
  - unfold ret. exists outs, s. split; [reflexivity|]. split; [lia|exact Hinv].
  - destruct (check_alert_outcome get_token_metadata now alert s) as [[o|e] s1] eqn:Ec.
    + apply check_alert_outcome_written in Ec. destruct Ec as (Hid & p & Ha).
      destruct (IH (outs ++ [o]) s1) as (outs' & s' & H1 & H2 & H3).
      { rewrite Ha, map_app. cbn [map write_outcome alerts]. rewrite Hid.
        now apply write_outcome_checked. }
      exists outs', s'. split; [exact H1|]. split; [|exact H3].
      rewrite length_app in H2. cbn [List.length] in *. lia.
    + pose proof (OutcomeTrackerFacts.check_alert_outcome_alerts get_token_metadata
                    now alert s) as Ha.
      rewrite Ec in Ha. cbn [snd] in Ha.
      destruct (IH outs s1) as (outs' & s' & H1 & H2 & H3).
      { destruct Ha as [->|[p ->]]; [exact Hinv|].
        cbn [write_outcome alerts]. now apply write_outcome_checked_same. }
      exists outs', s'. split; [exact H1|]. split; [|exact H3].
      cbn [List.length]. lia.
Qed.

(** X16.  [check_pending_alerts] never raises and returns at most 50
    outcomes; an alert for which it has returned an outcome is not
    selected again by a run that starts less than four hours later. *)
Theorem checked_alerts_rest_four_hours now now' (s : Session) :
  now' < now + 14400 ->
  exists outs s',
    check_pending_alerts get_token_metadata now s = (Ok outs, s')
    /\ (List.length outs <= 50)%nat
    /\ Forall (fun a => ~ In (al_id a) (map alert_id outs)) (alerts_to_check now' s').
Proof.
  intros Hsoon. unfold check_pending_alerts, bind, get.
  destruct (check_each_checked now (alerts_to_check now s) [] s)
    as (outs & s' & H1 & H2 & H3).
  { rewrite Forall_forall. intros r _ []. }
  exists outs, s'. split; [exact H1|]. split.
  { cbn [List.length] in H2. eapply Nat.le_trans; [exact H2|].
    unfold alerts_to_check. apply firstn_le_length. }
  rewrite Forall_forall. intros a Ha Hin.
  unfold alerts_to_check in Ha. apply OutcomeTrackerFacts.In_firstn in Ha.
  apply filter_In in Ha. destruct Ha as [Hrow Hc].
  apply andb_true_iff in Hc. destruct Hc as [_ Hc].
  rewrite Forall_forall in H3. rewrite (H3 a Hrow Hin) in Hc.
  apply Qleb_iff in Hc. unfold datetime in *. lra.
Qed.

End WithService.

Lemma checked_alerts_rest_witness :
  exists outs s',
    check_pending_alerts crashed_metadata 4000 tracked_session = (Ok outs, s')
    /\ (List.length outs <= 50)%nat.
Proof.
  destruct (checked_alerts_rest_four_hours crashed_metadata 4000 5000 tracked_session)
    as (outs & s' & H1 & H2 & _).
  - reflexivity.
  - exists outs, s'. split; assumption.
Defined.

End OutcomeRunFacts.
